(** * HealthMetrics360: the extraction adapters, the aggregator and the pivot

    A shallow embedding of [main.py] (the terminal program) and
    [strtest.py] (the Streamlit dashboard) of the repository, followed
    by the stand-alone extractor of [OECD.py].

    - Python text is a [string] of bytes (UTF-8).  [lower], [upper] and
      [strip] act on the ASCII letters and the ASCII white space, which is
      what [str.lower], [str.upper] and [str.strip] do on ASCII text; the
      catalogue keys and the country names of the program are ASCII.
    - A decoded JSON document is a [json] tree; a Python [dict] is an
      association list read by its first binding.
    - Exceptions are explicit: a computation returns [Ok v] or [Raise e],
      and [try ... except Exception] is the combinator [try_except].
    - The network is an oracle [Net] giving the outcome of the n-th GET;
      the requests sent and the lines shown to the user are logged in the
      state threaded through the monad [M]. *)

From Stdlib Require Import ZArith QArith_base Ascii String Sorted.
From stdpp Require Import base option list gmap strings.

Set Warnings "-register-all".

Local Open Scope string_scope.
Local Open Scope Z_scope.
Local Open Scope list_scope.

(** ** Python strings *)

Module PyStr.

Definition is_upper (c : ascii) : bool :=
  let n := nat_of_ascii c in (Nat.leb 65 n && Nat.leb n 90)%bool.

Definition is_lower (c : ascii) : bool :=
  let n := nat_of_ascii c in (Nat.leb 97 n && Nat.leb n 122)%bool.

Definition lower_char (c : ascii) : ascii :=
  if is_upper c then ascii_of_nat (nat_of_ascii c + 32) else c.

Definition upper_char (c : ascii) : ascii :=
  if is_lower c then ascii_of_nat (nat_of_ascii c - 32) else c.

(** [str.lower] and [str.upper]. *)
Fixpoint lower (s : string) : string :=
  match s with
  | EmptyString => EmptyString
  | String c r => String (lower_char c) (lower r)
  end.

Fixpoint upper (s : string) : string :=
  match s with
  | EmptyString => EmptyString
  | String c r => String (upper_char c) (upper r)
  end.

(** The ASCII characters for which [str.isspace] holds: tab, line feed,
    vertical tab, form feed, carriage return, the four separators
    0x1c-0x1f and the space. *)
Definition is_space (c : ascii) : bool :=
  let n := nat_of_ascii c in
  ((Nat.leb 9 n && Nat.leb n 13) || (Nat.leb 28 n && Nat.leb n 32))%bool.

Fixpoint lstrip (s : string) : string :=
  match s with
  | EmptyString => EmptyString
  | String c r => if is_space c then lstrip r else s
  end.

Fixpoint rstrip (s : string) : string :=
  match s with
  | EmptyString => EmptyString
  | String c r =>
      match rstrip r with
      | EmptyString => if is_space c then EmptyString else String c EmptyString
      | r' => String c r'
      end
  end.

(** [str.strip()]. *)
Definition strip (s : string) : string := rstrip (lstrip s).

(** [pat in s] for two strings. *)
Fixpoint contains (pat s : string) : bool :=
  (String.prefix pat s ||
     match s with
     | EmptyString => false
     | String _ r => contains pat r
     end)%bool.

(** [len(s)]: the number of code points, that is the bytes of the UTF-8
    text which are not continuation bytes (10xxxxxx). *)
Definition is_continuation (c : ascii) : bool :=
  let n := nat_of_ascii c in (Nat.leb 128 n && Nat.leb n 191)%bool.

Fixpoint len (s : string) : nat :=
  match s with
  | EmptyString => 0%nat
  | String c r => if is_continuation c then len r else S (len r)
  end.

(** The code points of [s], each as a string: what iterating over a
    [str] yields. *)
Fixpoint chars_from (cur : string) (s : string) : list string :=
  match s with
  | EmptyString => match cur with EmptyString => [] | _ => [cur] end
  | String c r =>
      if is_continuation c then chars_from (cur +:+ String c EmptyString) r
      else match cur with
           | EmptyString => chars_from (String c EmptyString) r
           | _ => cur :: chars_from (String c EmptyString) r
           end
  end.

Definition chars (s : string) : list string := chars_from EmptyString s.

(** [s.split(',')]. *)
Fixpoint split_from (sep : ascii) (cur : string) (s : string) : list string :=
  match s with
  | EmptyString => [cur]
  | String c r =>
      if Ascii.eqb c sep then cur :: split_from sep EmptyString r
      else split_from sep (cur +:+ String c EmptyString) r
  end.

Definition split (sep : ascii) (s : string) : list string :=
  split_from sep EmptyString s.

Definition digit_val (c : ascii) : option Z :=
  let n := nat_of_ascii c in
  if (Nat.leb 48 n && Nat.leb n 57)%bool then Some (Z.of_nat (n - 48)) else None.

(** The digits of a decimal literal; single underscores are allowed
    between digits, as in [int("2_015")]. *)
Fixpoint parse_digits (s : string) (acc : Z) (after_digit : bool) : option Z :=
  match s with
  | EmptyString => if after_digit then Some acc else None
  | String c r =>
      match digit_val c with
      | Some d => parse_digits r (10 * acc + d) true
      | None =>
          if (Ascii.eqb c "_" && after_digit)%bool then parse_digits r acc false
          else None
      end
  end.

(** [int(s)] for a string: white space around, an optional sign, digits. *)
Definition to_int (s : string) : option Z :=
  match strip s with
  | String "+" r => parse_digits r 0 false
  | String "-" r => Z.opp <$> parse_digits r 0 false
  | t => parse_digits t 0 false
  end.

End PyStr.

Example lower_ex : PyStr.lower "% Population with Health INSURANCE" = "% population with health insurance".
Proof. reflexivity. Qed.

Example strip_ex : PyStr.strip "  south korea " = "south korea".
Proof. reflexivity. Qed.

Example to_int_ex :
  PyStr.to_int " 2015 " = Some 2015 /\ PyStr.to_int "-7" = Some (-7) /\
  PyStr.to_int "2_015" = Some 2015 /\ PyStr.to_int "2015.0" = None /\
  PyStr.to_int "" = None /\ PyStr.to_int "20_" = None.
Proof. repeat split; reflexivity. Qed.

Example split_ex : PyStr.split "," "1, 2,,3" = ["1"; " 2"; ""; "3"].
Proof. reflexivity. Qed.

(** ** Exceptions *)

(** The exception classes the program can meet.  All but
    [KeyboardInterrupt] derive from [Exception]. *)
Inductive exn_class :=
| TypeError | ValueError | OverflowError | KeyError | IndexError
| AttributeError | RequestException | HTTPError | ParserError
| KeyboardInterrupt.

Record exn := Exn { exn_cls : exn_class; exn_msg : string }.

Definition is_Exception (e : exn) : bool :=
  match exn_cls e with
  | KeyboardInterrupt => false
  | _ => true
  end.

Inductive exc (A : Type) :=
| Ok (a : A)
| Raise (e : exn).
Arguments Ok {A} a.
Arguments Raise {A} e.

Definition raise {A} (c : exn_class) (m : string) : exc A := Raise (Exn c m).

#[global] Instance exc_ret : MRet exc := fun _ a => Ok a.
#[global] Instance exc_bind : MBind exc := fun _ _ f m =>
  match m with
  | Ok a => f a
  | Raise e => Raise e
  end.

(** An outcome handed over by the environment that is no user
    interruption. *)
Definition ordinary {A} (r : exc A) : Prop :=
  match r with
  | Ok _ => True
  | Raise e => is_Exception e = true
  end.

(** ** Python values *)

(** A [float]: not a number, an infinity, or a finite value (every finite
    float is a rational). *)
Inductive pyfloat :=
| FNaN
| FInf (negative : bool)
| FFin (q : Q).

Inductive scalar :=
| SNone
| SBool (b : bool)
| SInt (n : Z)
| SFloat (f : pyfloat)
| SStr (s : string).

(** What [response.json()] returns. *)
Inductive json :=
| JS (v : scalar)
| JList (l : list json)
| JDict (kv : list (string * json)).

Coercion JS : scalar >-> json.

Definition None_ : json := JS SNone.

Module Py.

(** [bool(v)], the test made by [if v] and [v and ...]. *)
Definition truthy (v : json) : bool :=
  match v with
  | JS SNone => false
  | JS (SBool b) => b
  | JS (SInt n) => negb (n =? 0)
  | JS (SFloat (FFin q)) => negb (Qnum q =? 0)
  | JS (SFloat _) => true
  | JS (SStr s) => negb (String.eqb s "")
  | JList l => match l with [] => false | _ => true end
  | JDict kv => match kv with [] => false | _ => true end
  end.

(** [int(v)]. *)
Definition int (v : json) : exc Z :=
  match v with
  | JS (SInt n) => Ok n
  | JS (SBool b) => Ok (if b then 1 else 0)
  | JS (SFloat FNaN) => raise ValueError "cannot convert float NaN to integer"
  | JS (SFloat (FInf _)) => raise OverflowError "cannot convert float infinity to integer"
  | JS (SFloat (FFin q)) => Ok (Z.quot (Qnum q) (Zpos (Qden q)))
  | JS (SStr s) =>
      match PyStr.to_int s with
      | Some n => Ok n
      | None => raise ValueError ("invalid literal for int() with base 10: " +:+ s)
      end
  | JS SNone | JList _ | JDict _ =>
      raise TypeError "int() argument must be a string, a bytes-like object or a real number"
  end.

(** Lookup in a [dict] given as an association list. *)
Fixpoint assoc {A} (k : string) (kv : list (string * A)) : option A :=
  match kv with
  | [] => None
  | (k', v) :: r => if String.eqb k k' then Some v else assoc k r
  end.

(** The keys of a [dict], each once, in insertion order. *)
Fixpoint keys {A} (kv : list (string * A)) : list string :=
  match kv with
  | [] => []
  | (k, _) :: r => k :: filter (fun k' => k' ≠ k) (keys r)
  end.

Definition is_str (s : string) (v : json) : bool :=
  match v with
  | JS (SStr s') => String.eqb s' s
  | _ => false
  end.

(** [v == s] for a string [s]. *)
Definition eq_str (v : json) (s : string) : bool := is_str s v.

(** [v is not None]. *)
Definition is_not_None (v : json) : bool :=
  match v with
  | JS SNone => false
  | _ => true
  end.

(** [item.get(k)]: [None] when the key is absent; only a [dict] has the
    method. *)
Definition get (item : json) (k : string) : exc json :=
  match item with
  | JDict kv => Ok (default None_ (assoc k kv))
  | _ => raise AttributeError ("object has no attribute 'get'")
  end.

(** [k in data] for a string [k]. *)
Definition contains (k : string) (data : json) : exc bool :=
  match data with
  | JDict kv => Ok (bool_decide (is_Some (assoc k kv)))
  | JList l => Ok (existsb (is_str k) l)
  | JS (SStr s) => Ok (PyStr.contains k s)
  | JS _ => raise TypeError "argument is not iterable"
  end.

(** [data[k]] for a string [k]. *)
Definition getitem_str (data : json) (k : string) : exc json :=
  match data with
  | JDict kv =>
      match assoc k kv with
      | Some v => Ok v
      | None => raise KeyError k
      end
  | JList _ => raise TypeError "list indices must be integers or slices, not str"
  | JS (SStr _) => raise TypeError "string indices must be integers"
  | JS _ => raise TypeError "object is not subscriptable"
  end.

(** [data[1]]. *)
Definition getitem_1 (data : json) : exc json :=
  match data with
  | JList l =>
      match l !! 1%nat with
      | Some v => Ok v
      | None => raise IndexError "list index out of range"
      end
  | JDict _ => raise KeyError "1"
  | JS (SStr s) =>
      match PyStr.chars s !! 1%nat with
      | Some c => Ok (JS (SStr c))
      | None => raise IndexError "string index out of range"
      end
  | JS _ => raise TypeError "object is not subscriptable"
  end.

(** [len(data)]. *)
Definition len (data : json) : exc nat :=
  match data with
  | JList l => Ok (length l)
  | JDict kv => Ok (length (keys kv))
  | JS (SStr s) => Ok (PyStr.len s)
  | JS _ => raise TypeError "object has no len()"
  end.

(** The values a [for] loop over [v] goes through. *)
Definition iter (v : json) : exc (list json) :=
  match v with
  | JList l => Ok l
  | JDict kv => Ok (map (fun k => JS (SStr k)) (keys kv))
  | JS (SStr s) => Ok (map (fun c => JS (SStr c)) (PyStr.chars s))
  | JS _ => raise TypeError "object is not iterable"
  end.

(** [pd.notna(v)] on a scalar: neither [None] nor NaN. *)
Definition notna (v : json) : bool :=
  match v with
  | JS SNone | JS (SFloat FNaN) => false
  | _ => true
  end.

End Py.

Example int_ex :
  Py.int (SStr "2015") = Ok 2015 /\ Py.int (SInt 2024) = Ok 2024 /\
  Py.int (SFloat (FFin (Qmake 4031 2))) = Ok 2015 /\
  Py.int (SFloat (FFin (Qmake (-5) 2))) = Ok (-2).
Proof. repeat split; reflexivity. Qed.

(** ** The shared record shape and the table *)

(** One row of the unified table: the dictionary appended to [records]. *)
Record record := Rec {
  Year : Z;
  Country : string;
  KPI : string;
  Value : json;
  Source : string
}.

(** A [pd.DataFrame] built from such dictionaries, in row order;
    [pd.DataFrame()] is the empty list. *)
Definition DataFrame := list record.

Definition empty (df : DataFrame) : bool :=
  match df with [] => true | _ => false end.

(** A row of the table read by [pd.read_csv]: column name to cell. *)
Definition row := list (string * scalar).

(** ** The network *)

Record Request := Req {
  url : string;
  params : list (string * string)
}.

(** What the program does with a response: [raise_for_status()],
    [json()], and [pd.read_csv(StringIO(response.text))]. *)
Record Response := Resp {
  raise_for_status : exc unit;
  response_json : exc json;
  read_csv : exc (list row)
}.

(** The outcome of the n-th [requests.get] of a run. *)
Definition Net := nat -> Request -> exc Response.

(** ** What the user is shown *)

Inductive Output :=
| Print (line : string)
| PrintPivot (cells : list (string * Z * json))
| SaveCsv (df : DataFrame)
| StWarning (text : string)
| StError (text : string)
| StSuccess (rows : nat)
| StDataframe (cells : list (string * (string * Z) * json)).

(** ** The monad of a run *)

Record State := St {
  sent : list Request;
  shown : list Output
}.

Definition start : State := St [] [].

Definition M (A : Type) := Net -> State -> exc A * State.

#[global] Instance M_ret : MRet M := fun _ a _ s => (Ok a, s).
#[global] Instance M_bind : MBind M := fun _ _ f m net s =>
  match m net s with
  | (Ok a, s') => f a net s'
  | (Raise e, s') => (Raise e, s')
  end.

Definition lift {A} (r : exc A) : M A := fun _ s => (r, s).

Definition show (o : Output) : M unit :=
  fun _ s => (Ok tt, St (sent s) (shown s ++ [o])).

Definition print (line : string) : M unit := show (Print line).

(** [requests.get(url, params=params, timeout=30)]. *)
Definition requests_get (u : string) (p : list (string * string)) : M Response :=
  fun net s =>
    let r := Req u p in
    (net (length (sent s)) r, St (sent s ++ [r]) (shown s)).

(** [try: body / except Exception as e: handler e]. *)
Definition try_except {A} (body : M A) (handler : exn -> M A) : M A :=
  fun net s =>
    match body net s with
    | (Raise e, s') => if is_Exception e then handler e net s' else (Raise e, s')
    | r => r
    end.

(** ** The record loops of the three adapters

    The loops that fill [records] are the same text in [main.py] and in
    [strtest.py]. *)

Section Records.

Variables country_code kpi_name : string.

(** [for item in data['value']: ...] of [extract_who_gho_data]. *)
Fixpoint who_gho_loop (items : list json) (records : list record) : exc (list record) :=
  match items with
  | [] => Ok records
  | item :: rest =>
      spatial ← Py.get item "SpatialDim";
      if Py.eq_str spatial country_code then
        year ← Py.get item "TimeDim";
        if Py.truthy year then
          y ← Py.int year;
          if 2015 <=? y then
            value ← Py.get item "NumericValue";
            who_gho_loop rest
              (records ++ [Rec y country_code kpi_name value "WHO GHO"])
          else who_gho_loop rest records
        else who_gho_loop rest records
      else who_gho_loop rest records
  end.

Definition who_gho_records (data : json) : exc (list record) :=
  has_value ← Py.contains "value" data;
  if has_value : bool then
    value ← Py.getitem_str data "value";
    items ← Py.iter value;
    who_gho_loop items []
  else Ok [].

(** [for item in data[1]: ...] of [extract_world_bank_data]. *)
Fixpoint world_bank_loop (items : list json) (records : list record) : exc (list record) :=
  match items with
  | [] => Ok records
  | item :: rest =>
      value ← Py.get item "value";
      if Py.is_not_None value then
        date ← Py.getitem_str item "date";
        y ← Py.int date;
        value' ← Py.getitem_str item "value";
        world_bank_loop rest
          (records ++ [Rec y country_code kpi_name value' "World Bank"])
      else world_bank_loop rest records
  end.

Definition world_bank_records (data : json) : exc (list record) :=
  n ← Py.len data;
  if Nat.ltb 1 n then
    observations ← Py.getitem_1 data;
    if Py.truthy observations then
      items ← Py.iter observations;
      world_bank_loop items []
    else Ok []
  else Ok [].

(** [row.get(col)] and [row[col]] on a row of the CSV table. *)
Definition row_get (r : row) (col : string) : json :=
  JS (default SNone (Py.assoc col r)).

Definition row_getitem (r : row) (col : string) : exc json :=
  match Py.assoc col r with
  | Some v => Ok (JS v)
  | None => raise KeyError col
  end.

(** [for _, row in df.iterrows(): ...] of [extract_oecd_data]. *)
Fixpoint oecd_loop (rows : list row) (records : list record) : exc (list record) :=
  match rows with
  | [] => Ok records
  | r :: rest =>
      if Py.notna (row_get r "OBS_VALUE") then
        let year := row_get r "TIME_PERIOD" in
        if Py.truthy year then
          y ← Py.int year;
          if 2015 <=? y then
            value ← row_getitem r "OBS_VALUE";
            oecd_loop rest
              (records ++ [Rec y country_code kpi_name value "OECD"])
          else oecd_loop rest records
        else oecd_loop rest records
      else oecd_loop rest records
  end.

Definition oecd_records (df : list row) : exc (list record) := oecd_loop df [].

End Records.

(** The branch of [extract_oecd_data] that picks the dataset. *)
Definition health_protection : string := "OECD.ELS.HD,DSD_HEALTH_PROT@DF_HEALTH_PROT".
Definition health_statistics : string := "OECD.ELS.HD,DSD_HEALTH_STAT@DF_HEALTH_STAT".

Definition oecd_dataset (kpi_name : string) : string :=
  if PyStr.contains "insurance" (PyStr.lower kpi_name)
  then health_protection
  else health_statistics.

(** [self.api_urls]. *)
Inductive database := WHO_GHO | WORLD_BANK | OECD.

Definition api_urls (db : database) : string :=
  match db with
  | WHO_GHO => "https://ghoapi.azureedge.net/api/"
  | WORLD_BANK => "https://api.worldbank.org/v2/"
  | OECD => "https://sdmx.oecd.org/public/rest/data/"
  end.

Definition world_bank_url (country_code indicator_code : string) : string :=
  api_urls WORLD_BANK +:+ "country/" +:+ country_code +:+ "/indicator/" +:+ indicator_code.

Definition world_bank_params : list (string * string) :=
  [("format", "json"); ("date", "2015:2024"); ("per_page", "100")].

Definition oecd_url (country_code kpi_name indicator_code : string) : string :=
  api_urls OECD +:+ oecd_dataset kpi_name +:+ "/" +:+ country_code +:+ "."
    +:+ indicator_code +:+ ".._T".

Definition oecd_params : list (string * string) :=
  [("startPeriod", "2015"); ("endPeriod", "2024");
   ("dimensionAtObservation", "AllDimensions"); ("format", "csvfilewithlabels")].

(** ** The pandas calls *)

Module Pandas.

Definition then_by (c1 c2 : comparison) : comparison :=
  match c1 with
  | Eq => c2
  | _ => c1
  end.

(** The row orders of [sort_values(['KPI', 'Year'])] and of
    [sort_values(['Country', 'KPI', 'Year'])]: strings by code point,
    years as integers, the columns in turn. *)
Definition by_kpi_year (a b : record) : comparison :=
  then_by (String.compare (KPI a) (KPI b)) (Z.compare (Year a) (Year b)).

Definition by_country_kpi_year (a b : record) : comparison :=
  then_by (String.compare (Country a) (Country b)) (by_kpi_year a b).

Definition not_after (cmp : record -> record -> comparison) (a b : record) : bool :=
  match cmp a b with
  | Gt => false
  | _ => true
  end.

Fixpoint place (cmp : record -> record -> comparison) (x : record) (l : DataFrame) : DataFrame :=
  match l with
  | [] => [x]
  | y :: r => if not_after cmp x y then x :: y :: r else y :: place cmp x r
  end.

(** [df.sort_values(by)]: the rows in the order of [by]; rows with equal
    keys keep their relative order. *)
Fixpoint sort_values (cmp : record -> record -> comparison) (df : DataFrame) : DataFrame :=
  match df with
  | [] => []
  | x :: r => place cmp x (sort_values cmp r)
  end.

(** [pd.concat(all_data, ignore_index=True)]. *)
Definition concat (all_data : list DataFrame) : DataFrame := mjoin all_data.

Section Pivot.

Context {K : Type} `{EqDecision K}.

(** The cell of key [k], when there is one. *)
Fixpoint cell (k : K) (cells : list (K * json)) : option json :=
  match cells with
  | [] => None
  | (k', v) :: r => if decide (k' = k) then Some v else cell k r
  end.

Fixpoint first_values (key : record -> K) (df : DataFrame) (cells : list (K * json))
  : list (K * json) :=
  match df with
  | [] => cells
  | r :: rest =>
      if (Py.notna (Value r) && negb (bool_decide (is_Some (cell (key r) cells))))%bool
      then first_values key rest (cells ++ [(key r, Value r)])
      else first_values key rest cells
  end.

(** [df.pivot_table(index=..., columns=..., values='Value',
    aggfunc='first')]: the rows are grouped by their key and each
    group gives one cell, holding the first value of the group that is
    not NA ([GroupBy.first] skips NA values); a group without such a
    value gives no cell.  The cells are listed by first appearance. *)
Definition pivot_table (key : record -> K) (df : DataFrame) : list (K * json) :=
  first_values key df [].

End Pivot.

(** The two pivots of the program: KPI against Year, and KPI against
    (Country, Year). *)
Definition kpi_year (r : record) : string * Z := (KPI r, Year r).
Definition kpi_country_year (r : record) : string * (string * Z) :=
  (KPI r, (Country r, Year r)).

(** [df['Source'].unique()]. *)
Fixpoint unique (l : list string) : list string :=
  match l with
  | [] => []
  | x :: r => x :: filter (fun y => y ≠ x) (unique r)
  end.

End Pandas.

(** ** The selection of indicators *)

#[global] Instance database_eq_dec : EqDecision database.
Proof. solve_decision. Defined.

(** [selected_kpis]: the dictionary with the three keys ["WHO_GHO"],
    ["WORLD_BANK"] and ["OECD"], each holding a list of display names. *)
Definition selection := database -> list string.

Definition no_selection : selection := fun _ => [].

(** [selected_kpis[db].append(kpi)]. *)
Definition append_kpi (sel : selection) (db : database) (kpi : string) : selection :=
  fun d => if decide (d = db) then (sel d ++ [kpi])%list else sel d.

(** [catalogue[kpi]]. *)
Definition getitem (catalogue : list (string * string)) (kpi : string) : exc string :=
  match Py.assoc kpi catalogue with
  | Some code => Ok code
  | None => raise KeyError kpi
  end.

(** The loop over the indicators of one source, in both programs:
    [for kpi in selected_kpis[db]: indicator_code = catalogue[kpi];
     data = adapter(country_code, kpi, indicator_code);
     if not data.empty: all_data.append(data)].
    The pause [time.sleep] between two calls changes nothing here. *)
Fixpoint extract_each (catalogue : list (string * string))
    (adapter : string -> string -> string -> M DataFrame)
    (country_code : string) (kpis : list string) (all_data : list DataFrame)
  : M (list DataFrame) :=
  match kpis with
  | [] => mret all_data
  | kpi :: rest =>
      indicator_code ← lift (getitem catalogue kpi);
      data ← adapter country_code kpi indicator_code;
      extract_each catalogue adapter country_code rest
        (if empty data then all_data else (all_data ++ [data])%list)
  end.

Definition world_bank_kpis : list (string * string) :=
  [("% population with access to basic sanitation", "SH.STA.BASS.ZS");
   ("Life expectancy at birth", "SP.DYN.LE00.IN");
   ("Under-5 mortality rate (per 1,000)", "SH.DYN.MORT");
   ("Maternal mortality ratio (per 100,000)", "SH.STA.MMRT");
   ("Infant mortality rate (per 1,000)", "SP.DYN.IMRT.IN");
   ("Neonatal mortality rate", "SH.DYN.NMRT");
   ("Suicide mortality rate", "SH.STA.SUIC.P5")].

Definition oecd_kpis : list (string * string) :=
  [("Unmet need for medical care (% reporting delay or avoidance)", "UNMET_NEED_MED_CARE");
   ("% population with health insurance", "HEALTH_INSURANCE_COV");
   ("Expenditure on pharmaceuticals per capita", "PHARM_EXP_PC_USD");
   ("Expenditure on inpatient care (% of total)", "INPATIENT_CARE_SHARE");
   ("Preventive care spending (% of total health spending)", "PREVENT_CARE_SHARE");
   ("ICU beds per 100,000 (select countries)", "ICU_BEDS_PER_100K");
   ("Medical technology density (MRI/CT scanners per million)", "MED_TECH_DENSITY");
   ("Hospital beds by function of healthcare", "HOSP_BEDS_FUNC")].

(** ** main.py

    Of the [print] calls, the log keeps the warnings, the notices and the
    tables; banners, rules, menus and counters are left out. *)

Module Main.

Definition who_gho_kpis : list (string * string) :=
  [("% births attended by skilled health personnel", "MDG_0000000025");
   ("Coverage of essential health services (UHC index)", "XX");
   ("DTP3 immunization coverage (%)", "WHS4_100");
   ("Current health expenditure (% of GDP)", "GHED_CHEGDP_SHA2011");
   ("Per capita health expenditure (USD)", "GHED_CHE_pc_US_SHA2011");
   ("Out-of-pocket health spending (% of total)", "SDGOOP");
   ("Domestic general government health expenditure (GGHE-D) as percentage of GDP",
    "GHED_GGHE-DCHE_SHA2011");
   ("Prevalence of overweight and obesity", "EQ_OVERWEIGHTADULT");
   ("Raised blood pressure (SBP>=140 OR DBP>=90) (age-standardized estimate)", "BP_04");
   ("Age-standardized DALYs, diabetes mellitus, per 100,000", "SA_0000001421")].

Definition country_codes : gmap string string :=
  list_to_map
    [("afghanistan", "AFG"); ("albania", "ALB"); ("algeria", "DZA"); ("argentina", "ARG");
     ("armenia", "ARM"); ("australia", "AUS"); ("austria", "AUT"); ("azerbaijan", "AZE");
     ("bangladesh", "BGD"); ("belgium", "BEL"); ("brazil", "BRA"); ("bulgaria", "BGR");
     ("canada", "CAN"); ("chile", "CHL"); ("china", "CHN"); ("colombia", "COL");
     ("denmark", "DNK"); ("egypt", "EGY"); ("finland", "FIN"); ("france", "FRA");
     ("germany", "DEU"); ("ghana", "GHA"); ("greece", "GRC"); ("india", "IND");
     ("indonesia", "IDN"); ("iran", "IRN"); ("iraq", "IRQ"); ("ireland", "IRL");
     ("israel", "ISR"); ("italy", "ITA"); ("japan", "JPN"); ("jordan", "JOR");
     ("kenya", "KEN"); ("south korea", "KOR"); ("malaysia", "MYS"); ("mexico", "MEX");
     ("netherlands", "NLD"); ("nigeria", "NGA"); ("norway", "NOR"); ("pakistan", "PAK");
     ("poland", "POL"); ("portugal", "PRT"); ("russia", "RUS"); ("saudi arabia", "SAU");
     ("south africa", "ZAF"); ("spain", "ESP"); ("sweden", "SWE"); ("switzerland", "CHE");
     ("thailand", "THA"); ("turkey", "TUR"); ("ukraine", "UKR"); ("united kingdom", "GBR");
     ("united states", "USA"); ("vietnam", "VNM")].

(** [get_country_input], on the line the user typed. *)
Definition get_country_input (line : string) : string :=
  let country := PyStr.strip (PyStr.lower line) in
  default (PyStr.upper country) (country_codes !! country).

(** [all_kpis]: the menu numbers, from 1, over the three catalogues. *)
Definition all_kpis : list (database * string) :=
  map (pair WHO_GHO) (Py.keys who_gho_kpis)
    ++ map (pair WORLD_BANK) (Py.keys world_bank_kpis)
    ++ map (pair OECD) (Py.keys oecd_kpis).

Definition all_kpis_get (num : Z) : option (database * string) :=
  if 1 <=? num then all_kpis !! Z.to_nat (num - 1) else None.

Definition select (selected_kpis : selection) (num : Z) : selection :=
  match all_kpis_get num with
  | Some (db, kpi) => append_kpi selected_kpis db kpi
  | None => selected_kpis
  end.

(** [display_kpis_and_get_selection], on the line the user typed. *)
Definition display_kpis_and_get_selection (line : string) : exc selection :=
  selected_numbers ←
    mapM (fun x => Py.int (SStr (PyStr.strip x))) (PyStr.split "," (PyStr.strip line));
  mret (foldl select no_selection selected_numbers).

Definition unavailable (kpi_name : string) : string :=
  "❌ Data unavailable for that KPI: " +:+ kpi_name.

Definition unavailable_error (kpi_name : string) (e : exn) : string :=
  "❌ Data unavailable for that KPI: " +:+ kpi_name +:+ " - Error: " +:+ exn_msg e.

Definition extract_who_gho_data (country_code kpi_name indicator_code : string)
  : M DataFrame :=
  let url := api_urls WHO_GHO +:+ indicator_code in
  try_except
    (response ← requests_get url [];
     lift (raise_for_status response);;
     data ← lift (response_json response);
     records ← lift (who_gho_records country_code kpi_name data);
     if empty records then
       print (unavailable kpi_name);; mret []
     else mret records)
    (fun e => print (unavailable_error kpi_name e);; mret []).

Definition extract_world_bank_data (country_code kpi_name indicator_code : string)
  : M DataFrame :=
  let url := world_bank_url country_code indicator_code in
  try_except
    (response ← requests_get url world_bank_params;
     lift (raise_for_status response);;
     data ← lift (response_json response);
     records ← lift (world_bank_records country_code kpi_name data);
     if empty records then
       print (unavailable kpi_name);; mret []
     else mret records)
    (fun e => print (unavailable_error kpi_name e);; mret []).

Definition extract_oecd_data (country_code kpi_name indicator_code : string)
  : M DataFrame :=
  try_except
    (let url := oecd_url country_code kpi_name indicator_code in
     response ← requests_get url oecd_params;
     lift (raise_for_status response);;
     df ← lift (read_csv response);
     records ← lift (oecd_records country_code kpi_name df);
     if empty records then
       print (unavailable kpi_name);; mret []
     else mret records)
    (fun e => print (unavailable_error kpi_name e);; mret []).

(** [extract_all_data].  The tests [if selected_kpis[db]:] around the
    three loops only guard a progress line: a loop over an empty list does
    nothing. *)
Definition extract_all_data (country_code : string) (selected_kpis : selection)
  : M DataFrame :=
  all_data ← extract_each who_gho_kpis extract_who_gho_data country_code
               (selected_kpis WHO_GHO) [];
  all_data ← extract_each world_bank_kpis extract_world_bank_data country_code
               (selected_kpis WORLD_BANK) all_data;
  all_data ← extract_each oecd_kpis extract_oecd_data country_code
               (selected_kpis OECD) all_data;
  match all_data with
  | [] => mret []
  | _ => mret (Pandas.sort_values Pandas.by_kpi_year (Pandas.concat all_data))
  end.

Definition no_data_found : string := "❌ No data found for the selected criteria.".

Definition display_comprehensive_table (df : DataFrame) (country_code : string)
  : M unit :=
  if empty df then print no_data_found
  else
    show (PrintPivot (Pandas.pivot_table Pandas.kpi_year df));;
    mapM (fun source =>
            show (PrintPivot
                    (Pandas.pivot_table Pandas.kpi_year
                       (filter (fun r => Source r = source) df))))
         (Pandas.unique (map Source df));;
    show (SaveCsv df).

(** [run], on the two lines the user types. *)
Definition run (country_line selection_line : string) : M unit :=
  let country_code := get_country_input country_line in
  selected_kpis ← lift (display_kpis_and_get_selection selection_line);
  df ← extract_all_data country_code selected_kpis;
  display_comprehensive_table df country_code.

End Main.

(** ** strtest.py

    The progress bar, the status text and the page layout are left out of
    the log; so are the tabs after the overview table, which show further
    pivots of the same table. *)

Module Strtest.

Definition who_gho_kpis : list (string * string) :=
  [("% births attended by skilled health personnel", "MDG_0000000025");
   ("Coverage of essential health services (UHC index)", "XX");
   ("DTP3 immunization coverage (%)", "WHS4_100");
   ("Current health expenditure (% of GDP)", "GHED_CHEGDP_SHA2011");
   ("Per capita health expenditure (USD)", "GHED_CHE_pc_US_SHA2011");
   ("Out-of-pocket health spending (% of total)", "SDGOOP");
   ("Domestic general government health expenditure (GGHE-D) as percentage of GDP",
    "GHED_GGHE-DCHE_SHA2011");
   ("Prevalence of overweight and obesity", "EQ_OVERWEIGHTADULT");
   ("Raised blood pressure (SBP>=140 OR DBP>=90) (age-standardized estimate)", "BP_04");
   ("Age-standardized DALYs, diabetes mellitus, per 100,000", "SA_0000001421");
   ("Estimate of current tobacco use prevalence (%)", "M_Est_tob_curr");
   ("Alcohol, recorded per capita (15+) consumption (in litres of pure alcohol), by beverage type",
    "SA_0000001400");
   ("Estimated number of MDR/RR-TB incident cases", "TB_e_inc_rr_num");
   ("Estimated number of people (all ages) living with HIV", "HIV_0000000001");
   ("Hepatitis B surface antigen (HBsAg) prevalence (%)", "SDGHEPHBSAGPRV");
   ("Malaria incidence (per 1 000 population at risk)", "SDGMALARIA");
   ("Physicians density (per 1000 population)", "HRH_33");
   ("Nursing and midwifery personnel density (per 1000 population)", "HRH_24");
   ("Pharmacists  (per 10,000)", "HWF_0014");
   ("Hospital beds per 1,000 people", "WHS6_102");
   ("Response", "IHR04")].

Definition countries : list (string * string) :=
  [("Afghanistan", "AFG"); ("Albania", "ALB"); ("Algeria", "DZA"); ("Argentina", "ARG");
   ("Armenia", "ARM"); ("Australia", "AUS"); ("Austria", "AUT"); ("Azerbaijan", "AZE");
   ("Bangladesh", "BGD"); ("Belgium", "BEL"); ("Brazil", "BRA"); ("Bulgaria", "BGR");
   ("Canada", "CAN"); ("Chile", "CHL"); ("China", "CHN"); ("Colombia", "COL");
   ("Denmark", "DNK"); ("Egypt", "EGY"); ("Finland", "FIN"); ("France", "FRA");
   ("Germany", "DEU"); ("Ghana", "GHA"); ("Greece", "GRC"); ("India", "IND");
   ("Indonesia", "IDN"); ("Iran", "IRN"); ("Iraq", "IRQ"); ("Ireland", "IRL");
   ("Israel", "ISR"); ("Italy", "ITA"); ("Japan", "JPN"); ("Jordan", "JOR");
   ("Kenya", "KEN"); ("South Korea", "KOR"); ("Malaysia", "MYS"); ("Mexico", "MEX");
   ("Netherlands", "NLD"); ("Nigeria", "NGA"); ("Norway", "NOR"); ("Pakistan", "PAK");
   ("Poland", "POL"); ("Portugal", "PRT"); ("Russia", "RUS"); ("Saudi Arabia", "SAU");
   ("South Africa", "ZAF"); ("Spain", "ESP"); ("Sweden", "SWE"); ("Switzerland", "CHE");
   ("Thailand", "THA"); ("Turkey", "TUR"); ("Ukraine", "UKR"); ("United Kingdom", "GBR");
   ("United States", "USA"); ("Vietnam", "VNM")].

Definition unavailable (kpi_name : string) (e : exn) : string :=
  "Data unavailable for " +:+ kpi_name +:+ ": " +:+ exn_msg e.

Definition extract_who_gho_data (country_code kpi_name indicator_code : string)
  : M DataFrame :=
  let url := api_urls WHO_GHO +:+ indicator_code in
  try_except
    (response ← requests_get url [];
     lift (raise_for_status response);;
     data ← lift (response_json response);
     records ← lift (who_gho_records country_code kpi_name data);
     mret (if empty records then [] else records))
    (fun e => show (StWarning (unavailable kpi_name e));; mret []).

Definition extract_world_bank_data (country_code kpi_name indicator_code : string)
  : M DataFrame :=
  let url := world_bank_url country_code indicator_code in
  try_except
    (response ← requests_get url world_bank_params;
     lift (raise_for_status response);;
     data ← lift (response_json response);
     records ← lift (world_bank_records country_code kpi_name data);
     mret (if empty records then [] else records))
    (fun e => show (StWarning (unavailable kpi_name e));; mret []).

Definition extract_oecd_data (country_code kpi_name indicator_code : string)
  : M DataFrame :=
  try_except
    (let url := oecd_url country_code kpi_name indicator_code in
     response ← requests_get url oecd_params;
     lift (raise_for_status response);;
     df ← lift (read_csv response);
     records ← lift (oecd_records country_code kpi_name df);
     mret (if empty records then [] else records))
    (fun e => show (StWarning (unavailable kpi_name e));; mret []).

(** [[k for k, v in self.countries.items() if v == country_code][0]]. *)
Definition country_name (country_code : string) : exc string :=
  match filter (fun kv => kv.2 = country_code) countries with
  | kv :: _ => Ok kv.1
  | [] => raise IndexError "list index out of range"
  end.

Fixpoint extract_countries (country_codes : list string) (selected_kpis : selection)
    (all_data : list DataFrame) : M (list DataFrame) :=
  match country_codes with
  | [] => mret all_data
  | country_code :: rest =>
      lift (country_name country_code);;
      all_data ← extract_each who_gho_kpis extract_who_gho_data country_code
                   (selected_kpis WHO_GHO) all_data;
      all_data ← extract_each world_bank_kpis extract_world_bank_data country_code
                   (selected_kpis WORLD_BANK) all_data;
      all_data ← extract_each oecd_kpis extract_oecd_data country_code
                   (selected_kpis OECD) all_data;
      extract_countries rest selected_kpis all_data
  end.

Definition extract_data_for_countries (country_codes : list string)
    (selected_kpis : selection) : M DataFrame :=
  all_data ← extract_countries country_codes selected_kpis [];
  match all_data with
  | [] => mret []
  | _ => mret (Pandas.sort_values Pandas.by_country_kpi_year (Pandas.concat all_data))
  end.

Definition total_kpis (selected_kpis : selection) : nat :=
  (length (selected_kpis WHO_GHO) + length (selected_kpis WORLD_BANK)
   + length (selected_kpis OECD))%nat.

(** The overview tab shown when [st.session_state] holds a table. *)
Definition display (health_data : option DataFrame) : M unit :=
  match health_data with
  | Some df => show (StDataframe (Pandas.pivot_table Pandas.kpi_country_year df))
  | None => mret tt
  end.

(** One pass of [main]: [button] tells whether "Extract Data" was
    pressed, [health_data] is the table kept in [st.session_state] by an
    earlier pass.  The result is the table kept after this pass. *)
Definition main (button : bool) (selected_countries : list string)
    (selected_kpis : selection) (health_data : option DataFrame)
  : M (option DataFrame) :=
  if button then
    match selected_countries with
    | [] => show (StError "Please select at least one country.");; mret health_data
    | _ =>
        if Nat.eqb (total_kpis selected_kpis) 0 then
          show (StError "Please select at least one KPI.");; mret health_data
        else
          country_codes ← lift (mapM (getitem countries) selected_countries);
          df ← extract_data_for_countries country_codes selected_kpis;
          if empty df then
            show (StWarning "No data found for the selected criteria.");;
            mret health_data
          else
            show (StSuccess (length df));;
            display (Some df);;
            mret (Some df)
    end
  else
    display health_data;; mret health_data.

End Strtest.

(** * Properties *)

(** ** Strings *)
Module PyStrFacts.
Import PyStr.

Lemma app_cons (c : ascii) (a b : string) : String c a +:+ b = String c (a +:+ b).
Proof. reflexivity. Qed.

Lemma app_empty (b : string) : EmptyString +:+ b = b.
Proof. reflexivity. Qed.

Lemma prefix_app (p s : string) :
  String.prefix p s = true <-> exists suf, s = p +:+ suf.
Proof.
  revert s. induction p as [|c p IH]; intros s; simpl.
  - split; [intros _; now exists s | intros _; now destruct s].
  - destruct s as [|d s].
    + split; [discriminate | intros [suf H]; discriminate].
    + simpl String.prefix. destruct (ascii_dec c d) as [->|Hne].
      * rewrite IH. split; intros [suf H]; exists suf;
          rewrite app_cons in *; congruence.
      * split; [discriminate | intros [suf H]; rewrite app_cons in H; congruence].
Qed.

Lemma contains_empty (p : string) :
  contains p EmptyString = (String.prefix p EmptyString || false)%bool.
Proof. reflexivity. Qed.

Lemma contains_cons (p : string) (c : ascii) (s : string) :
  contains p (String c s) = (String.prefix p (String c s) || contains p s)%bool.
Proof. reflexivity. Qed.

Lemma contains_app (p s : string) :
  contains p s = true <-> exists pre suf, s = pre +:+ p +:+ suf.
Proof.
  induction s as [|c s IH];
    [rewrite contains_empty | rewrite contains_cons];
    rewrite orb_true_iff, prefix_app.
  - split.
    + intros [[suf H]|H]; [|discriminate]. exists EmptyString, suf. exact H.
    + intros ([|d pre] & suf & H); [left; now exists suf | discriminate].
  - rewrite IH. split.
    + intros [[suf H]|(pre & suf & H)].
      * exists EmptyString, suf. exact H.
      * exists (String c pre), suf. rewrite app_cons. now rewrite H.
    + intros ([|d pre] & suf & H).
      * left. now exists suf.
      * right. exists pre, suf. rewrite app_cons in H. congruence.
Qed.

Lemma lower_app (a b : string) : lower (a +:+ b) = lower a +:+ lower b.
Proof.
  induction a as [|c a IH]; [reflexivity|].
  rewrite app_cons. simpl. now rewrite IH.
Qed.

Lemma lower_split (s a b : string) :
  lower s = a +:+ b -> exists a' b', s = a' +:+ b' /\ lower a' = a /\ lower b' = b.
Proof.
  revert s. induction a as [|c a IH]; intros s H.
  - exists EmptyString, s. now split.
  - rewrite app_cons in H.
    destruct s as [|d s]; simpl in H; [discriminate|].
    injection H as Hc Hs. destruct (IH _ Hs) as (a' & b' & -> & Ha & Hb).
    exists (String d a'), b'. simpl. now rewrite Hc, Ha.
Qed.

Lemma is_space_lower_char (c : ascii) : is_space (lower_char c) = is_space c.
Proof. destruct c as [[] [] [] [] [] [] [] []]; reflexivity. Qed.



Lemma lstrip_lower (s : string) : lstrip (lower s) = lower (lstrip s).
Proof.
  induction s as [|c s IH]; simpl; [reflexivity|].
  rewrite is_space_lower_char. now destruct (is_space c).
Qed.

Lemma rstrip_lower (s : string) : rstrip (lower s) = lower (rstrip s).
Proof.
  induction s as [|c s IH]; simpl; [reflexivity|].
  rewrite IH, is_space_lower_char.
  destruct (rstrip s); simpl; [now destruct (is_space c) | reflexivity].
Qed.

Lemma strip_lower (s : string) : strip (lower s) = lower (strip s).
Proof. unfold strip. now rewrite lstrip_lower, rstrip_lower. Qed.

End PyStrFacts.

(** A name contains [pat] compared without regard to case: some run of
    its characters equals [pat] once both are put in lower case. *)
Definition contains_ignoring_case (pat name : string) : Prop :=
  exists pre mid suf,
    name = pre +:+ mid +:+ suf /\ PyStr.lower mid = PyStr.lower pat.

Lemma insurance_routing (kpi_name : string) :
  PyStr.contains "insurance" (PyStr.lower kpi_name) = true
  <-> contains_ignoring_case "insurance" kpi_name.
Proof.
  rewrite PyStrFacts.contains_app. unfold contains_ignoring_case. split.
  - intros (pre & suf & H).
    apply PyStrFacts.lower_split in H as (pre' & rest & -> & _ & H).
    apply PyStrFacts.lower_split in H as (mid & suf' & -> & Hmid & _).
    now exists pre', mid, suf'.
  - intros (pre & mid & suf & -> & Hmid).
    exists (PyStr.lower pre), (PyStr.lower suf).
    now rewrite !PyStrFacts.lower_app, Hmid.
Qed.

(** ** The adapters, step by step *)

(** What the body of an adapter's [try] yields from the outcome of its
    GET: the status check, the decoding of the body and the record loop,
    each of which may raise. *)
Definition attempt {P : Type} (decode : Response -> exc P)
    (extract : P -> exc (list record)) (r : exc Response) : exc (list record) :=
  response ← r;
  raise_for_status response;;
  data ← decode response;
  extract data.

Definition after_get (s : State) (r : Request) : State :=
  St (sent s ++ [r]) (shown s).

Definition add_shown (s : State) (o : Output) : State :=
  St (sent s) (shown s ++ [o]).

(** How an adapter of [main.py] ends, given what its [try] body yields. *)
Definition main_end (kpi_name : string) (o : exc (list record)) (s : State)
  : exc DataFrame * State :=
  match o with
  | Ok [] => (Ok [], add_shown s (Print (Main.unavailable kpi_name)))
  | Ok records => (Ok records, s)
  | Raise e =>
      if is_Exception e
      then (Ok [], add_shown s (Print (Main.unavailable_error kpi_name e)))
      else (Raise e, s)
  end.

(** How an adapter of [strtest.py] ends. *)
Definition strtest_end (kpi_name : string) (o : exc (list record)) (s : State)
  : exc DataFrame * State :=
  match o with
  | Ok records => (Ok records, s)
  | Raise e =>
      if is_Exception e
      then (Ok [], add_shown s (StWarning (Strtest.unavailable kpi_name e)))
      else (Raise e, s)
  end.

Definition who_gho_request (indicator_code : string) : Request :=
  Req (api_urls WHO_GHO +:+ indicator_code) [].

Definition world_bank_request (country_code indicator_code : string) : Request :=
  Req (world_bank_url country_code indicator_code) world_bank_params.

Definition oecd_request (country_code kpi_name indicator_code : string) : Request :=
  Req (oecd_url country_code kpi_name indicator_code) oecd_params.

Ltac run_adapter net s :=
  unfold try_except, attempt, main_end, strtest_end, after_get, add_shown,
    requests_get, lift, print, show;
  unfold mbind, mret, M_bind, M_ret, exc_bind, exc_ret; simpl;
  destruct (net (length (sent s)) _) as [response|e]; simpl;
  [ destruct (raise_for_status response) as [[]|e]; simpl;
    [ repeat (match goal with
              | |- context [match ?x with Ok _ => _ | Raise _ => _ end] =>
                  destruct x as [?|e]; simpl
              | |- context [match ?x with [] => _ | _ :: _ => _ end] =>
                  destruct x; simpl
              | |- context [empty ?x] => destruct x; simpl
              | |- context [if is_Exception ?e then _ else _] =>
                  destruct (is_Exception e); simpl
              end); reflexivity
    | destruct (is_Exception e); reflexivity ]
  | destruct (is_Exception e); reflexivity ].

Section AdapterRuns.

Variables (country_code kpi_name indicator_code : string) (net : Net) (s : State).

Lemma main_who_gho_run :
  Main.extract_who_gho_data country_code kpi_name indicator_code net s
  = main_end kpi_name
      (attempt response_json (who_gho_records country_code kpi_name)
         (net (length (sent s)) (who_gho_request indicator_code)))
      (after_get s (who_gho_request indicator_code)).
Proof. unfold Main.extract_who_gho_data, who_gho_request. run_adapter net s. Qed.

Lemma main_world_bank_run :
  Main.extract_world_bank_data country_code kpi_name indicator_code net s
  = main_end kpi_name
      (attempt response_json (world_bank_records country_code kpi_name)
         (net (length (sent s)) (world_bank_request country_code indicator_code)))
      (after_get s (world_bank_request country_code indicator_code)).
Proof. unfold Main.extract_world_bank_data, world_bank_request. run_adapter net s. Qed.

Lemma main_oecd_run :
  Main.extract_oecd_data country_code kpi_name indicator_code net s
  = main_end kpi_name
      (attempt read_csv (oecd_records country_code kpi_name)
         (net (length (sent s)) (oecd_request country_code kpi_name indicator_code)))
      (after_get s (oecd_request country_code kpi_name indicator_code)).
Proof. unfold Main.extract_oecd_data, oecd_request. run_adapter net s. Qed.

Lemma strtest_who_gho_run :
  Strtest.extract_who_gho_data country_code kpi_name indicator_code net s
  = strtest_end kpi_name
      (attempt response_json (who_gho_records country_code kpi_name)
         (net (length (sent s)) (who_gho_request indicator_code)))
      (after_get s (who_gho_request indicator_code)).
Proof. unfold Strtest.extract_who_gho_data, who_gho_request. run_adapter net s. Qed.

Lemma strtest_world_bank_run :
  Strtest.extract_world_bank_data country_code kpi_name indicator_code net s
  = strtest_end kpi_name
      (attempt response_json (world_bank_records country_code kpi_name)
         (net (length (sent s)) (world_bank_request country_code indicator_code)))
      (after_get s (world_bank_request country_code indicator_code)).
Proof. unfold Strtest.extract_world_bank_data, world_bank_request. run_adapter net s. Qed.

Lemma strtest_oecd_run :
  Strtest.extract_oecd_data country_code kpi_name indicator_code net s
  = strtest_end kpi_name
      (attempt read_csv (oecd_records country_code kpi_name)
         (net (length (sent s)) (oecd_request country_code kpi_name indicator_code)))
      (after_get s (oecd_request country_code kpi_name indicator_code)).
Proof. unfold Strtest.extract_oecd_data, oecd_request. run_adapter net s. Qed.

End AdapterRuns.

(** ** The record loops *)

Lemma eq_str_true (v : json) (s : string) : Py.eq_str v s = true -> v = JS (SStr s).
Proof.
  destruct v as [[| | | |s']| |]; simpl; try discriminate.
  intros H. apply String.eqb_eq in H. now subst.
Qed.

Section LoopFacts.

Variables country_code kpi_name : string.

(** [r] is the record the WHO GHO loop makes from [item]. *)
Definition who_gho_kept (item : json) (r : record) : Prop :=
  Py.get item "SpatialDim" = Ok (JS (SStr country_code)) /\
  (exists year, Py.get item "TimeDim" = Ok year /\ Py.int year = Ok (Year r)) /\
  2015 <= Year r /\
  Py.get item "NumericValue" = Ok (Value r) /\
  Country r = country_code /\ KPI r = kpi_name /\ Source r = "WHO GHO".

Lemma who_gho_loop_spec items records out :
  who_gho_loop country_code kpi_name items records = Ok out ->
  exists new, out = (records ++ new)%list /\
    Forall (fun r => exists item, item ∈ items /\ who_gho_kept item r) new.
Proof.
  revert records out. induction items as [|item rest IH]; intros records out H.
  - injection H as <-. exists []. split; [now rewrite app_nil_r | constructor].
  - assert (Hw : forall new,
               Forall (fun r => exists i, i ∈ rest /\ who_gho_kept i r) new ->
               Forall (fun r => exists i, i ∈ item :: rest /\ who_gho_kept i r) new).
    { intros new Hn. eapply Forall_impl; [exact Hn|].
      intros r (i & Hi & Hk). exists i. split; [now right | exact Hk]. }
    destruct item as [v|l|kv]; try discriminate H.
    cbn [who_gho_loop] in H. unfold mbind, exc_bind in H. cbn [Py.get] in H.
    assert (Hskip : who_gho_loop country_code kpi_name rest records = Ok out ->
                    exists new, out = (records ++ new)%list /\
                      Forall (fun r => exists i, i ∈ JDict kv :: rest /\ who_gho_kept i r) new).
    { intros H'. destruct (IH _ _ H') as (new & -> & Hn).
      exists new. split; [reflexivity | now apply Hw]. }
    destruct (Py.eq_str _ _) eqn:Hsp; [|now apply Hskip].
    destruct (Py.truthy _) eqn:Ht; [|now apply Hskip].
    destruct (Py.int _) as [y|e] eqn:Hy; [|discriminate].
    destruct (2015 <=? y) eqn:Hle; [|now apply Hskip].
    destruct (IH _ _ H) as (new & -> & Hn).
    eexists (_ :: new). split; [now rewrite <- app_assoc|].
    constructor; [|now apply Hw].
    exists (JDict kv). split; [now left|].
    apply eq_str_true in Hsp. apply Z.leb_le in Hle.
    unfold who_gho_kept; simpl. rewrite Hsp. repeat split; eauto.
Qed.

(** [r] is the record the World Bank loop makes from [item]. *)
Definition world_bank_kept (item : json) (r : record) : Prop :=
  exists kv date,
    item = JDict kv /\
    Py.assoc "value" kv = Some (Value r) /\ Value r <> None_ /\
    Py.assoc "date" kv = Some date /\ Py.int date = Ok (Year r) /\
    Country r = country_code /\ KPI r = kpi_name /\ Source r = "World Bank".

Lemma is_not_None_assoc (kv : list (string * json)) :
  Py.is_not_None (default None_ (Py.assoc "value" kv)) = true ->
  exists v, Py.assoc "value" kv = Some v /\ v <> None_.
Proof.
  destruct (Py.assoc "value" kv) as [v|]; simpl; [|discriminate].
  intros H. exists v. split; [reflexivity|]. intros ->. discriminate.
Qed.

Lemma world_bank_loop_spec items records out :
  world_bank_loop country_code kpi_name items records = Ok out ->
  exists new, out = (records ++ new)%list /\
    Forall (fun r => exists item, item ∈ items /\ world_bank_kept item r) new.
Proof.
  revert records out. induction items as [|item rest IH]; intros records out H.
  - injection H as <-. exists []. split; [now rewrite app_nil_r | constructor].
  - assert (Hw : forall new,
               Forall (fun r => exists i, i ∈ rest /\ world_bank_kept i r) new ->
               Forall (fun r => exists i, i ∈ item :: rest /\ world_bank_kept i r) new).
    { intros new Hn. eapply Forall_impl; [exact Hn|].
      intros r (i & Hi & Hk). exists i. split; [now right | exact Hk]. }
    destruct item as [v|l|kv]; try discriminate H.
    cbn [world_bank_loop] in H. unfold mbind, exc_bind in H.
    cbn [Py.get Py.getitem_str] in H.
    destruct (Py.is_not_None _) eqn:Hv.
    + apply is_not_None_assoc in Hv as (v & Hv & Hnn). rewrite Hv in H.
      destruct (Py.assoc "date" kv) as [date|] eqn:Hd; [|discriminate].
      destruct (Py.int date) as [y|e] eqn:Hy; [|discriminate].
      destruct (IH _ _ H) as (new & -> & Hn).
      eexists (_ :: new). split; [now rewrite <- app_assoc|].
      constructor; [|now apply Hw].
      exists (JDict kv). split; [now left|].
      exists kv, date. simpl. repeat split; auto.
    + destruct (IH _ _ H) as (new & -> & Hn).
      exists new. split; [reflexivity | now apply Hw].
Qed.

(** [r] is the record the OECD loop makes from the row [w]. *)
Definition oecd_kept (w : row) (r : record) : Prop :=
  row_getitem w "OBS_VALUE" = Ok (Value r) /\ Py.notna (Value r) = true /\
  Py.int (row_get w "TIME_PERIOD") = Ok (Year r) /\ 2015 <= Year r /\
  Country r = country_code /\ KPI r = kpi_name /\ Source r = "OECD".

Lemma oecd_loop_spec rows records out :
  oecd_loop country_code kpi_name rows records = Ok out ->
  exists new, out = (records ++ new)%list /\
    Forall (fun r => exists w, w ∈ rows /\ oecd_kept w r) new.
Proof.
  revert records out. induction rows as [|w rest IH]; intros records out H.
  - injection H as <-. exists []. split; [now rewrite app_nil_r | constructor].
  - assert (Hw : forall new,
               Forall (fun r => exists i, i ∈ rest /\ oecd_kept i r) new ->
               Forall (fun r => exists i, i ∈ w :: rest /\ oecd_kept i r) new).
    { intros new Hn. eapply Forall_impl; [exact Hn|].
      intros r (i & Hi & Hk). exists i. split; [now right | exact Hk]. }
    assert (Hskip : oecd_loop country_code kpi_name rest records = Ok out ->
                    exists new, out = (records ++ new)%list /\
                      Forall (fun r => exists i, i ∈ w :: rest /\ oecd_kept i r) new).
    { intros H'. destruct (IH _ _ H') as (new & -> & Hn).
      exists new. split; [reflexivity | now apply Hw]. }
    cbn [oecd_loop] in H. unfold mbind, exc_bind in H.
    destruct (Py.notna _) eqn:Hna; [|now apply Hskip].
    destruct (Py.truthy _) eqn:Ht; [|now apply Hskip].
    destruct (Py.int _) as [y|e] eqn:Hy; [|discriminate].
    destruct (2015 <=? y) eqn:Hle; [|now apply Hskip].
    destruct (row_getitem w "OBS_VALUE") as [v|e] eqn:Hg; [|discriminate].
    destruct (IH _ _ H) as (new & -> & Hn).
    eexists (_ :: new). split; [now rewrite <- app_assoc|].
    constructor; [|now apply Hw].
    exists w. split; [now left|].
    apply Z.leb_le in Hle. unfold oecd_kept; simpl. repeat split; auto.
    unfold row_getitem, row_get in *.
    destruct (Py.assoc "OBS_VALUE" w); [|discriminate]. now injection Hg as <-.
Qed.

End LoopFacts.

(** ** No step of the program raises more than an [Exception] *)

Lemma raise_ordinary {A} (c : exn_class) (m : string) :
  c <> KeyboardInterrupt -> ordinary (@raise A c m).
Proof. now destruct c. Qed.

Lemma bind_ordinary {A B} (m : exc A) (f : A -> exc B) :
  ordinary m -> (forall a, ordinary (f a)) -> ordinary (m ≫= f).
Proof. destruct m as [a|e]; simpl; auto. Qed.

Module PyFacts.

Lemma int_ordinary (v : json) : ordinary (Py.int v).
Proof.
  destruct v as [[| | |[| |]|s]| |]; simpl; try exact I; try reflexivity.
  now destruct (PyStr.to_int s).
Qed.

Lemma get_ordinary (item : json) (k : string) : ordinary (Py.get item k).
Proof. now destruct item. Qed.

Lemma contains_ordinary (k : string) (data : json) : ordinary (Py.contains k data).
Proof. now destruct data as [[]| |]. Qed.

Lemma getitem_str_ordinary (data : json) (k : string) :
  ordinary (Py.getitem_str data k).
Proof.
  destruct data as [[]| |kv]; simpl; try reflexivity.
  now destruct (Py.assoc k kv).
Qed.

Lemma getitem_1_ordinary (data : json) : ordinary (Py.getitem_1 data).
Proof.
  destruct data as [[| | | |s]|l|]; simpl; try reflexivity.
  - now destruct (PyStr.chars s !! 1%nat).
  - now destruct (l !! 1%nat).
Qed.

Lemma len_ordinary (data : json) : ordinary (Py.len data).
Proof. now destruct data as [[]| |]. Qed.

Lemma iter_ordinary (v : json) : ordinary (Py.iter v).
Proof. now destruct v as [[]| |]. Qed.

End PyFacts.

Create HintDb ordinary.

#[local] Hint Resolve PyFacts.int_ordinary PyFacts.get_ordinary
  PyFacts.contains_ordinary PyFacts.getitem_str_ordinary
  PyFacts.getitem_1_ordinary PyFacts.len_ordinary PyFacts.iter_ordinary
  : ordinary.

Ltac ordinary_step :=
  match goal with
  | |- ordinary (_ ≫= _) => apply bind_ordinary; [auto with ordinary | intros ?]
  | |- ordinary (if ?b then _ else _) => destruct b
  | |- ordinary (Ok _) => exact I
  end.

Section Ordinary.

Variables country_code kpi_name : string.

Lemma who_gho_loop_ordinary items records :
  ordinary (who_gho_loop country_code kpi_name items records).
Proof.
  revert records. induction items as [|item rest IH]; intros records;
    [exact I|].
  cbn [who_gho_loop]. repeat ordinary_step; apply IH.
Qed.

Lemma who_gho_records_ordinary data :
  ordinary (who_gho_records country_code kpi_name data).
Proof.
  unfold who_gho_records. repeat ordinary_step. apply who_gho_loop_ordinary.
Qed.

Lemma world_bank_loop_ordinary items records :
  ordinary (world_bank_loop country_code kpi_name items records).
Proof.
  revert records. induction items as [|item rest IH]; intros records;
    [exact I|].
  cbn [world_bank_loop]. repeat ordinary_step; apply IH.
Qed.

Lemma world_bank_records_ordinary data :
  ordinary (world_bank_records country_code kpi_name data).
Proof.
  unfold world_bank_records. repeat ordinary_step. apply world_bank_loop_ordinary.
Qed.

Lemma row_getitem_ordinary (w : row) (col : string) : ordinary (row_getitem w col).
Proof. unfold row_getitem. now destruct (Py.assoc col w). Qed.

Lemma oecd_records_ordinary df :
  ordinary (oecd_records country_code kpi_name df).
Proof.
  unfold oecd_records. generalize (@nil record) as records.
  induction df as [|w rest IH]; intros records; [exact I|].
  cbn [oecd_loop]. pose proof row_getitem_ordinary.
  repeat ordinary_step; auto.
Qed.

End Ordinary.

(** A network whose failures are all of class [Exception]: nothing
    interrupts the run. *)
Definition ordinary_response (r : exc Response) : Prop :=
  match r with
  | Ok response =>
      ordinary (raise_for_status response) /\ ordinary (response_json response)
      /\ ordinary (read_csv response)
  | Raise e => is_Exception e = true
  end.

Definition ordinary_net (net : Net) : Prop :=
  forall n r, ordinary_response (net n r).

Lemma attempt_ordinary {P} (decode : Response -> exc P)
    (extract : P -> exc (list record)) (r : exc Response) :
  ordinary_response r ->
  (forall response, ordinary_response (Ok response) -> ordinary (decode response)) ->
  (forall data, ordinary (extract data)) ->
  ordinary (attempt decode extract r).
Proof.
  intros Hr Hd He. unfold attempt. destruct r as [response|e]; [|exact Hr].
  pose proof (Hd _ Hr) as Hdec. destruct Hr as (Hs & _). cbn.
  destruct (raise_for_status response) as [[]|e]; [|exact Hs]. cbn.
  destruct (decode response) as [data|e]; cbn; [apply He | exact Hdec].
Qed.

(** ** What an adapter hands to its caller *)

(** The table returned by a call; a call that raises returns none. *)
Definition returned (r : exc DataFrame * State) : DataFrame :=
  match r.1 with
  | Ok df => df
  | Raise _ => []
  end.

Lemma attempt_Ok {P} (decode : Response -> exc P)
    (extract : P -> exc (list record)) (r : exc Response) (records : list record) :
  attempt decode extract r = Ok records ->
  exists response data,
    r = Ok response /\ raise_for_status response = Ok tt /\
    decode response = Ok data /\ extract data = Ok records.
Proof.
  unfold attempt. destruct r as [response|e]; [|discriminate]. cbn.
  destruct (raise_for_status response) as [[]|e] eqn:Hs; [|discriminate]. cbn.
  destruct (decode response) as [data|e] eqn:Hd; [|discriminate]. cbn.
  intros H. now exists response, data.
Qed.

Lemma main_end_returned (kpi_name : string) (o : exc (list record)) (s : State)
    (Q : record -> Prop) :
  (forall records, o = Ok records -> Forall Q records) ->
  Forall Q (returned (main_end kpi_name o s)).
Proof.
  intros H. unfold returned, main_end.
  destruct o as [[|r records]|e]; simpl; [constructor | now apply H |].
  destruct (is_Exception e); constructor.
Qed.

Lemma strtest_end_returned (kpi_name : string) (o : exc (list record)) (s : State)
    (Q : record -> Prop) :
  (forall records, o = Ok records -> Forall Q records) ->
  Forall Q (returned (strtest_end kpi_name o s)).
Proof.
  intros H. unfold returned, strtest_end.
  destruct o as [records|e]; simpl; [now apply H|].
  destruct (is_Exception e); constructor.
Qed.

(** The items the WHO GHO loop goes through: [data['value']]. *)
Definition who_gho_items (data : json) : list json :=
  match Py.getitem_str data "value" ≫= Py.iter with
  | Ok items => items
  | Raise _ => []
  end.

Lemma who_gho_records_spec (country_code kpi_name : string) (data : json)
    (records : list record) :
  who_gho_records country_code kpi_name data = Ok records ->
  Forall (fun r => exists item,
            item ∈ who_gho_items data /\ who_gho_kept country_code kpi_name item r)
    records.
Proof.
  unfold who_gho_records, who_gho_items.
  destruct (Py.contains "value" data) as [[]|e]; cbn; try discriminate.
  - destruct (Py.getitem_str data "value") as [value|e]; cbn; [|discriminate].
    destruct (Py.iter value) as [items|e]; cbn; [|discriminate].
    intros H. apply who_gho_loop_spec in H as (new & -> & Hnew). exact Hnew.
  - intros H. injection H as <-. constructor.
Qed.

Lemma world_bank_records_spec (country_code kpi_name : string) (data : json)
    (records : list record) :
  world_bank_records country_code kpi_name data = Ok records ->
  Forall (fun r => exists item, world_bank_kept country_code kpi_name item r) records.
Proof.
  unfold world_bank_records.
  destruct (Py.len data) as [n|e]; cbn [mbind exc_bind]; [|discriminate].
  destruct (Nat.ltb 1 n); [|intros H; injection H as <-; constructor].
  destruct (Py.getitem_1 data) as [observations|e]; cbn [mbind exc_bind]; [|discriminate].
  destruct (Py.truthy observations); [|intros H; injection H as <-; constructor].
  destruct (Py.iter observations) as [items|e]; cbn [mbind exc_bind]; [|discriminate].
  intros H. apply world_bank_loop_spec in H as (new & -> & Hnew).
  eapply Forall_impl; [exact Hnew|]. intros r (item & _ & Hk). now exists item.
Qed.

Lemma oecd_records_spec (country_code kpi_name : string) (df : list row)
    (records : list record) :
  oecd_records country_code kpi_name df = Ok records ->
  Forall (fun r => exists w, w ∈ df /\ oecd_kept country_code kpi_name w r) records.
Proof.
  unfold oecd_records. intros H.
  apply oecd_loop_spec in H as (new & -> & Hnew). exact Hnew.
Qed.

(** ** Payloads used in the examples *)

Definition who_gho_item (country : string) (year : Z) (value : scalar) : json :=
  JDict [("SpatialDim", JS (SStr country)); ("TimeDim", JS (SInt year));
         ("NumericValue", JS value)].

Definition world_bank_item (date : string) (value : scalar) : json :=
  JDict [("date", JS (SStr date)); ("value", JS value)].

Definition oecd_row (period : Z) (value : scalar) : row :=
  [("TIME_PERIOD", SInt period); ("OBS_VALUE", value)].

(** A network that answers every GET with status 200 and the given body. *)
Definition serve_json (data : json) : Net :=
  fun _ _ => Ok (Resp (Ok tt) (Ok data) (raise ParserError "no columns to parse")).

Definition serve_csv (df : list row) : Net :=
  fun _ _ => Ok (Resp (Ok tt) (raise ValueError "not a JSON document") (Ok df)).

(** A network that is down. *)
Definition unreachable : Net :=
  fun _ _ => raise RequestException "connection refused".

Definition years_2010_2015_2024_who : json :=
  JDict [("value", JList [who_gho_item "IND" 2010 (SInt 61);
                          who_gho_item "IND" 2015 (SInt 65);
                          who_gho_item "IND" 2024 (SInt 70)])].

Definition years_2010_2015_2024_world_bank : json :=
  JList [JDict [("page", JS (SInt 1))];
         JList [world_bank_item "2010" (SInt 61); world_bank_item "2015" (SInt 65);
                world_bank_item "2024" (SInt 70)]].

Definition years_2010_2015_2024_oecd : list row :=
  [oecd_row 2010 (SInt 61); oecd_row 2015 (SInt 65); oecd_row 2024 (SInt 70)].

Example who_gho_years :
  map Year (returned (Main.extract_who_gho_data "IND" "Life expectancy" "WHOSIS_000001"
                        (serve_json years_2010_2015_2024_who) start)) = [2015; 2024].
Proof. reflexivity. Qed.

Example oecd_years :
  map Year (returned (Main.extract_oecd_data "IND" "Hospital beds" "HOSP_BEDS"
                        (serve_csv years_2010_2015_2024_oecd) start)) = [2015; 2024].
Proof. reflexivity. Qed.

Example world_bank_years :
  map Year (returned (Main.extract_world_bank_data "IND" "Life expectancy at birth"
                        "SP.DYN.LE00.IN"
                        (serve_json years_2010_2015_2024_world_bank) start))
  = [2010; 2015; 2024].
Proof. reflexivity. Qed.

Lemma main_end_sent (kpi_name : string) (o : exc (list record)) (s : State) :
  sent (main_end kpi_name o s).2 = sent s.
Proof.
  unfold main_end. destruct o as [[|r records]|e]; try reflexivity.
  now destruct (is_Exception e).
Qed.

Lemma strtest_end_sent (kpi_name : string) (o : exc (list record)) (s : State) :
  sent (strtest_end kpi_name o s).2 = sent s.
Proof.
  unfold strtest_end. destruct o as [records|e]; try reflexivity.
  now destruct (is_Exception e).
Qed.

(** * The claims *)

(** ** Year filter *)






(** ** Null values *)

Definition null_value_who : json :=
  JDict [("value", JList [who_gho_item "IND" 2020 SNone])].

(** C2 at its failing input: an observation of the requested country and
    of 2020 whose [NumericValue] is null goes into the table, with the
    value [None], in both programs. *)
Theorem C2_who_gho_returns_null_value :
  returned (Main.extract_who_gho_data "IND" "DTP3 immunization coverage (%)" "WHS4_100"
              (serve_json null_value_who) start)
  = [Rec 2020 "IND" "DTP3 immunization coverage (%)" None_ "WHO GHO"]
  /\ returned (Strtest.extract_who_gho_data "IND" "DTP3 immunization coverage (%)"
                 "WHS4_100" (serve_json null_value_who) start)
     = [Rec 2020 "IND" "DTP3 immunization coverage (%)" None_ "WHO GHO"].
Proof. split; reflexivity. Qed.

(** The two sibling adapters do drop such observations. *)
Lemma world_bank_value_not_None
    (net : Net) (s : State) (country_code kpi_name indicator_code : string) :
  Forall (fun r => Value r <> None_)
    (returned (Main.extract_world_bank_data country_code kpi_name indicator_code net s))
  /\ Forall (fun r => Value r <> None_)
       (returned (Strtest.extract_world_bank_data country_code kpi_name indicator_code net s)).
Proof.
  rewrite main_world_bank_run, strtest_world_bank_run.
  assert (H : forall r records,
             attempt response_json (world_bank_records country_code kpi_name) r
             = Ok records -> Forall (fun x => Value x <> None_) records).
  { intros r records H. apply attempt_Ok in H as (response & data & _ & _ & _ & H).
    apply world_bank_records_spec in H. eapply Forall_impl; [exact H|].
    intros x (item & kv & date & _ & _ & Hn & _). exact Hn. }
  split; [apply main_end_returned | apply strtest_end_returned]; apply H.
Qed.

Lemma oecd_value_notna
    (net : Net) (s : State) (country_code kpi_name indicator_code : string) :
  Forall (fun r => Py.notna (Value r) = true)
    (returned (Main.extract_oecd_data country_code kpi_name indicator_code net s))
  /\ Forall (fun r => Py.notna (Value r) = true)
       (returned (Strtest.extract_oecd_data country_code kpi_name indicator_code net s)).
Proof.
  rewrite main_oecd_run, strtest_oecd_run.
  assert (H : forall r records,
             attempt read_csv (oecd_records country_code kpi_name) r
             = Ok records -> Forall (fun x => Py.notna (Value x) = true) records).
  { intros r records H. apply attempt_Ok in H as (response & data & _ & _ & _ & H).
    apply oecd_records_spec in H. eapply Forall_impl; [exact H|].
    intros x (w & _ & Hk). apply Hk. }
  split; [apply main_end_returned | apply strtest_end_returned]; apply H.
Qed.

(** ** The dataset of the OECD adapter *)

Lemma oecd_dataset_cases (kpi_name : string) :
  (oecd_dataset kpi_name = health_protection
   /\ PyStr.contains "insurance" (PyStr.lower kpi_name) = true)
  \/ (oecd_dataset kpi_name = health_statistics
      /\ PyStr.contains "insurance" (PyStr.lower kpi_name) = false).
Proof.
  unfold oecd_dataset.
  destruct (PyStr.contains "insurance" (PyStr.lower kpi_name)); [left | right]; now split.
Qed.

(** C3.  The OECD adapter, in both programs, addresses the
    health-protection dataset exactly when the display name contains
    "insurance" compared without regard to case, and the
    health-statistics dataset exactly when it does not; the one GET it
    sends goes to the address built from that dataset. *)
Theorem C3_oecd_dataset_routing
    (net : Net) (s : State) (country_code kpi_name indicator_code : string) :
  (oecd_dataset kpi_name = health_protection
   <-> contains_ignoring_case "insurance" kpi_name)
  /\ (oecd_dataset kpi_name = health_statistics
      <-> ~ contains_ignoring_case "insurance" kpi_name)
  /\ sent (Main.extract_oecd_data country_code kpi_name indicator_code net s).2
     = (sent s ++ [Req (api_urls OECD +:+ oecd_dataset kpi_name +:+ "/" +:+ country_code
                        +:+ "." +:+ indicator_code +:+ ".._T") oecd_params])%list
  /\ sent (Strtest.extract_oecd_data country_code kpi_name indicator_code net s).2
     = (sent s ++ [Req (api_urls OECD +:+ oecd_dataset kpi_name +:+ "/" +:+ country_code
                        +:+ "." +:+ indicator_code +:+ ".._T") oecd_params])%list.
Proof.
  rewrite main_oecd_run, strtest_oecd_run, main_end_sent, strtest_end_sent.
  rewrite <- insurance_routing.
  split; [|split; [|split; reflexivity]].
  - destruct (oecd_dataset_cases kpi_name) as [[-> ->]|[-> ->]];
      split; intros H; try reflexivity; discriminate H.
  - destruct (oecd_dataset_cases kpi_name) as [[-> ->]|[-> ->]]; split; intros H.
    + discriminate H.
    + now destruct H.
    + discriminate.
    + reflexivity.
Qed.

Example insurance_names :
  oecd_dataset "% population with health insurance" = health_protection
  /\ oecd_dataset "Private INSURANCE coverage" = health_protection
  /\ oecd_dataset "Hospital beds by function of healthcare" = health_statistics.
Proof. repeat split; reflexivity. Qed.

(** ** The fields of a WHO GHO record *)

(** [r] was made from an item of the [value] array of the response to
    the GET of the WHO GHO adapter, and that item is of the requested
    country. *)
Definition from_who_gho_item (net : Net) (s : State)
    (country_code indicator_code : string) (r : record) : Prop :=
  exists response data item,
    net (length (sent s)) (who_gho_request indicator_code) = Ok response
    /\ response_json response = Ok data
    /\ item ∈ who_gho_items data
    /\ Py.get item "SpatialDim" = Ok (JS (SStr country_code))
    /\ Country r = country_code
    /\ (exists year, Py.get item "TimeDim" = Ok year /\ Py.int year = Ok (Year r))
    /\ Py.get item "NumericValue" = Ok (Value r).

(** C5.  Every record returned by the WHO GHO adapter, in both programs,
    comes from an item of the [value] array of the decoded response whose
    [SpatialDim] is the requested country code; its country is that code,
    its year is the integer read from [TimeDim] and its value is the
    item's [NumericValue]. *)
Theorem C5_who_gho_country_and_fields
    (net : Net) (s : State) (country_code kpi_name indicator_code : string) :
  Forall (from_who_gho_item net s country_code indicator_code)
    (returned (Main.extract_who_gho_data country_code kpi_name indicator_code net s))
  /\ Forall (from_who_gho_item net s country_code indicator_code)
       (returned (Strtest.extract_who_gho_data country_code kpi_name indicator_code net s)).
Proof.
  rewrite main_who_gho_run, strtest_who_gho_run.
  assert (H : forall records,
             attempt response_json (who_gho_records country_code kpi_name)
               (net (length (sent s)) (who_gho_request indicator_code)) = Ok records ->
             Forall (from_who_gho_item net s country_code indicator_code) records).
  { intros records H.
    apply attempt_Ok in H as (response & data & Hnet & _ & Hjson & H).
    apply who_gho_records_spec in H. eapply Forall_impl; [exact H|].
    intros r (item & Hin & Hsp & Hy & _ & Hv & Hc & _).
    exists response, data, item. repeat split; assumption. }
  split; [apply main_end_returned | apply strtest_end_returned]; exact H.
Qed.

Definition two_countries_who : json :=
  JDict [("value", JList [who_gho_item "USA" 2020 (SInt 78);
                          who_gho_item "IND" 2020 (SInt 70);
                          who_gho_item "DEU" 2021 (SInt 81);
                          who_gho_item "IND" 2021 (SInt 71)])].

Example who_gho_two_countries :
  returned (Main.extract_who_gho_data "IND" "Life expectancy" "WHOSIS_000001"
              (serve_json two_countries_who) start)
  = [Rec 2020 "IND" "Life expectancy" (SInt 70) "WHO GHO";
     Rec 2021 "IND" "Life expectancy" (SInt 71) "WHO GHO"].
Proof. reflexivity. Qed.

(** ** The country typed by the user *)


Example country_inputs :
  Main.get_country_input " South Korea" = "KOR"
  /\ Main.get_country_input "india  " = "IND"
  /\ Main.get_country_input " Atlantis " = "ATLANTIS".
Proof. repeat split; vm_compute; reflexivity. Qed.

(** ** Null values in a World Bank response *)

(** The [value] of an observation is null: the field is absent or holds
    [None]. *)
Definition null_value (item : json) : Prop := Py.get item "value" = Ok None_.

(** The record of an observation: its [date] read as an integer, its
    [value] as it is; none for an observation whose value is null. *)
Definition world_bank_record (country_code kpi_name : string) (item : json)
  : option record :=
  match item with
  | JDict kv =>
      match Py.assoc "value" kv, Py.assoc "date" kv with
      | Some value, Some date =>
          if Py.is_not_None value then
            match Py.int date with
            | Ok year => Some (Rec year country_code kpi_name value "World Bank")
            | Raise _ => None
            end
          else None
      | _, _ => None
      end
  | _ => None
  end.

(** An observation object whose date, when its value is not null, reads
    as an integer. *)
Definition well_formed_observation (item : json) : Prop :=
  exists kv, item = JDict kv /\
    (~ null_value item ->
     exists date year, Py.assoc "date" kv = Some date /\ Py.int date = Ok year).

Lemma is_not_None_false (v : json) : Py.is_not_None v = false -> v = None_.
Proof. destruct v as [[]| |]; simpl; try discriminate. reflexivity. Qed.

Lemma is_not_None_true (v : json) : Py.is_not_None v = true -> v <> None_.
Proof. intros H ->. discriminate. Qed.

Lemma world_bank_record_None (country_code kpi_name : string) (item : json) :
  well_formed_observation item ->
  world_bank_record country_code kpi_name item = None <-> null_value item.
Proof.
  intros (kv & -> & Hwf). unfold null_value in *. simpl in *.
  destruct (Py.assoc "value" kv) as [value|]; simpl in *; [|tauto].
  destruct (Py.is_not_None value) eqn:Hv.
  - apply is_not_None_true in Hv.
    destruct Hwf as (date & year & -> & ->); [congruence|].
    split; [discriminate | congruence].
  - apply is_not_None_false in Hv. subst value.
    split; [reflexivity|]. now destruct (Py.assoc "date" kv).
Qed.

Lemma world_bank_loop_exact (country_code kpi_name : string)
    (items : list json) (records : list record) :
  Forall well_formed_observation items ->
  world_bank_loop country_code kpi_name items records
  = Ok (records ++ omap (world_bank_record country_code kpi_name) items)%list.
Proof.
  intros Hwf. revert records.
  induction Hwf as [|item rest (kv & -> & Hitem) _ IH]; intros records.
  - simpl. now rewrite app_nil_r.
  - cbn [world_bank_loop omap list_omap]. unfold mbind, exc_bind.
    cbn [Py.get Py.getitem_str world_bank_record].
    unfold null_value in Hitem. cbn [Py.get] in Hitem.
    destruct (Py.assoc "value" kv) as [value|]; simpl in *; [|apply IH].
    destruct (Py.is_not_None value) eqn:Hv.
    + apply is_not_None_true in Hv.
      destruct Hitem as (date & year & -> & ->); [congruence|].
      rewrite IH. now rewrite <- app_assoc.
    + destruct (Py.assoc "date" kv); apply IH.
Qed.

(** C6.  When the response is the two-element structure, metadata then
    observation objects, the World Bank adapter returns, in both programs
    and in the order of the response, one record for each observation
    whose value is not null, holding the date read as an integer and the
    value; the observations left out are exactly those whose value is
    null. *)
Theorem C6_world_bank_drops_null_values
    (net : Net) (s : State) (country_code kpi_name indicator_code : string)
    (response : Response) (metadata : json) (observations more : list json) :
  net (length (sent s)) (world_bank_request country_code indicator_code) = Ok response ->
  raise_for_status response = Ok tt ->
  response_json response = Ok (JList (metadata :: JList observations :: more)) ->
  Forall well_formed_observation observations ->
  returned (Main.extract_world_bank_data country_code kpi_name indicator_code net s)
  = omap (world_bank_record country_code kpi_name) observations
  /\ returned (Strtest.extract_world_bank_data country_code kpi_name indicator_code net s)
     = omap (world_bank_record country_code kpi_name) observations
  /\ Forall (fun item =>
               world_bank_record country_code kpi_name item = None <-> null_value item)
       observations.
Proof.
  intros Hnet Hstatus Hjson Hwf.
  rewrite main_world_bank_run, strtest_world_bank_run.
  assert (Hrec : attempt response_json (world_bank_records country_code kpi_name)
                   (net (length (sent s)) (world_bank_request country_code indicator_code))
                 = Ok (omap (world_bank_record country_code kpi_name) observations)).
  { unfold attempt. rewrite Hnet. cbn [mbind exc_bind]. rewrite Hstatus, Hjson.
    cbn [mbind exc_bind]. unfold world_bank_records.
    cbn [Py.len Py.getitem_1 mbind exc_bind length Nat.ltb Nat.leb lookup list_lookup].
    destruct observations as [|item rest]; [reflexivity|].
    cbn [Py.truthy Py.iter mbind exc_bind].
    now rewrite world_bank_loop_exact. }
  rewrite Hrec. repeat split.
  - unfold returned, main_end.
    now destruct (omap (world_bank_record country_code kpi_name) observations).
  - eapply Forall_impl; [exact Hwf|]. intros item Hitem.
    now apply world_bank_record_None.
Qed.

Definition some_null_values_observations : list json :=
  [world_bank_item "2020" (SFloat (FFin (Qmake 697 10)));
   world_bank_item "2021" SNone;
   world_bank_item "2022" (SInt 70)].

Definition some_null_values_world_bank : json :=
  JList [JDict [("page", JS (SInt 1))];
         JList some_null_values_observations].

Lemma C6_world_bank_drops_null_values_witness :
  Forall well_formed_observation some_null_values_observations
  /\ returned (Main.extract_world_bank_data "IND" "Life expectancy at birth"
                 "SP.DYN.LE00.IN" (serve_json some_null_values_world_bank) start)
     = [Rec 2020 "IND" "Life expectancy at birth" (SFloat (FFin (Qmake 697 10)))
          "World Bank";
        Rec 2022 "IND" "Life expectancy at birth" (SInt 70) "World Bank"].
Proof.
  assert (Hwf : Forall well_formed_observation some_null_values_observations).
  { repeat constructor; eexists; (split; [reflexivity|]); intros _;
      now eexists _, _. }
  split; [exact Hwf|].
  exact (proj1 (C6_world_bank_drops_null_values
                  (serve_json some_null_values_world_bank) start
                  "IND" "Life expectancy at birth" "SP.DYN.LE00.IN"
                  _ _ _ [] eq_refl eq_refl eq_refl Hwf)).
Defined.

(** ** The pivot *)

Section PivotFacts.

Context {K : Type} `{EqDecision K}.

Implicit Types (k : K) (cells : list (K * json)) (key : record -> K).





End PivotFacts.






(** ** Failures of an adapter *)

Section Failures.

Context {P : Type}.
Variables (decode : Response -> exc P) (extract : P -> exc (list record)).

(** The failures that raise inside the [try]: the network or the HTTP
    status (a), the decoding of the body or a missing or ill-typed field
    (b). *)
Inductive fails_raising (r : exc Response) : Prop :=
| connection_failure e :
    r = Raise e -> is_Exception e = true -> fails_raising r
| status_failure response e :
    r = Ok response -> raise_for_status response = Raise e ->
    is_Exception e = true -> fails_raising r
| decoding_failure response e :
    r = Ok response -> raise_for_status response = Ok tt ->
    decode response = Raise e -> is_Exception e = true -> fails_raising r
| field_failure response data e :
    r = Ok response -> raise_for_status response = Ok tt ->
    decode response = Ok data -> extract data = Raise e ->
    is_Exception e = true -> fails_raising r.

(** The failure that does not raise: a well-formed response without a
    matching record (c). *)
Definition empty_result (r : exc Response) : Prop :=
  exists response data,
    r = Ok response /\ raise_for_status response = Ok tt /\
    decode response = Ok data /\ extract data = Ok [].

Lemma fails_raising_attempt (r : exc Response) :
  fails_raising r ->
  exists e, attempt decode extract r = Raise e /\ is_Exception e = true.
Proof.
  unfold attempt.
  intros [e -> He|response e -> Hs He|response e -> Hs Hd He
         |response data e -> Hs Hd Hx He];
    exists e; cbn [mbind exc_bind]; rewrite ?Hs; cbn [mbind exc_bind];
    rewrite ?Hd; cbn [mbind exc_bind]; rewrite ?Hx; now split.
Qed.

Lemma empty_result_attempt (r : exc Response) :
  empty_result r -> attempt decode extract r = Ok [].
Proof.
  intros (response & data & -> & Hs & Hd & Hx). unfold attempt.
  cbn [mbind exc_bind]. rewrite Hs. cbn [mbind exc_bind]. rewrite Hd. exact Hx.
Qed.

End Failures.

(** The text names the indicator. *)
Definition names (kpi_name text : string) : Prop :=
  exists pre suf, text = pre +:+ kpi_name +:+ suf.

Lemma app_empty_r (a : string) : a +:+ EmptyString = a.
Proof.
  induction a as [|c a IH]; [reflexivity|].
  rewrite PyStrFacts.app_cons. now rewrite IH.
Qed.

Lemma names_main_unavailable (kpi_name : string) :
  names kpi_name (Main.unavailable kpi_name).
Proof.
  exists "❌ Data unavailable for that KPI: ", EmptyString.
  now rewrite app_empty_r.
Qed.

Lemma names_main_unavailable_error (kpi_name : string) (e : exn) :
  names kpi_name (Main.unavailable_error kpi_name e).
Proof. now exists "❌ Data unavailable for that KPI: ", (" - Error: " +:+ exn_msg e). Qed.

Lemma names_strtest_unavailable (kpi_name : string) (e : exn) :
  names kpi_name (Strtest.unavailable kpi_name e).
Proof. now exists "Data unavailable for ", (": " +:+ exn_msg e). Qed.

(** The ways a call ends: an empty table with one more warning that
    names the indicator; an empty table and nothing shown; some table. *)
Definition returns_empty_with (wrap : string -> Output) (kpi_name : string)
    (s : State) (res : exc DataFrame * State) : Prop :=
  res.1 = Ok [] /\
  exists text, shown res.2 = shown s ++ [wrap text] /\ names kpi_name text.

Definition returns_empty_silently (s : State) (res : exc DataFrame * State) : Prop :=
  res.1 = Ok [] /\ shown res.2 = shown s.

Definition returns_table (res : exc DataFrame * State) : Prop :=
  exists df, res.1 = Ok df.

(** What holds of an adapter of [main.py]: each failure gives the empty
    table and a printed warning; no call raises unless the user
    interrupts it. *)
Definition main_contract {P} (decode : Response -> exc P)
    (extract : P -> exc (list record)) (r : exc Response)
    (kpi_name : string) (s : State) (res : exc DataFrame * State) : Prop :=
  (fails_raising decode extract r -> returns_empty_with Print kpi_name s res)
  /\ (empty_result decode extract r -> returns_empty_with Print kpi_name s res)
  /\ (ordinary_response r -> returns_table res).

(** What holds of an adapter of [strtest.py]: a failure that raises gives
    the empty table and a warning on the page; an empty result gives the
    empty table and no warning. *)
Definition strtest_contract {P} (decode : Response -> exc P)
    (extract : P -> exc (list record)) (r : exc Response)
    (kpi_name : string) (s : State) (res : exc DataFrame * State) : Prop :=
  (fails_raising decode extract r -> returns_empty_with StWarning kpi_name s res)
  /\ (empty_result decode extract r -> returns_empty_silently s res)
  /\ (ordinary_response r -> returns_table res).

Lemma main_end_contract {P} (decode : Response -> exc P)
    (extract : P -> exc (list record)) (r : exc Response)
    (kpi_name : string) (s : State) (q : Request) :
  (forall response, ordinary_response (Ok response) -> ordinary (decode response)) ->
  (forall data, ordinary (extract data)) ->
  main_contract decode extract r kpi_name s
    (main_end kpi_name (attempt decode extract r) (after_get s q)).
Proof.
  intros Hd Hx. repeat split.
  - apply fails_raising_attempt in H as (e & -> & He). simpl. now rewrite He.
  - apply fails_raising_attempt in H as (e & -> & He). simpl. rewrite He.
    eexists. split; [reflexivity | apply names_main_unavailable_error].
  - apply empty_result_attempt in H as ->. reflexivity.
  - apply empty_result_attempt in H as ->. simpl.
    eexists. split; [reflexivity | apply names_main_unavailable].
  - intros Hr. pose proof (attempt_ordinary decode extract r Hr Hd Hx) as Ho.
    unfold returns_table, main_end.
    destruct (attempt decode extract r) as [[|x records]|e]; simpl in *;
      [now eexists | now eexists |]. rewrite Ho. now eexists.
Qed.

Lemma strtest_end_contract {P} (decode : Response -> exc P)
    (extract : P -> exc (list record)) (r : exc Response)
    (kpi_name : string) (s : State) (q : Request) :
  (forall response, ordinary_response (Ok response) -> ordinary (decode response)) ->
  (forall data, ordinary (extract data)) ->
  strtest_contract decode extract r kpi_name s
    (strtest_end kpi_name (attempt decode extract r) (after_get s q)).
Proof.
  intros Hd Hx. repeat split.
  - apply fails_raising_attempt in H as (e & -> & He). simpl. now rewrite He.
  - apply fails_raising_attempt in H as (e & -> & He). simpl. rewrite He.
    eexists. split; [reflexivity | apply names_strtest_unavailable].
  - apply empty_result_attempt in H as ->. reflexivity.
  - apply empty_result_attempt in H as ->. reflexivity.
  - intros Hr. pose proof (attempt_ordinary decode extract r Hr Hd Hx) as Ho.
    unfold returns_table, strtest_end.
    destruct (attempt decode extract r) as [records|e]; simpl in *;
      [now eexists |]. rewrite Ho. now eexists.
Qed.

Lemma json_ordinary (response : Response) :
  ordinary_response (Ok response) -> ordinary (response_json response).
Proof. intros (_ & H & _). exact H. Qed.

Lemma csv_ordinary (response : Response) :
  ordinary_response (Ok response) -> ordinary (read_csv response).
Proof. intros (_ & _ & H). exact H. Qed.

(** C4, as amended.  In [main.py] each adapter answers each failure
    (network or HTTP status, decoding or fields, empty result) with the
    empty table and one printed warning that names the indicator.  In
    [strtest.py] each adapter answers a failure that raises with the
    empty table and a warning that names the indicator, and an empty
    result with the empty table and no warning.  In neither program does
    an adapter raise, as long as the failures are of class [Exception]. *)
Theorem C4_adapters_fail_to_empty_table
    (net : Net) (s : State) (country_code kpi_name indicator_code : string) :
  main_contract response_json (who_gho_records country_code kpi_name)
    (net (length (sent s)) (who_gho_request indicator_code)) kpi_name s
    (Main.extract_who_gho_data country_code kpi_name indicator_code net s)
  /\ main_contract response_json (world_bank_records country_code kpi_name)
       (net (length (sent s)) (world_bank_request country_code indicator_code)) kpi_name s
       (Main.extract_world_bank_data country_code kpi_name indicator_code net s)
  /\ main_contract read_csv (oecd_records country_code kpi_name)
       (net (length (sent s)) (oecd_request country_code kpi_name indicator_code))
       kpi_name s
       (Main.extract_oecd_data country_code kpi_name indicator_code net s)
  /\ strtest_contract response_json (who_gho_records country_code kpi_name)
       (net (length (sent s)) (who_gho_request indicator_code)) kpi_name s
       (Strtest.extract_who_gho_data country_code kpi_name indicator_code net s)
  /\ strtest_contract response_json (world_bank_records country_code kpi_name)
       (net (length (sent s)) (world_bank_request country_code indicator_code)) kpi_name s
       (Strtest.extract_world_bank_data country_code kpi_name indicator_code net s)
  /\ strtest_contract read_csv (oecd_records country_code kpi_name)
       (net (length (sent s)) (oecd_request country_code kpi_name indicator_code))
       kpi_name s
       (Strtest.extract_oecd_data country_code kpi_name indicator_code net s).
Proof.
  rewrite main_who_gho_run, main_world_bank_run, main_oecd_run,
    strtest_who_gho_run, strtest_world_bank_run, strtest_oecd_run.
  repeat apply conj;
    first [apply main_end_contract | apply strtest_end_contract];
    auto using json_ordinary, csv_ordinary, who_gho_records_ordinary,
      world_bank_records_ordinary, oecd_records_ordinary.
Qed.

Lemma C4_adapters_fail_to_empty_table_witness :
  fails_raising response_json (who_gho_records "IND" "Response")
    (unreachable 0%nat (who_gho_request "IHR04"))
  /\ returns_empty_with Print "Response" start
       (Main.extract_who_gho_data "IND" "Response" "IHR04" unreachable start)
  /\ returns_empty_with StWarning "Response" start
       (Strtest.extract_who_gho_data "IND" "Response" "IHR04" unreachable start).
Proof.
  assert (Hfail : fails_raising response_json (who_gho_records "IND" "Response")
                    (unreachable 0%nat (who_gho_request "IHR04"))).
  { eapply connection_failure; reflexivity. }
  pose proof (C4_adapters_fail_to_empty_table unreachable start "IND" "Response" "IHR04")
    as ((Hmain & _) & _ & _ & (Hdashboard & _) & _).
  split; [exact Hfail|]. split; [exact (Hmain Hfail) | exact (Hdashboard Hfail)].
Defined.

Definition no_observation_who : json := JDict [("value", JList [])].

(** C4 fails in [strtest.py]: on a well-formed response without any
    observation the WHO GHO adapter returns the empty table and shows
    nothing. *)
Lemma C4_dashboard_empty_result_no_warning :
  empty_result response_json (who_gho_records "IND" "Response")
    (serve_json no_observation_who 0%nat (who_gho_request "IHR04"))
  /\ Strtest.extract_who_gho_data "IND" "Response" "IHR04"
       (serve_json no_observation_who) start
     = (Ok [], St [who_gho_request "IHR04"] []).
Proof.
  split; [|reflexivity].
  eexists _, _. repeat split; reflexivity.
Qed.

Example main_network_down :
  Main.extract_world_bank_data "IND" "Suicide mortality rate" "SH.STA.SUIC.P5"
    unreachable start
  = (Ok [],
     St [world_bank_request "IND" "SH.STA.SUIC.P5"]
        [Print "❌ Data unavailable for that KPI: Suicide mortality rate - Error: connection refused"]).
Proof. reflexivity. Qed.

Example main_empty_result :
  Main.extract_who_gho_data "IND" "DTP3 immunization coverage (%)" "WHS4_100"
    (serve_json no_observation_who) start
  = (Ok [],
     St [who_gho_request "WHS4_100"]
        [Print "❌ Data unavailable for that KPI: DTP3 immunization coverage (%)"]).
Proof. reflexivity. Qed.

(** ** Sorting *)

(** A row comes no later than another in the order (KPI, Year), and in
    the order (Country, KPI, Year). *)
Definition kpi_year_le (a b : record) : Prop :=
  String.compare (KPI a) (KPI b) = Lt \/ (KPI a = KPI b /\ Year a <= Year b).

Definition country_kpi_year_le (a b : record) : Prop :=
  String.compare (Country a) (Country b) = Lt
  \/ (Country a = Country b /\ kpi_year_le a b).

Lemma string_compare_refl (a : string) : String.compare a a = Eq.
Proof.
  pose proof (String.compare_antisym a a) as H.
  destruct (String.compare a a); simpl in H; congruence.
Qed.

Lemma string_compare_Eq (a b : string) : String.compare a b = Eq <-> a = b.
Proof.
  split; [apply String.compare_eq_iff | intros ->; apply string_compare_refl].
Qed.

Lemma not_after_kpi_year (a b : record) :
  Pandas.not_after Pandas.by_kpi_year a b = true <-> kpi_year_le a b.
Proof.
  unfold Pandas.not_after, Pandas.by_kpi_year, Pandas.then_by, kpi_year_le.
  destruct (String.compare (KPI a) (KPI b)) eqn:Hk.
  - apply string_compare_Eq in Hk. rewrite <- Z.compare_le_iff.
    destruct (Year a ?= Year b); split; intros H; try discriminate;
      try (right; split; [assumption | discriminate]); try reflexivity.
    destruct H as [H|[_ H]]; [discriminate | now destruct H].
  - split; [now left | reflexivity].
  - split; [discriminate|]. intros [H|[H _]]; [discriminate|].
    apply string_compare_Eq in H. congruence.
Qed.

Lemma not_after_country_kpi_year (a b : record) :
  Pandas.not_after Pandas.by_country_kpi_year a b = true <-> country_kpi_year_le a b.
Proof.
  unfold country_kpi_year_le. rewrite <- not_after_kpi_year.
  unfold Pandas.not_after, Pandas.by_country_kpi_year, Pandas.then_by.
  destruct (String.compare (Country a) (Country b)) eqn:Hc.
  - apply string_compare_Eq in Hc.
    split; [intros H; right; now split | intros [H|[_ H]]; [discriminate | exact H]].
  - split; [now left | reflexivity].
  - split; [discriminate|]. intros [H|[H _]]; [discriminate|].
    apply string_compare_Eq in H. congruence.
Qed.

(** Of two rows, one comes no later than the other. *)
Definition total_order (cmp : record -> record -> comparison) : Prop :=
  forall a b, Pandas.not_after cmp a b = false -> Pandas.not_after cmp b a = true.

Lemma by_kpi_year_total : total_order Pandas.by_kpi_year.
Proof.
  intros a b. unfold Pandas.not_after, Pandas.by_kpi_year, Pandas.then_by.
  rewrite (String.compare_antisym (KPI b) (KPI a)), (Z.compare_antisym (Year a) (Year b)).
  destruct (String.compare (KPI a) (KPI b)); simpl; try congruence.
  now destruct (Year a ?= Year b).
Qed.

Lemma by_country_kpi_year_total : total_order Pandas.by_country_kpi_year.
Proof.
  intros a b. pose proof (by_kpi_year_total a b) as H. revert H.
  unfold Pandas.not_after, Pandas.by_country_kpi_year, Pandas.then_by.
  rewrite (String.compare_antisym (Country b) (Country a)).
  destruct (String.compare (Country a) (Country b)); simpl; intros H1 H2;
    auto; congruence.
Qed.

Section SortValues.

Variable cmp : record -> record -> comparison.

Let le (a b : record) : Prop := Pandas.not_after cmp a b = true.

Lemma place_Permutation (x : record) (l : DataFrame) :
  Pandas.place cmp x l ≡ₚ x :: l.
Proof.
  induction l as [|y l IH]; simpl; [reflexivity|].
  destruct (Pandas.not_after cmp x y); [reflexivity|].
  rewrite IH. apply perm_swap.
Qed.

Lemma sort_values_Permutation (df : DataFrame) : Pandas.sort_values cmp df ≡ₚ df.
Proof.
  induction df as [|x l IH]; simpl; [reflexivity|].
  rewrite place_Permutation. now rewrite IH.
Qed.

Lemma place_HdRel (a x : record) (l : DataFrame) :
  le a x -> HdRel le a l -> HdRel le a (Pandas.place cmp x l).
Proof.
  intros Hax Hal. destruct l as [|y l]; simpl; [now constructor|].
  destruct (Pandas.not_after cmp x y); constructor; [exact Hax|].
  now inversion Hal.
Qed.

Lemma place_Sorted (x : record) (l : DataFrame) :
  total_order cmp -> Sorted le l -> Sorted le (Pandas.place cmp x l).
Proof.
  intros Htot Hl. induction Hl as [|y l Hl IH Hy]; simpl.
  - repeat constructor.
  - destruct (Pandas.not_after cmp x y) eqn:Hxy.
    + constructor; [now constructor | now constructor].
    + constructor; [exact IH|]. apply place_HdRel; [|exact Hy].
      now apply Htot.
Qed.

Lemma sort_values_Sorted (df : DataFrame) :
  total_order cmp -> Sorted le (Pandas.sort_values cmp df).
Proof.
  intros Htot. induction df as [|x l IH]; simpl; [constructor|].
  now apply place_Sorted.
Qed.

End SortValues.

Lemma Sorted_iff {A} (R1 R2 : A -> A -> Prop) (l : list A) :
  (forall a b, R1 a b -> R2 a b) -> Sorted R1 l -> Sorted R2 l.
Proof.
  intros HR. induction 1 as [|x l Hl IH Hx]; constructor; [exact IH|].
  destruct Hx; constructor. now apply HR.
Qed.

Lemma sort_values_kpi_year (df : DataFrame) :
  Sorted kpi_year_le (Pandas.sort_values Pandas.by_kpi_year df).
Proof.
  eapply Sorted_iff; [|apply sort_values_Sorted, by_kpi_year_total].
  intros a b. apply not_after_kpi_year.
Qed.

Lemma sort_values_country_kpi_year (df : DataFrame) :
  Sorted country_kpi_year_le (Pandas.sort_values Pandas.by_country_kpi_year df).
Proof.
  eapply Sorted_iff; [|apply sort_values_Sorted, by_country_kpi_year_total].
  intros a b. apply not_after_country_kpi_year.
Qed.

(** ** The aggregator *)

(** The tables returned by calls made one after the other, and the state
    they leave; a call that raises ends the run. *)
Fixpoint run_calls (calls : list (M DataFrame)) (net : Net) (s : State)
  : list DataFrame * State :=
  match calls with
  | [] => ([], s)
  | call :: rest =>
      match call net s with
      | (Ok table, s') =>
          let (tables, s'') := run_calls rest net s' in (table :: tables, s'')
      | (Raise _, s') => ([], s')
      end
  end.

(** The calls of one adapter for a list of indicators. *)
Definition adapter_calls (catalogue : list (string * string))
    (adapter : string -> string -> string -> M DataFrame)
    (country_code : string) (kpis : list string) : list (M DataFrame) :=
  map (fun kpi => adapter country_code kpi (default "" (Py.assoc kpi catalogue))) kpis.

(** The calls of [extract_all_data], in order. *)
Definition main_calls (country_code : string) (selected_kpis : selection)
  : list (M DataFrame) :=
  adapter_calls Main.who_gho_kpis Main.extract_who_gho_data country_code
    (selected_kpis WHO_GHO)
  ++ adapter_calls world_bank_kpis Main.extract_world_bank_data country_code
       (selected_kpis WORLD_BANK)
  ++ adapter_calls oecd_kpis Main.extract_oecd_data country_code
       (selected_kpis OECD).

(** The calls of [extract_data_for_countries], in order. *)
Definition strtest_country_calls (selected_kpis : selection) (country_code : string)
  : list (M DataFrame) :=
  adapter_calls Strtest.who_gho_kpis Strtest.extract_who_gho_data country_code
    (selected_kpis WHO_GHO)
  ++ adapter_calls world_bank_kpis Strtest.extract_world_bank_data country_code
       (selected_kpis WORLD_BANK)
  ++ adapter_calls oecd_kpis Strtest.extract_oecd_data country_code
       (selected_kpis OECD).

Definition strtest_calls (country_codes : list string) (selected_kpis : selection)
  : list (M DataFrame) :=
  flat_map (strtest_country_calls selected_kpis) country_codes.

(** A call that returns a table from every state. *)
Definition total_call (net : Net) (call : M DataFrame) : Prop :=
  forall s, exists table s', call net s = (Ok table, s').

Definition known (catalogue : list (string * string)) (kpis : list string) : Prop :=
  Forall (fun kpi => is_Some (Py.assoc kpi catalogue)) kpis.

Lemma adapter_calls_total catalogue adapter country_code kpis net :
  (forall kpi code, total_call net (adapter country_code kpi code)) ->
  Forall (total_call net) (adapter_calls catalogue adapter country_code kpis).
Proof.
  intros H. unfold adapter_calls. apply Forall_map, Forall_forall. intros kpi _. apply H.
Qed.

Lemma run_calls_app (a b : list (M DataFrame)) (net : Net) (s : State) :
  Forall (total_call net) a ->
  run_calls (a ++ b) net s
  = ((run_calls a net s).1 ++ (run_calls b net (run_calls a net s).2).1,
     (run_calls b net (run_calls a net s).2).2).
Proof.
  intros Ha. revert s. induction Ha as [|call a Hcall _ IH]; intros s; simpl.
  - now destruct (run_calls b net s).
  - destruct (Hcall s) as (table & s' & ->). rewrite IH.
    now destruct (run_calls a net s').
Qed.

Lemma run_calls_length (calls : list (M DataFrame)) (net : Net) (s : State) :
  Forall (total_call net) calls ->
  length (run_calls calls net s).1 = length calls.
Proof.
  intros Hc. revert s. induction Hc as [|call a Hcall _ IH]; intros s; simpl.
  - reflexivity.
  - destruct (Hcall s) as (table & s' & ->). specialize (IH s').
    destruct (run_calls a net s'). simpl in *. now rewrite IH.
Qed.

Definition nonempty (tables : list DataFrame) : list DataFrame :=
  filter (fun table => empty table = false) tables.

Lemma nonempty_app (a b : list DataFrame) : nonempty (a ++ b) = nonempty a ++ nonempty b.
Proof. apply filter_app. Qed.

Lemma concat_nonempty (tables : list DataFrame) :
  Pandas.concat (nonempty tables) = Pandas.concat tables.
Proof.
  unfold Pandas.concat, nonempty.
  induction tables as [|[|r table] tables IH]; [reflexivity | exact IH |].
  rewrite filter_cons_True by reflexivity. simpl. now rewrite IH.
Qed.

Lemma extract_each_run catalogue adapter country_code kpis all_data net s :
  (forall kpi code, total_call net (adapter country_code kpi code)) ->
  known catalogue kpis ->
  extract_each catalogue adapter country_code kpis all_data net s
  = (Ok (all_data
         ++ nonempty (run_calls (adapter_calls catalogue adapter country_code kpis) net s).1),
     (run_calls (adapter_calls catalogue adapter country_code kpis) net s).2).
Proof.
  intros Htot Hk. revert all_data s.
  induction Hk as [|kpi kpis [code Hcode] _ IH]; intros all_data s.
  - simpl. now rewrite app_nil_r.
  - cbn [extract_each adapter_calls map run_calls].
    unfold mbind, M_bind, lift, getitem. rewrite Hcode. cbn [default]. unfold id.
    destruct (Htot kpi code s) as (table & s' & ->).
    fold (adapter_calls catalogue adapter country_code kpis).
    rewrite IH. destruct (run_calls _ net s') as [tables s'']. cbn [fst snd].
    destruct table as [|r table]; cbn [empty].
    + reflexivity.
    + unfold nonempty. rewrite filter_cons_True by reflexivity.
      now rewrite <- app_assoc.
Qed.

Lemma length_concat (tables : list DataFrame) :
  length (Pandas.concat tables) = sum_list_with length tables.
Proof.
  unfold Pandas.concat. induction tables as [|t tables IH]; simpl; [reflexivity|].
  now rewrite length_app, IH.
Qed.

Lemma concat_all_empty (tables : list DataFrame) :
  Forall (fun table => table = []) tables -> Pandas.concat tables = [].
Proof. unfold Pandas.concat. induction 1 as [|t tables -> _ IH]; simpl; auto. Qed.

(** The table made from the tables of the adapters: all their rows, in
    the order [le]; as many rows as they have together; empty when they
    are all empty. *)
Definition merged_and_sorted (le : record -> record -> Prop)
    (tables : list DataFrame) (df : DataFrame) : Prop :=
  df ≡ₚ Pandas.concat tables
  /\ Sorted le df
  /\ length df = sum_list_with length tables
  /\ (Forall (fun table => table = []) tables -> df = []).

Lemma combine_merged_and_sorted cmp le (tables : list DataFrame) (net : Net) (s : State) :
  (forall df, Sorted le (Pandas.sort_values cmp df)) ->
  exists df,
    (match nonempty tables with
     | [] => mret []
     | _ => mret (Pandas.sort_values cmp (Pandas.concat (nonempty tables)))
     end : M DataFrame) net s = (Ok df, s)
    /\ merged_and_sorted le tables df.
Proof.
  intros Hsorted. exists (Pandas.sort_values cmp (Pandas.concat tables)). split.
  - rewrite <- (concat_nonempty tables). now destruct (nonempty tables).
  - repeat split.
    + apply sort_values_Permutation.
    + apply Hsorted.
    + rewrite <- length_concat. apply Permutation_length, sort_values_Permutation.
    + intros Hall. now rewrite concat_all_empty.
Qed.

Lemma returns_table_total (res : exc DataFrame * State) :
  returns_table res -> exists table s', res = (Ok table, s').
Proof. destruct res as [r s']. intros [df Hdf]. simpl in Hdf. subst r. now exists df, s'. Qed.

Section Totality.

Variables (net : Net) (country_code : string).
Hypothesis net_ordinary : ordinary_net net.

Lemma main_who_gho_total kpi code :
  total_call net (Main.extract_who_gho_data country_code kpi code).
Proof.
  intros s. rewrite main_who_gho_run. apply returns_table_total.
  apply main_end_contract;
    auto using json_ordinary, who_gho_records_ordinary.
Qed.

Lemma main_world_bank_total kpi code :
  total_call net (Main.extract_world_bank_data country_code kpi code).
Proof.
  intros s. rewrite main_world_bank_run. apply returns_table_total.
  apply main_end_contract;
    auto using json_ordinary, world_bank_records_ordinary.
Qed.

Lemma main_oecd_total kpi code :
  total_call net (Main.extract_oecd_data country_code kpi code).
Proof.
  intros s. rewrite main_oecd_run. apply returns_table_total.
  apply main_end_contract;
    auto using csv_ordinary, oecd_records_ordinary.
Qed.

Lemma strtest_who_gho_total kpi code :
  total_call net (Strtest.extract_who_gho_data country_code kpi code).
Proof.
  intros s. rewrite strtest_who_gho_run. apply returns_table_total.
  apply strtest_end_contract;
    auto using json_ordinary, who_gho_records_ordinary.
Qed.

Lemma strtest_world_bank_total kpi code :
  total_call net (Strtest.extract_world_bank_data country_code kpi code).
Proof.
  intros s. rewrite strtest_world_bank_run. apply returns_table_total.
  apply strtest_end_contract;
    auto using json_ordinary, world_bank_records_ordinary.
Qed.

Lemma strtest_oecd_total kpi code :
  total_call net (Strtest.extract_oecd_data country_code kpi code).
Proof.
  intros s. rewrite strtest_oecd_run. apply returns_table_total.
  apply strtest_end_contract;
    auto using csv_ordinary, oecd_records_ordinary.
Qed.

End Totality.

Section Aggregation.

Variables (net : Net) (selected_kpis : selection).
Hypothesis net_ordinary : ordinary_net net.
Hypothesis known_world_bank : known world_bank_kpis (selected_kpis WORLD_BANK).
Hypothesis known_oecd : known oecd_kpis (selected_kpis OECD).

(** The three loops of one country, in [strtest.py], and the same three
    loops in [main.py]. *)
Lemma main_loops_run (country_code : string) (all_data : list DataFrame) (s : State) :
  known Main.who_gho_kpis (selected_kpis WHO_GHO) ->
  (all_data ← extract_each Main.who_gho_kpis Main.extract_who_gho_data country_code
                (selected_kpis WHO_GHO) all_data;
   all_data ← extract_each world_bank_kpis Main.extract_world_bank_data country_code
                (selected_kpis WORLD_BANK) all_data;
   extract_each oecd_kpis Main.extract_oecd_data country_code
     (selected_kpis OECD) all_data) net s
  = (Ok (all_data ++ nonempty (run_calls (main_calls country_code selected_kpis) net s).1),
     (run_calls (main_calls country_code selected_kpis) net s).2).
Proof.
  intros known_who. unfold mbind, M_bind, main_calls.
  rewrite !extract_each_run
    by auto using main_who_gho_total, main_world_bank_total, main_oecd_total.
  rewrite !run_calls_app
    by (apply adapter_calls_total;
        auto using main_who_gho_total, main_world_bank_total).
  cbn [fst snd]. now rewrite !nonempty_app, <- !app_assoc.
Qed.

Lemma strtest_loops_run (country_code : string) (all_data : list DataFrame) (s : State) :
  known Strtest.who_gho_kpis (selected_kpis WHO_GHO) ->
  (all_data ← extract_each Strtest.who_gho_kpis Strtest.extract_who_gho_data country_code
                (selected_kpis WHO_GHO) all_data;
   all_data ← extract_each world_bank_kpis Strtest.extract_world_bank_data country_code
                (selected_kpis WORLD_BANK) all_data;
   extract_each oecd_kpis Strtest.extract_oecd_data country_code
     (selected_kpis OECD) all_data) net s
  = (Ok (all_data
         ++ nonempty (run_calls (strtest_country_calls selected_kpis country_code) net s).1),
     (run_calls (strtest_country_calls selected_kpis country_code) net s).2).
Proof.
  intros known_who. unfold mbind, M_bind, strtest_country_calls.
  rewrite !extract_each_run
    by auto using strtest_who_gho_total, strtest_world_bank_total, strtest_oecd_total.
  rewrite !run_calls_app
    by (apply adapter_calls_total;
        auto using strtest_who_gho_total, strtest_world_bank_total).
  cbn [fst snd]. now rewrite !nonempty_app, <- !app_assoc.
Qed.

Lemma strtest_country_calls_total (country_code : string) :
  Forall (total_call net) (strtest_country_calls selected_kpis country_code).
Proof.
  unfold strtest_country_calls. rewrite !Forall_app.
  repeat split; apply adapter_calls_total;
    auto using strtest_who_gho_total, strtest_world_bank_total, strtest_oecd_total.
Qed.

Lemma main_calls_total (country_code : string) :
  Forall (total_call net) (main_calls country_code selected_kpis).
Proof.
  unfold main_calls. rewrite !Forall_app.
  repeat split; apply adapter_calls_total;
    auto using main_who_gho_total, main_world_bank_total, main_oecd_total.
Qed.

Lemma strtest_calls_total (country_codes : list string) :
  Forall (total_call net) (strtest_calls country_codes selected_kpis).
Proof.
  unfold strtest_calls. induction country_codes as [|c cs IH]; simpl; [constructor|].
  apply Forall_app. split; [apply strtest_country_calls_total | exact IH].
Qed.

(** The country code is a value of [self.countries]. *)
Definition listed (country_code : string) : Prop :=
  exists name, Strtest.country_name country_code = Ok name.

Lemma extract_countries_run (country_codes : list string)
    (all_data : list DataFrame) (s : State) :
  known Strtest.who_gho_kpis (selected_kpis WHO_GHO) ->
  Forall listed country_codes ->
  Strtest.extract_countries country_codes selected_kpis all_data net s
  = (Ok (all_data
         ++ nonempty (run_calls (strtest_calls country_codes selected_kpis) net s).1),
     (run_calls (strtest_calls country_codes selected_kpis) net s).2).
Proof.
  intros known_who Hl. revert all_data s.
  induction Hl as [|c cs [name Hname] _ IH]; intros all_data s.
  - simpl. now rewrite app_nil_r.
  - cbn [Strtest.extract_countries].
    pose proof (strtest_loops_run c all_data s known_who) as Hloops.
    unfold mbind, M_bind, lift in *. rewrite Hname.
    destruct (extract_each Strtest.who_gho_kpis _ _ _ _ net s) as [[a1|e1] s1];
      [|discriminate Hloops].
    destruct (extract_each world_bank_kpis _ _ _ _ net s1) as [[a2|e2] s2];
      [|discriminate Hloops].
    rewrite Hloops, IH. unfold strtest_calls. cbn [flat_map].
    rewrite run_calls_app by apply strtest_country_calls_total.
    cbn [fst snd]. now rewrite nonempty_app, <- app_assoc.
Qed.

End Aggregation.

(** C7.  With the selected indicators taken from the catalogues, the
    country codes from [self.countries], and a network that is not
    interrupted, [extract_all_data] returns the rows of all the tables
    returned by its adapter calls, sorted by (KPI, Year), and
    [extract_data_for_countries] returns them sorted by (Country, KPI,
    Year): the merged table has as many rows as the adapter tables
    together.  When all of these are empty the merged table is empty, and
    the caller shows that no data was found. *)
Theorem C7_aggregator_merges_and_sorts
    (net : Net) (s : State) (selected_kpis : selection)
    (country_code : string) (country_codes : list string) :
  ordinary_net net ->
  known world_bank_kpis (selected_kpis WORLD_BANK) ->
  known oecd_kpis (selected_kpis OECD) ->
  (known Main.who_gho_kpis (selected_kpis WHO_GHO) ->
   exists df,
     Main.extract_all_data country_code selected_kpis net s
     = (Ok df, (run_calls (main_calls country_code selected_kpis) net s).2)
     /\ length (run_calls (main_calls country_code selected_kpis) net s).1
        = length (main_calls country_code selected_kpis)
     /\ merged_and_sorted kpi_year_le
          (run_calls (main_calls country_code selected_kpis) net s).1 df
     /\ (df = [] ->
         forall s', Main.display_comprehensive_table df country_code net s'
                    = (Ok tt, add_shown s' (Print Main.no_data_found))))
  /\ (known Strtest.who_gho_kpis (selected_kpis WHO_GHO) ->
      Forall listed country_codes ->
      exists df,
        Strtest.extract_data_for_countries country_codes selected_kpis net s
        = (Ok df, (run_calls (strtest_calls country_codes selected_kpis) net s).2)
        /\ length (run_calls (strtest_calls country_codes selected_kpis) net s).1
           = length (strtest_calls country_codes selected_kpis)
        /\ merged_and_sorted country_kpi_year_le
             (run_calls (strtest_calls country_codes selected_kpis) net s).1 df
        /\ (df = [] ->
            forall selected_countries health_data,
              selected_countries <> [] ->
              Strtest.total_kpis selected_kpis <> 0%nat ->
              mapM (getitem Strtest.countries) selected_countries = Ok country_codes ->
              Strtest.main true selected_countries selected_kpis health_data net s
              = (Ok health_data,
                 add_shown (run_calls (strtest_calls country_codes selected_kpis) net s).2
                   (StWarning "No data found for the selected criteria.")))).
Proof.
  intros Hnet Hwb Hoecd. split.
  - intros Hwho.
    pose proof (main_loops_run net selected_kpis Hnet Hwb Hoecd country_code [] s Hwho)
      as Hloops.
    destruct (combine_merged_and_sorted Pandas.by_kpi_year kpi_year_le
                (run_calls (main_calls country_code selected_kpis) net s).1 net
                (run_calls (main_calls country_code selected_kpis) net s).2
                sort_values_kpi_year) as (df & Hdf & Hmerged).
    exists df. split; [|split; [|split]].
    + unfold Main.extract_all_data. unfold mbind, M_bind in *.
      destruct (extract_each Main.who_gho_kpis _ _ _ _ net s) as [[a1|e1] s1];
        [|discriminate Hloops].
      destruct (extract_each world_bank_kpis _ _ _ _ net s1) as [[a2|e2] s2];
        [|discriminate Hloops].
      rewrite Hloops. exact Hdf.
    + apply run_calls_length. now apply main_calls_total.
    + exact Hmerged.
    + intros -> s'. reflexivity.
  - intros Hwho Hlisted.
    pose proof (extract_countries_run net selected_kpis Hnet Hwb Hoecd country_codes [] s
                  Hwho Hlisted) as Hloops.
    destruct (combine_merged_and_sorted Pandas.by_country_kpi_year country_kpi_year_le
                (run_calls (strtest_calls country_codes selected_kpis) net s).1 net
                (run_calls (strtest_calls country_codes selected_kpis) net s).2
                sort_values_country_kpi_year) as (df & Hdf & Hmerged).
    assert (Hextract :
              Strtest.extract_data_for_countries country_codes selected_kpis net s
              = (Ok df, (run_calls (strtest_calls country_codes selected_kpis) net s).2)).
    { unfold Strtest.extract_data_for_countries. unfold mbind, M_bind.
      rewrite Hloops. exact Hdf. }
    exists df. split; [exact Hextract|]. split; [|split; [exact Hmerged|]].
    + apply run_calls_length. now apply strtest_calls_total.
    + intros -> selected_countries health_data Hsome Hkpis Hcodes.
      unfold Strtest.main. destruct selected_countries as [|name names]; [done|].
      apply Nat.eqb_neq in Hkpis. rewrite Hkpis.
      unfold mbind, M_bind, lift. rewrite Hcodes, Hextract. reflexivity.
Qed.

(** Three sources answering with 3, 0 and 5 records. *)
Definition three_sources : Net := fun n _ =>
  match n with
  | 0%nat =>
      Ok (Resp (Ok tt)
            (Ok (JDict [("value", JList [who_gho_item "IND" 2021 (SInt 85);
                                         who_gho_item "IND" 2019 (SInt 91);
                                         who_gho_item "IND" 2020 (SInt 85)])]))
            (raise ParserError "no columns to parse"))
  | 1%nat =>
      Ok (Resp (Ok tt)
            (Ok (JList [JDict [("page", JS (SInt 0))]; None_]))
            (raise ParserError "no columns to parse"))
  | _ =>
      Ok (Resp (Ok tt)
            (raise ValueError "not a JSON document")
            (Ok [oecd_row 2019 (SInt 5); oecd_row 2017 (SInt 5); oecd_row 2015 (SInt 6);
                 oecd_row 2018 (SInt 5); oecd_row 2016 (SInt 6)]))
  end.

Definition one_of_each : selection := fun db =>
  match db with
  | WHO_GHO => ["DTP3 immunization coverage (%)"]
  | WORLD_BANK => ["Life expectancy at birth"]
  | OECD => ["Hospital beds by function of healthcare"]
  end.

Lemma three_sources_ordinary : ordinary_net three_sources.
Proof. intros [|[|n]] r; repeat split. Qed.

Lemma one_of_each_known :
  known Main.who_gho_kpis (one_of_each WHO_GHO)
  /\ known world_bank_kpis (one_of_each WORLD_BANK)
  /\ known oecd_kpis (one_of_each OECD).
Proof. repeat split; repeat constructor; now eexists. Qed.

Example three_sources_tables :
  map length (run_calls (main_calls "IND" one_of_each) three_sources start).1
  = [3; 0; 5]%nat.
Proof. reflexivity. Qed.

Example three_sources_merged :
  map (fun r => (KPI r, Year r))
    (returned (Main.extract_all_data "IND" one_of_each three_sources start))
  = [("DTP3 immunization coverage (%)", 2019); ("DTP3 immunization coverage (%)", 2020);
     ("DTP3 immunization coverage (%)", 2021);
     ("Hospital beds by function of healthcare", 2015);
     ("Hospital beds by function of healthcare", 2016);
     ("Hospital beds by function of healthcare", 2017);
     ("Hospital beds by function of healthcare", 2018);
     ("Hospital beds by function of healthcare", 2019)].
Proof. reflexivity. Qed.

Lemma C7_aggregator_merges_and_sorts_witness :
  exists df,
    Main.extract_all_data "IND" one_of_each three_sources start
    = (Ok df, (run_calls (main_calls "IND" one_of_each) three_sources start).2)
    /\ length df = 8%nat
    /\ Sorted kpi_year_le df.
Proof.
  destruct one_of_each_known as (Hwho & Hwb & Hoecd).
  destruct (proj1 (C7_aggregator_merges_and_sorts three_sources start one_of_each
                     "IND" [] three_sources_ordinary Hwb Hoecd) Hwho)
    as (df & Hrun & _ & (_ & Hsorted & Hlength & _) & _).
  exists df. split; [exact Hrun|]. split; [exact Hlength | exact Hsorted].
Defined.

(** ** No indicator selected *)

Lemma extract_all_data_nothing (country_code : string) (selected_kpis : selection)
    (net : Net) (s : State) :
  (forall db, selected_kpis db = []) ->
  Main.extract_all_data country_code selected_kpis net s = (Ok [], s).
Proof.
  intros Hnone. unfold Main.extract_all_data. now rewrite !Hnone.
Qed.

(** C9, as amended.  In the dashboard, pressing "Extract Data" with some
    country and no indicator selected shows the notice "Please select at
    least one KPI." and ends the pass: no GET is sent, no table is made
    and the table kept from an earlier pass is not shown; with no country
    selected the notice asks for a country instead.  In the terminal
    program a selection line that names no indicator of the menu sends no
    GET, gives the empty table and prints "No data found for the selected
    criteria.". *)
Theorem C9_no_indicator_selected
    (net : Net) (s : State) (selected_countries : list string)
    (selected_kpis : selection) (health_data : option DataFrame)
    (country_line selection_line : string) :
  (selected_countries <> [] ->
   Strtest.total_kpis selected_kpis = 0%nat ->
   Strtest.main true selected_countries selected_kpis health_data net s
   = (Ok health_data, add_shown s (StError "Please select at least one KPI.")))
  /\ Strtest.main true [] selected_kpis health_data net s
     = (Ok health_data, add_shown s (StError "Please select at least one country."))
  /\ (Main.display_kpis_and_get_selection selection_line = Ok selected_kpis ->
      (forall db, selected_kpis db = []) ->
      Main.extract_all_data (Main.get_country_input country_line) selected_kpis net s
      = (Ok [], s)
      /\ Main.run country_line selection_line net s
         = (Ok tt, add_shown s (Print Main.no_data_found))).
Proof.
  split; [|split].
  - intros Hsome Hzero. unfold Strtest.main.
    destruct selected_countries as [|name names]; [done|]. now rewrite Hzero.
  - reflexivity.
  - intros Hline Hnone. split; [now apply extract_all_data_nothing|].
    unfold Main.run, mbind, M_bind, lift. rewrite Hline.
    now rewrite extract_all_data_nothing.
Qed.

Lemma C9_no_indicator_selected_witness :
  Strtest.main true ["India"] no_selection None unreachable start
  = (Ok None, St [] [StError "Please select at least one KPI."])
  /\ Main.run "india" "99" unreachable start
     = (Ok tt, St [] [Print "❌ No data found for the selected criteria."]).
Proof.
  pose proof (C9_no_indicator_selected unreachable start ["India"] no_selection None
                "india" "99") as (Hdashboard & _ & Hterminal).
  split.
  - apply Hdashboard; [discriminate | reflexivity].
  - apply Hterminal; [reflexivity | intros []; reflexivity].
Defined.

(** C9 fails in both programs.  In the terminal program the line "99"
    selects no indicator, and the run prints that no data was found, not
    a request to select an indicator.  In the dashboard, with neither a
    country nor an indicator selected, the notice asks for a country. *)
Lemma C9_other_notices :
  (exists selected_kpis,
     Main.display_kpis_and_get_selection "99" = Ok selected_kpis
     /\ forall db, selected_kpis db = [])
  /\ Main.run "india" "99" unreachable start
     = (Ok tt, St [] [Print "❌ No data found for the selected criteria."])
  /\ Strtest.total_kpis no_selection = 0%nat
  /\ Strtest.main true [] no_selection None unreachable start
     = (Ok None, St [] [StError "Please select at least one country."]).
Proof.
  split; [|repeat split].
  eexists. split; [reflexivity|]. intros []; reflexivity.
Qed.

(** * Further properties of the two programs *)

(** ** One request per call *)

(** X1.  A call of an adapter sends exactly one GET, whether it succeeds
    or fails: nothing is tried a second time.  The WHO GHO adapter asks
    for the indicator with no parameter, the two others for the country
    and the indicator with their fixed parameters. *)
Theorem X1_adapter_sends_one_get
    (net : Net) (s : State) (country_code kpi_name indicator_code : string) :
  sent (Main.extract_who_gho_data country_code kpi_name indicator_code net s).2
  = sent s ++ [Req (api_urls WHO_GHO +:+ indicator_code) []]
  /\ sent (Strtest.extract_who_gho_data country_code kpi_name indicator_code net s).2
     = sent s ++ [Req (api_urls WHO_GHO +:+ indicator_code) []]
  /\ sent (Main.extract_world_bank_data country_code kpi_name indicator_code net s).2
     = sent s ++ [Req (world_bank_url country_code indicator_code) world_bank_params]
  /\ sent (Strtest.extract_world_bank_data country_code kpi_name indicator_code net s).2
     = sent s ++ [Req (world_bank_url country_code indicator_code) world_bank_params]
  /\ sent (Main.extract_oecd_data country_code kpi_name indicator_code net s).2
     = sent s ++ [Req (oecd_url country_code kpi_name indicator_code) oecd_params]
  /\ sent (Strtest.extract_oecd_data country_code kpi_name indicator_code net s).2
     = sent s ++ [Req (oecd_url country_code kpi_name indicator_code) oecd_params].
Proof.
  rewrite main_who_gho_run, strtest_who_gho_run, main_world_bank_run,
    strtest_world_bank_run, main_oecd_run, strtest_oecd_run,
    !main_end_sent, !strtest_end_sent.
  repeat split.
Qed.

(** ** A warning of [main.py] goes with an empty table *)

Lemma main_end_silent_or_warns (kpi_name : string) (o : exc (list record))
    (s s' : State) (df : DataFrame) :
  main_end kpi_name o s = (Ok df, s') ->
  (df <> [] /\ shown s' = shown s)
  \/ (df = [] /\ exists line, shown s' = shown s ++ [Print line] /\ names kpi_name line).
Proof.
  unfold main_end. destruct o as [[|r records]|e].
  - intros H. injection H as <- <-. right. split; [reflexivity|].
    eexists. split; [reflexivity | apply names_main_unavailable].
  - intros H. injection H as <- <-. left. now split.
  - destruct (is_Exception e); [|discriminate].
    intros H. injection H as <- <-. right. split; [reflexivity|].
    eexists. split; [reflexivity | apply names_main_unavailable_error].
Qed.

(** X2.  When an adapter of [main.py] returns, it has either returned
    rows and printed nothing, or returned the empty table and printed one
    line that names the indicator: a table with rows never comes with a
    warning, an empty one never without. *)
Theorem X2_main_warning_iff_empty
    (net : Net) (s s' : State) (country_code kpi_name indicator_code : string)
    (adapter : string -> string -> string -> M DataFrame) (df : DataFrame) :
  adapter = Main.extract_who_gho_data \/ adapter = Main.extract_world_bank_data
  \/ adapter = Main.extract_oecd_data ->
  adapter country_code kpi_name indicator_code net s = (Ok df, s') ->
  (df <> [] /\ shown s' = shown s)
  \/ (df = [] /\ exists line, shown s' = shown s ++ [Print line] /\ names kpi_name line).
Proof.
  intros [->|[->| ->]];
    [rewrite main_who_gho_run | rewrite main_world_bank_run | rewrite main_oecd_run];
    intros H; apply main_end_silent_or_warns in H; exact H.
Qed.

Lemma X2_main_warning_iff_empty_witness :
  exists line,
    shown (Main.extract_who_gho_data "IND" "Response" "IHR04"
             (serve_json no_observation_who) start).2
    = [Print line] /\ names "Response" line.
Proof.
  destruct (X2_main_warning_iff_empty (serve_json no_observation_who) start
              (St [who_gho_request "IHR04"]
                 [Print "❌ Data unavailable for that KPI: Response"])
              "IND" "Response" "IHR04" Main.extract_who_gho_data []
              (or_introl eq_refl) eq_refl)
    as [[Hne _]|[_ Hwarn]]; [now destruct Hne | exact Hwarn].
Defined.

(** ** The labels of a record *)

(** The country, the indicator and the source written on a row. *)
Definition labelled (country_code kpi_name source : string) (df : DataFrame) : Prop :=
  Forall (fun r => Country r = country_code /\ KPI r = kpi_name /\ Source r = source) df.

Lemma who_gho_labelled (country_code kpi_name : string) (r : exc Response)
    (records : list record) :
  attempt response_json (who_gho_records country_code kpi_name) r = Ok records ->
  labelled country_code kpi_name "WHO GHO" records.
Proof.
  intros H. apply attempt_Ok in H as (response & data & _ & _ & _ & H).
  apply who_gho_records_spec in H. eapply Forall_impl; [exact H|].
  intros x (item & _ & _ & _ & _ & _ & Hc & Hk & Hs). now repeat split.
Qed.

Lemma world_bank_labelled (country_code kpi_name : string) (r : exc Response)
    (records : list record) :
  attempt response_json (world_bank_records country_code kpi_name) r = Ok records ->
  labelled country_code kpi_name "World Bank" records.
Proof.
  intros H. apply attempt_Ok in H as (response & data & _ & _ & _ & H).
  apply world_bank_records_spec in H. eapply Forall_impl; [exact H|].
  intros x (item & kv & date & _ & _ & _ & _ & _ & Hc & Hk & Hs). now repeat split.
Qed.

Lemma oecd_labelled (country_code kpi_name : string) (r : exc Response)
    (records : list record) :
  attempt read_csv (oecd_records country_code kpi_name) r = Ok records ->
  labelled country_code kpi_name "OECD" records.
Proof.
  intros H. apply attempt_Ok in H as (response & data & _ & _ & _ & H).
  apply oecd_records_spec in H. eapply Forall_impl; [exact H|].
  intros x (w & _ & _ & _ & _ & _ & Hc & Hk & Hs). now repeat split.
Qed.

(** X3.  Every row returned by an adapter carries the country code and
    the display name it was called with, and the name of its own source:
    "WHO GHO", "World Bank" or "OECD".  The country written on a row is
    the requested code, not a field of the response. *)
Theorem X3_rows_carry_the_call_labels
    (net : Net) (s : State) (country_code kpi_name indicator_code : string) :
  labelled country_code kpi_name "WHO GHO"
    (returned (Main.extract_who_gho_data country_code kpi_name indicator_code net s))
  /\ labelled country_code kpi_name "WHO GHO"
       (returned (Strtest.extract_who_gho_data country_code kpi_name indicator_code net s))
  /\ labelled country_code kpi_name "World Bank"
       (returned (Main.extract_world_bank_data country_code kpi_name indicator_code net s))
  /\ labelled country_code kpi_name "World Bank"
       (returned (Strtest.extract_world_bank_data country_code kpi_name indicator_code net s))
  /\ labelled country_code kpi_name "OECD"
       (returned (Main.extract_oecd_data country_code kpi_name indicator_code net s))
  /\ labelled country_code kpi_name "OECD"
       (returned (Strtest.extract_oecd_data country_code kpi_name indicator_code net s)).
Proof.
  rewrite main_who_gho_run, strtest_who_gho_run, main_world_bank_run,
    strtest_world_bank_run, main_oecd_run, strtest_oecd_run.
  repeat split;
    first [apply main_end_returned | apply strtest_end_returned];
    first [apply who_gho_labelled | apply world_bank_labelled | apply oecd_labelled].
Qed.

(** ** What the WHO GHO and OECD loops keep *)

(** The record of an item of the WHO GHO response: none for an item of
    another country, without a year, or of a year before 2015. *)
Definition who_gho_record (country_code kpi_name : string) (item : json)
  : option record :=
  match item with
  | JDict kv =>
      let year := default None_ (Py.assoc "TimeDim" kv) in
      if (Py.eq_str (default None_ (Py.assoc "SpatialDim" kv)) country_code
          && Py.truthy year)%bool then
        match Py.int year with
        | Ok y =>
            if 2015 <=? y then
              Some (Rec y country_code kpi_name
                      (default None_ (Py.assoc "NumericValue" kv)) "WHO GHO")
            else None
        | Raise _ => None
        end
      else None
  | _ => None
  end.

(** An object whose [TimeDim], when the object is of the requested
    country and the field is not empty, reads as an integer. *)
Definition well_formed_who_gho_item (country_code : string) (item : json) : Prop :=
  exists kv, item = JDict kv /\
    (Py.eq_str (default None_ (Py.assoc "SpatialDim" kv)) country_code = true ->
     Py.truthy (default None_ (Py.assoc "TimeDim" kv)) = true ->
     exists y, Py.int (default None_ (Py.assoc "TimeDim" kv)) = Ok y).

Lemma who_gho_loop_exact (country_code kpi_name : string)
    (items : list json) (records : list record) :
  Forall (well_formed_who_gho_item country_code) items ->
  who_gho_loop country_code kpi_name items records
  = Ok (records ++ omap (who_gho_record country_code kpi_name) items).
Proof.
  intros Hwf. revert records.
  induction Hwf as [|item rest (kv & -> & Hitem) _ IH]; intros records.
  - simpl. now rewrite app_nil_r.
  - cbn [who_gho_loop omap list_omap]. unfold mbind, exc_bind.
    cbn [Py.get who_gho_record].
    destruct (Py.eq_str _ country_code) eqn:Hsp; cbn [andb]; [|apply IH].
    destruct (Py.truthy _) eqn:Ht; [|apply IH].
    destruct (Hitem eq_refl eq_refl) as (y & ->).
    destruct (2015 <=? y); [|apply IH].
    rewrite IH. now rewrite <- app_assoc.
Qed.

(** X4.  When the response is an object whose [value] is an array of
    well-formed items, the WHO GHO adapter returns, in both programs and
    in the order of the array, one record for each item of the requested
    country with a year of 2015 or later, and nothing else: items are
    neither merged nor reordered, whatever their other fields. *)
Theorem X4_who_gho_keeps_matching_items_in_order
    (net : Net) (s : State) (country_code kpi_name indicator_code : string)
    (response : Response) (fields : list (string * json)) (items : list json) :
  net (length (sent s)) (who_gho_request indicator_code) = Ok response ->
  raise_for_status response = Ok tt ->
  response_json response = Ok (JDict fields) ->
  Py.assoc "value" fields = Some (JList items) ->
  Forall (well_formed_who_gho_item country_code) items ->
  returned (Main.extract_who_gho_data country_code kpi_name indicator_code net s)
  = omap (who_gho_record country_code kpi_name) items
  /\ returned (Strtest.extract_who_gho_data country_code kpi_name indicator_code net s)
     = omap (who_gho_record country_code kpi_name) items.
Proof.
  intros Hnet Hstatus Hjson Hvalue Hwf.
  rewrite main_who_gho_run, strtest_who_gho_run.
  assert (Hrec : attempt response_json (who_gho_records country_code kpi_name)
                   (net (length (sent s)) (who_gho_request indicator_code))
                 = Ok (omap (who_gho_record country_code kpi_name) items)).
  { unfold attempt. rewrite Hnet. cbn [mbind exc_bind]. rewrite Hstatus, Hjson.
    cbn [mbind exc_bind]. unfold who_gho_records.
    cbn [Py.contains Py.getitem_str mbind exc_bind]. rewrite Hvalue.
    rewrite bool_decide_eq_true_2 by (now eexists).
    cbn [Py.iter mbind exc_bind]. now rewrite who_gho_loop_exact. }
  rewrite Hrec. split; [|reflexivity].
  unfold returned, main_end.
  now destruct (omap (who_gho_record country_code kpi_name) items).
Qed.

Definition mixed_who : list json :=
  [who_gho_item "USA" 2020 (SInt 78);
   JDict [("SpatialDim", JS (SStr "IND")); ("NumericValue", JS (SInt 1))];
   who_gho_item "IND" 2014 (SInt 68);
   who_gho_item "IND" 2020 (SInt 70);
   JDict [("SpatialDim", JS (SStr "IND")); ("TimeDim", JS (SStr "2021"))]].

Lemma X4_who_gho_keeps_matching_items_in_order_witness :
  Forall (well_formed_who_gho_item "IND") mixed_who
  /\ returned (Main.extract_who_gho_data "IND" "Life expectancy" "WHOSIS_000001"
                 (serve_json (JDict [("value", JList mixed_who)])) start)
     = [Rec 2020 "IND" "Life expectancy" (SInt 70) "WHO GHO";
        Rec 2021 "IND" "Life expectancy" None_ "WHO GHO"].
Proof.
  assert (Hwf : Forall (well_formed_who_gho_item "IND") mixed_who).
  { repeat constructor; eexists; (split; [reflexivity|]); intros Hc Ht;
      try discriminate Hc; try discriminate Ht; now eexists. }
  split; [exact Hwf|].
  exact (proj1 (X4_who_gho_keeps_matching_items_in_order
                  (serve_json (JDict [("value", JList mixed_who)])) start
                  "IND" "Life expectancy" "WHOSIS_000001"
                  _ _ mixed_who eq_refl eq_refl eq_refl eq_refl Hwf)).
Defined.

(** The record of a row of the OECD table: none for a row without an
    observation value, without a period, or of a period before 2015. *)
Definition oecd_record (country_code kpi_name : string) (w : row) : option record :=
  let year := row_get w "TIME_PERIOD" in
  if (Py.notna (row_get w "OBS_VALUE") && Py.truthy year)%bool then
    match Py.int year with
    | Ok y =>
        if 2015 <=? y then
          Some (Rec y country_code kpi_name (row_get w "OBS_VALUE") "OECD")
        else None
    | Raise _ => None
    end
  else None.

(** A row whose period, when the row has a value and a period, reads as
    an integer. *)
Definition well_formed_oecd_row (w : row) : Prop :=
  Py.notna (row_get w "OBS_VALUE") = true ->
  Py.truthy (row_get w "TIME_PERIOD") = true ->
  exists y, Py.int (row_get w "TIME_PERIOD") = Ok y.

Lemma notna_row_getitem (w : row) (col : string) :
  Py.notna (row_get w col) = true -> row_getitem w col = Ok (row_get w col).
Proof.
  unfold row_get, row_getitem. destruct (Py.assoc col w); [reflexivity | discriminate].
Qed.

Lemma oecd_loop_exact (country_code kpi_name : string)
    (rows : list row) (records : list record) :
  Forall well_formed_oecd_row rows ->
  oecd_loop country_code kpi_name rows records
  = Ok (records ++ omap (oecd_record country_code kpi_name) rows).
Proof.
  intros Hwf. revert records.
  induction Hwf as [|w rest Hw _ IH]; intros records.
  - simpl. now rewrite app_nil_r.
  - cbn [oecd_loop omap list_omap]. unfold mbind, exc_bind, oecd_record.
    destruct (Py.notna (row_get w "OBS_VALUE")) eqn:Hna; cbn [andb]; [|apply IH].
    destruct (Py.truthy (row_get w "TIME_PERIOD")) eqn:Ht; [|apply IH].
    destruct (Hw Hna Ht) as (y & ->).
    destruct (2015 <=? y); [|apply IH].
    rewrite (notna_row_getitem _ _ Hna), IH. now rewrite <- app_assoc.
Qed.

(** X5.  When the CSV body parses and the periods of its rows read as
    integers, the OECD adapter returns, in both programs and in the order
    of the table, one record for each row that has an observation value
    and a period of 2015 or later: rows without a value are dropped, the
    others keep their value and order. *)
Theorem X5_oecd_keeps_valued_rows_in_order
    (net : Net) (s : State) (country_code kpi_name indicator_code : string)
    (response : Response) (df : list row) :
  net (length (sent s)) (oecd_request country_code kpi_name indicator_code) = Ok response ->
  raise_for_status response = Ok tt ->
  read_csv response = Ok df ->
  Forall well_formed_oecd_row df ->
  returned (Main.extract_oecd_data country_code kpi_name indicator_code net s)
  = omap (oecd_record country_code kpi_name) df
  /\ returned (Strtest.extract_oecd_data country_code kpi_name indicator_code net s)
     = omap (oecd_record country_code kpi_name) df.
Proof.
  intros Hnet Hstatus Hcsv Hwf.
  rewrite main_oecd_run, strtest_oecd_run.
  assert (Hrec : attempt read_csv (oecd_records country_code kpi_name)
                   (net (length (sent s))
                      (oecd_request country_code kpi_name indicator_code))
                 = Ok (omap (oecd_record country_code kpi_name) df)).
  { unfold attempt. rewrite Hnet. cbn [mbind exc_bind]. rewrite Hstatus, Hcsv.
    cbn [mbind exc_bind]. unfold oecd_records. now rewrite oecd_loop_exact. }
  rewrite Hrec. split; [|reflexivity].
  unfold returned, main_end.
  now destruct (omap (oecd_record country_code kpi_name) df).
Qed.

Definition mixed_oecd : list row :=
  [oecd_row 2016 (SFloat FNaN); oecd_row 2014 (SInt 3); oecd_row 2018 (SInt 4);
   [("TIME_PERIOD", SInt 2019)]; oecd_row 2017 (SInt 5)].

Lemma X5_oecd_keeps_valued_rows_in_order_witness :
  Forall well_formed_oecd_row mixed_oecd
  /\ returned (Main.extract_oecd_data "DEU" "Hospital beds by function of healthcare"
                 "HOSP_BEDS_FUNC" (serve_csv mixed_oecd) start)
     = [Rec 2018 "DEU" "Hospital beds by function of healthcare" (SInt 4) "OECD";
        Rec 2017 "DEU" "Hospital beds by function of healthcare" (SInt 5) "OECD"].
Proof.
  assert (Hwf : Forall well_formed_oecd_row mixed_oecd).
  { repeat constructor; intros Hna Ht; try discriminate Hna; now eexists. }
  split; [exact Hwf|].
  exact (proj1 (X5_oecd_keeps_valued_rows_in_order (serve_csv mixed_oecd) start
                  "DEU" "Hospital beds by function of healthcare" "HOSP_BEDS_FUNC"
                  _ mixed_oecd eq_refl eq_refl eq_refl Hwf)).
Defined.

(** ** One bad item spoils the whole table *)

(** An item on which the WHO GHO loop raises: something that is no
    object, or an object of the requested country whose [TimeDim] is not
    empty and does not read as an integer. *)
Definition spoils_who_gho (country_code : string) (item : json) : Prop :=
  (forall kv, item <> JDict kv)
  \/ exists kv e,
       item = JDict kv
       /\ Py.eq_str (default None_ (Py.assoc "SpatialDim" kv)) country_code = true
       /\ Py.truthy (default None_ (Py.assoc "TimeDim" kv)) = true
       /\ Py.int (default None_ (Py.assoc "TimeDim" kv)) = Raise e.

(** An observation on which the World Bank loop raises: something that
    is no object, or an object with a value whose [date] is missing or
    does not read as an integer. *)
Definition spoils_world_bank (item : json) : Prop :=
  (forall kv, item <> JDict kv)
  \/ exists kv,
       item = JDict kv
       /\ Py.is_not_None (default None_ (Py.assoc "value" kv)) = true
       /\ (Py.assoc "date" kv = None
           \/ exists date e, Py.assoc "date" kv = Some date /\ Py.int date = Raise e).

(** A row on which the OECD loop raises: it has a value, and a period
    that does not read as an integer. *)
Definition spoils_oecd (w : row) : Prop :=
  Py.notna (row_get w "OBS_VALUE") = true
  /\ Py.truthy (row_get w "TIME_PERIOD") = true
  /\ exists e, Py.int (row_get w "TIME_PERIOD") = Raise e.

Section Spoiled.

Variables country_code kpi_name : string.

Lemma who_gho_loop_step item rest records :
  (exists e, who_gho_loop country_code kpi_name (item :: rest) records = Raise e)
  \/ (exists records',
        who_gho_loop country_code kpi_name (item :: rest) records
        = who_gho_loop country_code kpi_name rest records').
Proof.
  cbn [who_gho_loop]. unfold mbind, exc_bind.
  destruct (Py.get item "SpatialDim") as [spatial|e]; [|left; now exists e].
  destruct (Py.eq_str spatial country_code); [|right; now eexists].
  destruct (Py.get item "TimeDim") as [year|e]; [|left; now exists e].
  destruct (Py.truthy year); [|right; now eexists].
  destruct (Py.int year) as [y|e]; [|left; now exists e].
  destruct (2015 <=? y); [|right; now eexists].
  destruct (Py.get item "NumericValue") as [value|e]; [|left; now exists e].
  right. now eexists.
Qed.

Lemma who_gho_loop_spoiled items records :
  Exists (spoils_who_gho country_code) items ->
  exists e, who_gho_loop country_code kpi_name items records = Raise e.
Proof.
  intros Hex. revert records.
  induction Hex as [item rest Hbad|item rest _ IH]; intros records.
  - cbn [who_gho_loop]. unfold mbind, exc_bind.
    destruct Hbad as [Hno|(kv & e & -> & Hsp & Ht & Hy)].
    + destruct item as [v|l|kv]; [now eexists | now eexists |].
      now destruct (Hno kv).
    + cbn [Py.get]. rewrite Hsp, Ht, Hy. now exists e.
  - destruct (who_gho_loop_step item rest records) as [He|[records' ->]];
      [exact He | apply IH].
Qed.

Lemma world_bank_loop_step item rest records :
  (exists e, world_bank_loop country_code kpi_name (item :: rest) records = Raise e)
  \/ (exists records',
        world_bank_loop country_code kpi_name (item :: rest) records
        = world_bank_loop country_code kpi_name rest records').
Proof.
  cbn [world_bank_loop]. unfold mbind, exc_bind.
  destruct (Py.get item "value") as [value|e]; [|left; now exists e].
  destruct (Py.is_not_None value); [|right; now eexists].
  destruct (Py.getitem_str item "date") as [date|e]; [|left; now exists e].
  destruct (Py.int date) as [y|e]; [|left; now exists e].
  destruct (Py.getitem_str item "value") as [value'|e]; [|left; now exists e].
  right. now eexists.
Qed.

Lemma world_bank_loop_spoiled items records :
  Exists spoils_world_bank items ->
  exists e, world_bank_loop country_code kpi_name items records = Raise e.
Proof.
  intros Hex. revert records.
  induction Hex as [item rest Hbad|item rest _ IH]; intros records.
  - cbn [world_bank_loop]. unfold mbind, exc_bind.
    destruct Hbad as [Hno|(kv & -> & Hv & Hd)].
    + destruct item as [v|l|kv]; [now eexists | now eexists |].
      now destruct (Hno kv).
    + cbn [Py.get Py.getitem_str]. rewrite Hv.
      destruct Hd as [->|(date & e & -> & ->)]; now eexists.
  - destruct (world_bank_loop_step item rest records) as [He|[records' ->]];
      [exact He | apply IH].
Qed.

Lemma oecd_loop_step w rest records :
  (exists e, oecd_loop country_code kpi_name (w :: rest) records = Raise e)
  \/ (exists records',
        oecd_loop country_code kpi_name (w :: rest) records
        = oecd_loop country_code kpi_name rest records').
Proof.
  cbn [oecd_loop]. unfold mbind, exc_bind.
  destruct (Py.notna _); [|right; now eexists].
  destruct (Py.truthy _); [|right; now eexists].
  destruct (Py.int _) as [y|e]; [|left; now exists e].
  destruct (2015 <=? y); [|right; now eexists].
  destruct (row_getitem w "OBS_VALUE") as [value|e]; [|left; now exists e].
  right. now eexists.
Qed.

Lemma oecd_loop_spoiled rows records :
  Exists spoils_oecd rows ->
  exists e, oecd_loop country_code kpi_name rows records = Raise e.
Proof.
  intros Hex. revert records.
  induction Hex as [w rest (Hna & Ht & e & Hy)|w rest _ IH]; intros records.
  - cbn [oecd_loop]. unfold mbind, exc_bind. rewrite Hna, Ht, Hy. now exists e.
  - destruct (oecd_loop_step w rest records) as [He|[records' ->]];
      [exact He | apply IH].
Qed.

End Spoiled.

(** The extraction raises on the decoded body, with an [Exception]. *)
Lemma field_failure_of_raise {P} (decode : Response -> exc P)
    (extract : P -> exc (list record)) (r : exc Response)
    (response : Response) (data : P) (e : exn) :
  r = Ok response -> raise_for_status response = Ok tt ->
  decode response = Ok data -> extract data = Raise e ->
  ordinary (extract data) ->
  fails_raising decode extract r.
Proof.
  intros Hr Hs Hd Hx Ho. rewrite Hx in Ho.
  exact (field_failure decode extract r response data e Hr Hs Hd Hx Ho).
Qed.

(** X6.  If one item of the [value] array is no object, or is of the
    requested country with a [TimeDim] that does not read as an integer,
    the WHO GHO adapter returns the empty table with a warning, in both
    programs: the records of all the other items are lost with it. *)
Theorem X6_who_gho_one_bad_item_empties_the_table
    (net : Net) (s : State) (country_code kpi_name indicator_code : string)
    (response : Response) (fields : list (string * json)) (items : list json) :
  net (length (sent s)) (who_gho_request indicator_code) = Ok response ->
  raise_for_status response = Ok tt ->
  response_json response = Ok (JDict fields) ->
  Py.assoc "value" fields = Some (JList items) ->
  Exists (spoils_who_gho country_code) items ->
  returns_empty_with Print kpi_name s
    (Main.extract_who_gho_data country_code kpi_name indicator_code net s)
  /\ returns_empty_with StWarning kpi_name s
       (Strtest.extract_who_gho_data country_code kpi_name indicator_code net s).
Proof.
  intros Hnet Hstatus Hjson Hvalue Hbad.
  destruct (who_gho_loop_spoiled country_code kpi_name items [] Hbad) as (e & He).
  assert (Hraise : who_gho_records country_code kpi_name (JDict fields) = Raise e).
  { unfold who_gho_records. cbn [Py.contains Py.getitem_str mbind exc_bind].
    rewrite Hvalue. rewrite bool_decide_eq_true_2 by (now eexists).
    cbn [Py.iter mbind exc_bind]. exact He. }
  assert (Hfail : fails_raising response_json (who_gho_records country_code kpi_name)
                    (net (length (sent s)) (who_gho_request indicator_code))).
  { eapply field_failure_of_raise; eauto using who_gho_records_ordinary. }
  rewrite main_who_gho_run, strtest_who_gho_run. split.
  - exact (proj1 (main_end_contract response_json (who_gho_records country_code kpi_name) _
                    kpi_name s _ json_ordinary (who_gho_records_ordinary country_code kpi_name))
             Hfail).
  - exact (proj1 (strtest_end_contract response_json (who_gho_records country_code kpi_name) _
                    kpi_name s _ json_ordinary (who_gho_records_ordinary country_code kpi_name))
             Hfail).
Qed.

Definition spoiled_who : list json :=
  [who_gho_item "IND" 2020 (SInt 70);
   JDict [("SpatialDim", JS (SStr "IND")); ("TimeDim", JS (SStr "2019-2021"));
          ("NumericValue", JS (SInt 69))];
   who_gho_item "IND" 2022 (SInt 71)].

Lemma X6_who_gho_one_bad_item_empties_the_table_witness :
  Exists (spoils_who_gho "IND") spoiled_who
  /\ returns_empty_with Print "Life expectancy" start
       (Main.extract_who_gho_data "IND" "Life expectancy" "WHOSIS_000001"
          (serve_json (JDict [("value", JList spoiled_who)])) start).
Proof.
  assert (Hbad : Exists (spoils_who_gho "IND") spoiled_who).
  { apply Exists_cons_tl, Exists_cons_hd. right. eexists _, _. repeat split. }
  split; [exact Hbad|].
  exact (proj1 (X6_who_gho_one_bad_item_empties_the_table
                  (serve_json (JDict [("value", JList spoiled_who)])) start
                  "IND" "Life expectancy" "WHOSIS_000001"
                  _ _ spoiled_who eq_refl eq_refl eq_refl eq_refl Hbad)).
Defined.

(** X7.  If one observation of a World Bank response is no object, or
    has a value but a [date] that is missing or does not read as an
    integer, the adapter returns the empty table with a warning, in both
    programs: the other observations are lost with it. *)
Theorem X7_world_bank_one_bad_item_empties_the_table
    (net : Net) (s : State) (country_code kpi_name indicator_code : string)
    (response : Response) (metadata : json) (observations more : list json) :
  net (length (sent s)) (world_bank_request country_code indicator_code) = Ok response ->
  raise_for_status response = Ok tt ->
  response_json response = Ok (JList (metadata :: JList observations :: more)) ->
  Exists spoils_world_bank observations ->
  returns_empty_with Print kpi_name s
    (Main.extract_world_bank_data country_code kpi_name indicator_code net s)
  /\ returns_empty_with StWarning kpi_name s
       (Strtest.extract_world_bank_data country_code kpi_name indicator_code net s).
Proof.
  intros Hnet Hstatus Hjson Hbad.
  destruct (world_bank_loop_spoiled country_code kpi_name observations [] Hbad)
    as (e & He).
  assert (Hraise : world_bank_records country_code kpi_name
                     (JList (metadata :: JList observations :: more)) = Raise e).
  { unfold world_bank_records.
    cbn [Py.len Py.getitem_1 mbind exc_bind length Nat.ltb Nat.leb lookup list_lookup].
    destruct observations as [|item rest]; [now apply Exists_nil in Hbad|].
    cbn [Py.truthy Py.iter mbind exc_bind]. exact He. }
  assert (Hfail : fails_raising response_json (world_bank_records country_code kpi_name)
                    (net (length (sent s))
                       (world_bank_request country_code indicator_code))).
  { eapply field_failure_of_raise; eauto using world_bank_records_ordinary. }
  rewrite main_world_bank_run, strtest_world_bank_run. split.
  - exact (proj1 (main_end_contract response_json (world_bank_records country_code kpi_name) _
                    kpi_name s _ json_ordinary (world_bank_records_ordinary country_code kpi_name))
             Hfail).
  - exact (proj1 (strtest_end_contract response_json (world_bank_records country_code kpi_name) _
                    kpi_name s _ json_ordinary (world_bank_records_ordinary country_code kpi_name))
             Hfail).
Qed.

Definition spoiled_world_bank : list json :=
  [world_bank_item "2020" (SInt 70);
   JDict [("value", JS (SInt 71))];
   world_bank_item "2022" (SInt 72)].

Lemma X7_world_bank_one_bad_item_empties_the_table_witness :
  Exists spoils_world_bank spoiled_world_bank
  /\ returns_empty_with Print "Life expectancy at birth" start
       (Main.extract_world_bank_data "IND" "Life expectancy at birth" "SP.DYN.LE00.IN"
          (serve_json (JList [None_; JList spoiled_world_bank])) start).
Proof.
  assert (Hbad : Exists spoils_world_bank spoiled_world_bank).
  { apply Exists_cons_tl, Exists_cons_hd. right. eexists. repeat split. now left. }
  split; [exact Hbad|].
  exact (proj1 (X7_world_bank_one_bad_item_empties_the_table
                  (serve_json (JList [None_; JList spoiled_world_bank])) start
                  "IND" "Life expectancy at birth" "SP.DYN.LE00.IN"
                  _ _ spoiled_world_bank [] eq_refl eq_refl eq_refl Hbad)).
Defined.

(** X8.  If one row of the OECD table has a value and a period that does
    not read as an integer, such as a quarter, the adapter returns the
    empty table with a warning, in both programs: the other rows are lost
    with it. *)
Theorem X8_oecd_one_bad_row_empties_the_table
    (net : Net) (s : State) (country_code kpi_name indicator_code : string)
    (response : Response) (df : list row) :
  net (length (sent s)) (oecd_request country_code kpi_name indicator_code) = Ok response ->
  raise_for_status response = Ok tt ->
  read_csv response = Ok df ->
  Exists spoils_oecd df ->
  returns_empty_with Print kpi_name s
    (Main.extract_oecd_data country_code kpi_name indicator_code net s)
  /\ returns_empty_with StWarning kpi_name s
       (Strtest.extract_oecd_data country_code kpi_name indicator_code net s).
Proof.
  intros Hnet Hstatus Hcsv Hbad.
  destruct (oecd_loop_spoiled country_code kpi_name df [] Hbad) as (e & He).
  assert (Hfail : fails_raising read_csv (oecd_records country_code kpi_name)
                    (net (length (sent s))
                       (oecd_request country_code kpi_name indicator_code))).
  { eapply field_failure_of_raise; eauto using oecd_records_ordinary. }
  rewrite main_oecd_run, strtest_oecd_run. split.
  - exact (proj1 (main_end_contract read_csv (oecd_records country_code kpi_name) _
                    kpi_name s _ csv_ordinary (oecd_records_ordinary country_code kpi_name))
             Hfail).
  - exact (proj1 (strtest_end_contract read_csv (oecd_records country_code kpi_name) _
                    kpi_name s _ csv_ordinary (oecd_records_ordinary country_code kpi_name))
             Hfail).
Qed.

Definition spoiled_oecd : list row :=
  [oecd_row 2019 (SInt 5);
   [("TIME_PERIOD", SStr "2020-Q1"); ("OBS_VALUE", SInt 6)];
   oecd_row 2021 (SInt 7)].

Lemma X8_oecd_one_bad_row_empties_the_table_witness :
  Exists spoils_oecd spoiled_oecd
  /\ returns_empty_with Print "Hospital beds by function of healthcare" start
       (Main.extract_oecd_data "DEU" "Hospital beds by function of healthcare"
          "HOSP_BEDS_FUNC" (serve_csv spoiled_oecd) start).
Proof.
  assert (Hbad : Exists spoils_oecd spoiled_oecd).
  { apply Exists_cons_tl, Exists_cons_hd. repeat split. now eexists. }
  split; [exact Hbad|].
  exact (proj1 (X8_oecd_one_bad_row_empties_the_table (serve_csv spoiled_oecd) start
                  "DEU" "Hospital beds by function of healthcare" "HOSP_BEDS_FUNC"
                  _ spoiled_oecd eq_refl eq_refl eq_refl Hbad)).
Defined.

(** ** The menu of [main.py] *)

(** [self.who_gho_kpis], [self.world_bank_kpis] and [self.oecd_kpis] of
    [main.py], by the key of [selected_kpis]. *)
Definition catalogue_of (db : database) : list (string * string) :=
  match db with
  | WHO_GHO => Main.who_gho_kpis
  | WORLD_BANK => world_bank_kpis
  | OECD => oecd_kpis
  end.

(** The numbers typed on the selection line. *)
Definition selection_numbers (line : string) : exc (list Z) :=
  mapM (fun x => Py.int (SStr (PyStr.strip x))) (PyStr.split "," (PyStr.strip line)).

(** [total_selected = sum(len(kpis) for kpis in selected_kpis.values())]
    of [run]. *)
Definition total_selected (selected_kpis : selection) : nat :=
  (length (selected_kpis WHO_GHO) + length (selected_kpis WORLD_BANK)
   + length (selected_kpis OECD))%nat.

Definition on_menu (num : Z) : Prop := 1 <= num <= 25.

#[local] Instance on_menu_dec (num : Z) : Decision (on_menu num).
Proof. unfold on_menu. apply _. Defined.

Lemma all_kpis_length : length Main.all_kpis = 25%nat.
Proof. reflexivity. Qed.

Lemma all_kpis_known :
  Forall (fun entry => is_Some (Py.assoc entry.2 (catalogue_of entry.1))) Main.all_kpis.
Proof. repeat (constructor; [now eexists|]). constructor. Qed.

Lemma all_kpis_get_on_menu (num : Z) :
  is_Some (Main.all_kpis_get num) <-> on_menu num.
Proof.
  unfold Main.all_kpis_get, on_menu. destruct (1 <=? num) eqn:Hle.
  - apply Z.leb_le in Hle. rewrite lookup_lt_is_Some, all_kpis_length. lia.
  - apply Z.leb_gt in Hle. split; [intros [x Hx]; discriminate | lia].
Qed.

(** X9.  A number of the selection line picks an entry of the menu
    exactly when it lies between 1 and 25; any other number, such as 0, a
    negative number or 26, is passed over and leaves the selection as it
    was. *)
Theorem X9_menu_numbers_from_1_to_25 (selected_kpis : selection) (num : Z) :
  (is_Some (Main.all_kpis_get num) <-> 1 <= num <= 25)
  /\ (~ 1 <= num <= 25 -> Main.select selected_kpis num = selected_kpis).
Proof.
  split; [apply all_kpis_get_on_menu|].
  intros Hout. unfold Main.select.
  destruct (Main.all_kpis_get num) as [entry|] eqn:Hget; [|reflexivity].
  destruct Hout. apply all_kpis_get_on_menu. now rewrite Hget.
Qed.

Definition selection_known (selected_kpis : selection) : Prop :=
  forall db, known (catalogue_of db) (selected_kpis db).

Lemma select_known (selected_kpis : selection) (num : Z) :
  selection_known selected_kpis -> selection_known (Main.select selected_kpis num).
Proof.
  intros Hk. unfold Main.select, Main.all_kpis_get.
  destruct (1 <=? num); [|exact Hk].
  destruct (Main.all_kpis !! Z.to_nat (num - 1)) as [[db kpi]|] eqn:Hget; [|exact Hk].
  apply list_elem_of_lookup_2 in Hget.
  pose proof (proj1 (Forall_forall _ _) all_kpis_known _ Hget) as Hkpi. simpl in Hkpi.
  intros d. unfold append_kpi. destruct (decide (d = db)) as [->|]; [|apply Hk].
  apply Forall_app. split; [apply Hk | now constructor].
Qed.

Lemma foldl_select_known (numbers : list Z) (selected_kpis : selection) :
  selection_known selected_kpis ->
  selection_known (foldl Main.select selected_kpis numbers).
Proof.
  revert selected_kpis. induction numbers as [|num numbers IH]; intros sel Hk;
    [exact Hk|].
  simpl. apply IH. now apply select_known.
Qed.

Lemma display_kpis_numbers (line : string) :
  Main.display_kpis_and_get_selection line
  = numbers ← selection_numbers line; Ok (foldl Main.select no_selection numbers).
Proof. reflexivity. Qed.

Lemma display_kpis_Ok (line : string) (selected_kpis : selection) :
  Main.display_kpis_and_get_selection line = Ok selected_kpis ->
  exists numbers,
    selection_numbers line = Ok numbers
    /\ selected_kpis = foldl Main.select no_selection numbers.
Proof.
  rewrite display_kpis_numbers.
  destruct (selection_numbers line) as [numbers|e]; [|discriminate].
  cbn. intros H. injection H as <-. now exists numbers.
Qed.

(** X10.  Every name that [display_kpis_and_get_selection] puts under a
    source is a key of the catalogue of that source: the look-ups
    [self.who_gho_kpis[kpi]], [self.world_bank_kpis[kpi]] and
    [self.oecd_kpis[kpi]] of [extract_all_data] find their key. *)
Theorem X10_selection_is_within_the_catalogues
    (line : string) (selected_kpis : selection) :
  Main.display_kpis_and_get_selection line = Ok selected_kpis ->
  known Main.who_gho_kpis (selected_kpis WHO_GHO)
  /\ known world_bank_kpis (selected_kpis WORLD_BANK)
  /\ known oecd_kpis (selected_kpis OECD).
Proof.
  intros H. apply display_kpis_Ok in H as (numbers & _ & ->).
  assert (Hk : selection_known (foldl Main.select no_selection numbers)).
  { apply foldl_select_known. intros db. constructor. }
  split; [apply (Hk WHO_GHO) | split; [apply (Hk WORLD_BANK) | apply (Hk OECD)]].
Qed.

Lemma X10_selection_is_within_the_catalogues_witness :
  known Main.who_gho_kpis ["DTP3 immunization coverage (%)"]
  /\ known world_bank_kpis ["Life expectancy at birth"; "Life expectancy at birth"]
  /\ known oecd_kpis [].
Proof.
  exact (X10_selection_is_within_the_catalogues "12, 3,12 , 40"
           (foldl Main.select no_selection [12; 3; 12; 40]) eq_refl).
Defined.

Lemma total_selected_append (selected_kpis : selection) (db : database) (kpi : string) :
  total_selected (append_kpi selected_kpis db kpi) = S (total_selected selected_kpis).
Proof.
  unfold total_selected, append_kpi.
  destruct db; simpl; rewrite length_app; simpl; lia.
Qed.

Lemma total_selected_select (selected_kpis : selection) (num : Z) :
  total_selected (Main.select selected_kpis num)
  = (total_selected selected_kpis + if decide (on_menu num) then 1 else 0)%nat.
Proof.
  pose proof (all_kpis_get_on_menu num) as Hmenu. unfold Main.select.
  destruct (Main.all_kpis_get num) as [[db kpi]|].
  - rewrite total_selected_append, decide_True by (apply Hmenu; now eexists). lia.
  - rewrite decide_False; [lia|]. intros H. apply Hmenu in H as [x Hx]. discriminate.
Qed.

Lemma total_selected_foldl (numbers : list Z) (selected_kpis : selection) :
  total_selected (foldl Main.select selected_kpis numbers)
  = (total_selected selected_kpis + length (filter on_menu numbers))%nat.
Proof.
  revert selected_kpis. induction numbers as [|num numbers IH]; intros sel; simpl.
  - lia.
  - rewrite IH, total_selected_select.
    destruct (decide (on_menu num)).
    + rewrite filter_cons_True by assumption. simpl. lia.
    + rewrite filter_cons_False by assumption. lia.
Qed.

(** X11.  The selection holds one name for each number of the line that
    is on the menu, repeats included: a number typed twice puts its
    indicator twice in the selection, and it is then extracted twice. *)
Theorem X11_selection_counts_every_menu_number
    (line : string) (numbers : list Z) :
  selection_numbers line = Ok numbers ->
  exists selected_kpis,
    Main.display_kpis_and_get_selection line = Ok selected_kpis
    /\ total_selected selected_kpis = length (filter on_menu numbers).
Proof.
  intros Hn. exists (foldl Main.select no_selection numbers).
  rewrite display_kpis_numbers, Hn. split; [reflexivity|].
  now rewrite total_selected_foldl.
Qed.

Lemma X11_selection_counts_every_menu_number_witness :
  exists selected_kpis,
    Main.display_kpis_and_get_selection "11, 11, 0, 26" = Ok selected_kpis
    /\ total_selected selected_kpis = 2%nat.
Proof.
  exact (X11_selection_counts_every_menu_number "11, 11, 0, 26" [11; 11; 0; 26] eq_refl).
Defined.

Lemma mapM_raises {A B} (f : A -> exc B) (Q : exn -> Prop) (l : list A) :
  (forall x e, f x = Raise e -> Q e) ->
  Exists (fun x => exists e, f x = Raise e) l ->
  exists e, mapM f l = Raise e /\ Q e.
Proof.
  intros HQ Hex. induction Hex as [x l (e & He)|x l _ (e & IH & Hq)]; cbn [mapM].
  - exists e. unfold mbind, exc_bind. rewrite He. eauto.
  - destruct (f x) as [y|e'] eqn:Hx.
    + exists e.
      change (mapM f l ≫= (fun k => mret (y :: k)) = Raise e /\ Q e).
      rewrite IH. now split.
    + exists e'. split; [reflexivity | eauto].
Qed.

Lemma int_of_str_ValueError (t : string) (e : exn) :
  Py.int (SStr t) = Raise e -> exn_cls e = ValueError.
Proof.
  simpl. destruct (PyStr.to_int t); [discriminate|].
  intros H. injection H as <-. reflexivity.
Qed.

(** X12.  If one piece of the selection line, between two commas, is not
    an integer literal, [display_kpis_and_get_selection] raises a
    [ValueError] and [run] raises it in turn before any GET is sent and
    before anything is shown; an empty line is such a line. *)
Theorem X12_ill_formed_selection_raises_ValueError
    (line country_line : string) (net : Net) (s : State) :
  Exists (fun x => PyStr.to_int (PyStr.strip x) = None)
    (PyStr.split "," (PyStr.strip line)) ->
  exists e,
    exn_cls e = ValueError
    /\ Main.display_kpis_and_get_selection line = Raise e
    /\ Main.run country_line line net s = (Raise e, s).
Proof.
  intros Hbad.
  destruct (mapM_raises (fun x => Py.int (SStr (PyStr.strip x)))
              (fun e => exn_cls e = ValueError)
              (PyStr.split "," (PyStr.strip line))) as (e & He & Hcls).
  - intros x e. apply int_of_str_ValueError.
  - eapply Exists_impl; [exact Hbad|]. intros x Hx. simpl. rewrite Hx. now eexists.
  - exists e. split; [exact Hcls|].
    assert (Hd : Main.display_kpis_and_get_selection line = Raise e).
    { rewrite display_kpis_numbers. unfold selection_numbers. now rewrite He. }
    split; [exact Hd|].
    unfold Main.run, mbind, M_bind, lift. now rewrite Hd.
Qed.

Lemma X12_ill_formed_selection_raises_ValueError_witness :
  exists e,
    exn_cls e = ValueError
    /\ Main.display_kpis_and_get_selection "" = Raise e
    /\ Main.run "india" "" unreachable start = (Raise e, start).
Proof.
  apply (X12_ill_formed_selection_raises_ValueError "" "india" unreachable start).
  apply Exists_cons_hd. reflexivity.
Defined.

(** ** The country typed in the terminal, the country chosen on the page *)

Module StripFacts.
Import PyStr.

Lemma lower_lower_char (c : ascii) : lower_char (lower_char c) = lower_char c.
Proof. destruct c as [[] [] [] [] [] [] [] []]; reflexivity. Qed.

Lemma lower_upper_char (c : ascii) : lower_char (upper_char c) = lower_char c.
Proof. destruct c as [[] [] [] [] [] [] [] []]; reflexivity. Qed.

Lemma lower_lower (s : string) : lower (lower s) = lower s.
Proof.
  induction s as [|c s IH]; simpl; [reflexivity|].
  now rewrite lower_lower_char, IH.
Qed.

Lemma lower_upper (s : string) : lower (upper s) = lower s.
Proof.
  induction s as [|c s IH]; simpl; [reflexivity|].
  now rewrite lower_upper_char, IH.
Qed.

Lemma rstrip_cons (c : ascii) (r : string) :
  rstrip (String c r)
  = match rstrip r with
    | EmptyString => if is_space c then EmptyString else String c EmptyString
    | r' => String c r'
    end.
Proof. reflexivity. Qed.

Lemma rstrip_rstrip (s : string) : rstrip (rstrip s) = rstrip s.
Proof.
  induction s as [|c s IH]; [reflexivity|].
  rewrite rstrip_cons. destruct (rstrip s) as [|d r'] eqn:Hr.
  - destruct (is_space c) eqn:Hc; [reflexivity|].
    rewrite rstrip_cons. simpl. now rewrite Hc.
  - rewrite rstrip_cons, IH. reflexivity.
Qed.

(** What [lstrip] leaves does not begin with white space. *)
Definition trimmed_left (s : string) : Prop :=
  match s with
  | EmptyString => True
  | String c _ => is_space c = false
  end.

Lemma lstrip_trimmed_left (s : string) : trimmed_left (lstrip s).
Proof.
  induction s as [|c s IH]; simpl; [exact I|].
  destruct (is_space c) eqn:Hc; [exact IH | exact Hc].
Qed.

Lemma lstrip_of_trimmed_left (s : string) : trimmed_left s -> lstrip s = s.
Proof. destruct s as [|c s]; simpl; [reflexivity|]. now intros ->. Qed.

Lemma rstrip_trimmed_left (s : string) : trimmed_left s -> trimmed_left (rstrip s).
Proof.
  destruct s as [|c s]; [trivial|]. intros Hc. rewrite rstrip_cons.
  simpl in Hc. destruct (rstrip s); [rewrite Hc|]; exact Hc.
Qed.

Lemma strip_strip (s : string) : strip (strip s) = strip s.
Proof.
  unfold strip.
  rewrite (lstrip_of_trimmed_left (rstrip (lstrip s)))
    by apply rstrip_trimmed_left, lstrip_trimmed_left.
  apply rstrip_rstrip.
Qed.

End StripFacts.

Lemma country_input_insensitive (line : string) :
  Main.get_country_input (PyStr.upper line) = Main.get_country_input line
  /\ Main.get_country_input (PyStr.lower line) = Main.get_country_input line
  /\ Main.get_country_input (PyStr.strip line) = Main.get_country_input line.
Proof.
  unfold Main.get_country_input.
  rewrite StripFacts.lower_upper, StripFacts.lower_lower.
  rewrite (PyStrFacts.strip_lower (PyStr.strip line)), StripFacts.strip_strip.
  rewrite <- (PyStrFacts.strip_lower line).
  repeat split.
Qed.


Example country_input_variants :
  Main.get_country_input "  UNITED kingdom " = "GBR"
  /\ Main.get_country_input "united kingdom" = "GBR"
  /\ Main.get_country_input "gbr " = "GBR".
Proof. repeat split; vm_compute; reflexivity. Qed.

Lemma mapM_Ok {A B} (f : A -> exc B) (l : list A) (l' : list B) :
  mapM f l = Ok l' -> Forall2 (fun x y => f x = Ok y) l l'.
Proof.
  revert l'. induction l as [|x l IH]; intros l' H; cbn [mapM] in H.
  - injection H as <-. constructor.
  - destruct (f x) as [y|e] eqn:Hx; [|discriminate].
    change (mapM f l ≫= (fun k => mret (y :: k)) = Ok l') in H.
    destruct (mapM f l) as [k|e]; [|discriminate].
    injection H as <-. constructor; [exact Hx | now apply IH].
Qed.

Lemma getitem_elem_of (catalogue : list (string * string)) (k v : string) :
  getitem catalogue k = Ok v -> (k, v) ∈ catalogue.
Proof.
  unfold getitem. induction catalogue as [|[k' v'] l IH]; simpl; [discriminate|].
  destruct (String.eqb k k') eqn:Hk.
  - apply String.eqb_eq in Hk. intros H. injection H as <-. subst. now left.
  - intros H. right. now apply IH.
Qed.

(** Each code of [self.countries] leads back to its name. *)
Lemma countries_round_trip :
  Forall (fun entry => Strtest.country_name entry.2 = Ok entry.1) Strtest.countries.
Proof. repeat (constructor; [vm_compute; reflexivity|]). constructor. Qed.

(** X14.  For the names chosen on the page, the codes found by
    [extractor.countries[country]] lead back, through the search
    [[k for k, v in self.countries.items() if v == country_code][0]] of
    [extract_data_for_countries], to the same names: that search finds an
    entry for every such code, so it does not raise. *)
Theorem X14_dashboard_code_leads_back_to_name
    (selected_countries country_codes : list string) :
  mapM (getitem Strtest.countries) selected_countries = Ok country_codes ->
  Forall2 (fun name code => Strtest.country_name code = Ok name)
    selected_countries country_codes
  /\ Forall listed country_codes.
Proof.
  intros H. apply mapM_Ok in H.
  assert (H2 : Forall2 (fun name code => Strtest.country_name code = Ok name)
                 selected_countries country_codes).
  { eapply Forall2_impl; [exact H|]. intros name code Hget.
    apply getitem_elem_of in Hget.
    exact (proj1 (Forall_forall _ _) countries_round_trip _ Hget). }
  split; [exact H2|].
  clear H. induction H2 as [|name code names codes Hn _ IH]; constructor;
    [now exists name | exact IH].
Qed.

Lemma X14_dashboard_code_leads_back_to_name_witness :
  Forall2 (fun name code => Strtest.country_name code = Ok name)
    ["India"; "United States"; "Germany"] ["IND"; "USA"; "DEU"]
  /\ Forall listed ["IND"; "USA"; "DEU"].
Proof.
  exact (X14_dashboard_code_leads_back_to_name
           ["India"; "United States"; "Germany"] ["IND"; "USA"; "DEU"] eq_refl).
Defined.

(** In both programs a country has the same code. *)
Lemma countries_agree :
  Forall (fun entry => Main.get_country_input entry.1 = entry.2) Strtest.countries.
Proof. repeat (constructor; [vm_compute; reflexivity|]). constructor. Qed.

(** X15.  A name of the country list of the dashboard, typed in the
    terminal program in any case and with any white space around it,
    gives the code the dashboard uses for it. *)
Theorem X15_both_programs_give_the_same_code (name code line : string) :
  getitem Strtest.countries name = Ok code ->
  PyStr.lower (PyStr.strip line) = PyStr.lower name ->
  Main.get_country_input line = code.
Proof.
  intros Hget Hline. apply getitem_elem_of in Hget.
  pose proof (proj1 (Forall_forall _ _) countries_agree _ Hget) as Hname.
  simpl in Hname. rewrite <- Hname.
  destruct (country_input_insensitive line) as (_ & Hl & Hs).
  destruct (country_input_insensitive name) as (_ & Hl' & _).
  destruct (country_input_insensitive (PyStr.strip line)) as (_ & Hl'' & _).
  now rewrite <- Hs, <- Hl'', Hline, Hl'.
Qed.

Lemma X15_both_programs_give_the_same_code_witness :
  Main.get_country_input "  south KOREA " = "KOR".
Proof.
  apply (X15_both_programs_give_the_same_code "South Korea" "KOR" "  south KOREA ");
    reflexivity.
Defined.

(** ** The requests of a whole extraction *)

(** The requests of one adapter for a list of indicators. *)
Definition adapter_requests (catalogue : list (string * string))
    (request : string -> string -> Request) (kpis : list string) : list Request :=
  map (fun kpi => request kpi (default "" (Py.assoc kpi catalogue))) kpis.

(** The requests of [extract_all_data] of [main.py]: source by source. *)
Definition main_requests (country_code : string) (selected_kpis : selection)
  : list Request :=
  adapter_requests Main.who_gho_kpis (fun _ code => who_gho_request code)
    (selected_kpis WHO_GHO)
  ++ adapter_requests world_bank_kpis (fun _ code => world_bank_request country_code code)
       (selected_kpis WORLD_BANK)
  ++ adapter_requests oecd_kpis (oecd_request country_code) (selected_kpis OECD).

(** The requests of [extract_data_for_countries] for one country. *)
Definition strtest_country_requests (selected_kpis : selection) (country_code : string)
  : list Request :=
  adapter_requests Strtest.who_gho_kpis (fun _ code => who_gho_request code)
    (selected_kpis WHO_GHO)
  ++ adapter_requests world_bank_kpis (fun _ code => world_bank_request country_code code)
       (selected_kpis WORLD_BANK)
  ++ adapter_requests oecd_kpis (oecd_request country_code) (selected_kpis OECD).

Definition strtest_requests (country_codes : list string) (selected_kpis : selection)
  : list Request :=
  flat_map (strtest_country_requests selected_kpis) country_codes.

(** A call that sends the request [r] and no other. *)
Definition sends (net : Net) (call : M DataFrame) (r : Request) : Prop :=
  forall s, sent (call net s).2 = sent s ++ [r].

Lemma run_calls_sent (calls : list (M DataFrame)) (requests : list Request)
    (net : Net) (s : State) :
  Forall (total_call net) calls ->
  Forall2 (sends net) calls requests ->
  sent (run_calls calls net s).2 = sent s ++ requests.
Proof.
  intros Htot Hsends. revert s Htot.
  induction Hsends as [|call r calls requests Hr _ IH]; intros s Htot; simpl.
  - now rewrite app_nil_r.
  - apply Forall_cons in Htot as [Hcall Htot].
    specialize (Hr s). destruct (Hcall s) as (table & s' & Hs'). rewrite Hs' in *.
    specialize (IH s' Htot). destruct (run_calls calls net s') as [tables s''].
    simpl in *. now rewrite IH, Hr, <- app_assoc.
Qed.

Lemma adapter_calls_sends catalogue adapter request country_code kpis net :
  (forall kpi code, sends net (adapter country_code kpi code) (request kpi code)) ->
  Forall2 (sends net) (adapter_calls catalogue adapter country_code kpis)
    (adapter_requests catalogue request kpis).
Proof.
  intros H. unfold adapter_calls, adapter_requests.
  induction kpis as [|kpi kpis IH]; simpl; constructor; [apply H | exact IH].
Qed.

Section Sends.

Variables (net : Net) (country_code kpi code : string).

Lemma main_who_gho_sends :
  sends net (Main.extract_who_gho_data country_code kpi code) (who_gho_request code).
Proof. intros s. rewrite main_who_gho_run. apply main_end_sent. Qed.

Lemma main_world_bank_sends :
  sends net (Main.extract_world_bank_data country_code kpi code)
    (world_bank_request country_code code).
Proof. intros s. rewrite main_world_bank_run. apply main_end_sent. Qed.

Lemma main_oecd_sends :
  sends net (Main.extract_oecd_data country_code kpi code)
    (oecd_request country_code kpi code).
Proof. intros s. rewrite main_oecd_run. apply main_end_sent. Qed.

Lemma strtest_who_gho_sends :
  sends net (Strtest.extract_who_gho_data country_code kpi code) (who_gho_request code).
Proof. intros s. rewrite strtest_who_gho_run. apply strtest_end_sent. Qed.

Lemma strtest_world_bank_sends :
  sends net (Strtest.extract_world_bank_data country_code kpi code)
    (world_bank_request country_code code).
Proof. intros s. rewrite strtest_world_bank_run. apply strtest_end_sent. Qed.

Lemma strtest_oecd_sends :
  sends net (Strtest.extract_oecd_data country_code kpi code)
    (oecd_request country_code kpi code).
Proof. intros s. rewrite strtest_oecd_run. apply strtest_end_sent. Qed.

End Sends.

Lemma main_calls_sends (net : Net) (country_code : string) (selected_kpis : selection) :
  Forall2 (sends net) (main_calls country_code selected_kpis)
    (main_requests country_code selected_kpis).
Proof.
  unfold main_calls, main_requests.
  repeat apply Forall2_app; apply adapter_calls_sends; intros kpi code.
  - apply main_who_gho_sends.
  - apply main_world_bank_sends.
  - apply main_oecd_sends.
Qed.

Lemma strtest_calls_sends (net : Net) (country_codes : list string)
    (selected_kpis : selection) :
  Forall2 (sends net) (strtest_calls country_codes selected_kpis)
    (strtest_requests country_codes selected_kpis).
Proof.
  unfold strtest_calls, strtest_requests.
  induction country_codes as [|c cs IH]; simpl; [constructor|].
  apply Forall2_app; [|exact IH].
  unfold strtest_country_calls, strtest_country_requests.
  repeat apply Forall2_app; apply adapter_calls_sends; intros kpi code.
  - apply strtest_who_gho_sends.
  - apply strtest_world_bank_sends.
  - apply strtest_oecd_sends.
Qed.

Lemma main_extract_all_data_run (net : Net) (s : State) (selected_kpis : selection)
    (country_code : string) :
  ordinary_net net ->
  known Main.who_gho_kpis (selected_kpis WHO_GHO) ->
  known world_bank_kpis (selected_kpis WORLD_BANK) ->
  known oecd_kpis (selected_kpis OECD) ->
  exists df,
    Main.extract_all_data country_code selected_kpis net s
    = (Ok df, (run_calls (main_calls country_code selected_kpis) net s).2)
    /\ merged_and_sorted kpi_year_le
         (run_calls (main_calls country_code selected_kpis) net s).1 df.
Proof.
  intros Hnet Hwho Hwb Hoecd.
  pose proof (main_loops_run net selected_kpis Hnet Hwb Hoecd country_code [] s Hwho)
    as Hloops.
  destruct (combine_merged_and_sorted Pandas.by_kpi_year kpi_year_le
              (run_calls (main_calls country_code selected_kpis) net s).1 net
              (run_calls (main_calls country_code selected_kpis) net s).2
              sort_values_kpi_year) as (df & Hdf & Hmerged).
  exists df. split; [|exact Hmerged].
  unfold Main.extract_all_data. unfold mbind, M_bind in *.
  destruct (extract_each Main.who_gho_kpis _ _ _ _ net s) as [[a1|e1] s1];
    [|discriminate Hloops].
  destruct (extract_each world_bank_kpis _ _ _ _ net s1) as [[a2|e2] s2];
    [|discriminate Hloops].
  rewrite Hloops. exact Hdf.
Qed.

Lemma strtest_extract_data_run (net : Net) (s : State) (selected_kpis : selection)
    (country_codes : list string) :
  ordinary_net net ->
  known Strtest.who_gho_kpis (selected_kpis WHO_GHO) ->
  known world_bank_kpis (selected_kpis WORLD_BANK) ->
  known oecd_kpis (selected_kpis OECD) ->
  Forall listed country_codes ->
  exists df,
    Strtest.extract_data_for_countries country_codes selected_kpis net s
    = (Ok df, (run_calls (strtest_calls country_codes selected_kpis) net s).2)
    /\ merged_and_sorted country_kpi_year_le
         (run_calls (strtest_calls country_codes selected_kpis) net s).1 df.
Proof.
  intros Hnet Hwho Hwb Hoecd Hlisted.
  pose proof (extract_countries_run net selected_kpis Hnet Hwb Hoecd country_codes [] s
                Hwho Hlisted) as Hloops.
  destruct (combine_merged_and_sorted Pandas.by_country_kpi_year country_kpi_year_le
              (run_calls (strtest_calls country_codes selected_kpis) net s).1 net
              (run_calls (strtest_calls country_codes selected_kpis) net s).2
              sort_values_country_kpi_year) as (df & Hdf & Hmerged).
  exists df. split; [|exact Hmerged].
  unfold Strtest.extract_data_for_countries. unfold mbind, M_bind.
  rewrite Hloops. exact Hdf.
Qed.

Lemma adapter_requests_length catalogue request kpis :
  length (adapter_requests catalogue request kpis) = length kpis.
Proof. apply length_map. Qed.

Lemma main_requests_length (country_code : string) (selected_kpis : selection) :
  length (main_requests country_code selected_kpis) = total_selected selected_kpis.
Proof.
  unfold main_requests, total_selected.
  rewrite !length_app, !adapter_requests_length. lia.
Qed.

Lemma strtest_requests_length (country_codes : list string) (selected_kpis : selection) :
  length (strtest_requests country_codes selected_kpis)
  = (length country_codes * Strtest.total_kpis selected_kpis)%nat.
Proof.
  unfold strtest_requests.
  induction country_codes as [|c cs IH]; simpl; [reflexivity|].
  rewrite length_app, IH. unfold strtest_country_requests, Strtest.total_kpis.
  rewrite !length_app, !adapter_requests_length. lia.
Qed.

(** X16.  With the selected indicators taken from the catalogues and a
    network that is not interrupted, [extract_all_data] of [main.py]
    sends one GET for each selected indicator, repeats included, and no
    other: first those of WHO GHO, then those of the World Bank, then
    those of the OECD, each group in the order of the selection.  A
    failed request is not sent again and does not stop the later ones. *)
Theorem X16_terminal_requests_source_by_source
    (net : Net) (s : State) (selected_kpis : selection) (country_code : string) :
  ordinary_net net ->
  known Main.who_gho_kpis (selected_kpis WHO_GHO) ->
  known world_bank_kpis (selected_kpis WORLD_BANK) ->
  known oecd_kpis (selected_kpis OECD) ->
  sent (Main.extract_all_data country_code selected_kpis net s).2
  = sent s ++ main_requests country_code selected_kpis
  /\ length (main_requests country_code selected_kpis) = total_selected selected_kpis.
Proof.
  intros Hnet Hwho Hwb Hoecd. split; [|apply main_requests_length].
  destruct (main_extract_all_data_run net s selected_kpis country_code
              Hnet Hwho Hwb Hoecd) as (df & -> & _).
  cbn [snd]. apply run_calls_sent.
  - now apply main_calls_total.
  - apply main_calls_sends.
Qed.

Lemma X16_terminal_requests_source_by_source_witness :
  sent (Main.extract_all_data "IND" one_of_each unreachable start).2
  = [who_gho_request "WHS4_100"; world_bank_request "IND" "SP.DYN.LE00.IN";
     oecd_request "IND" "Hospital beds by function of healthcare" "HOSP_BEDS_FUNC"].
Proof.
  destruct one_of_each_known as (Hwho & Hwb & Hoecd).
  assert (Hnet : ordinary_net unreachable) by (intros n r; reflexivity).
  exact (proj1 (X16_terminal_requests_source_by_source unreachable start one_of_each
                  "IND" Hnet Hwho Hwb Hoecd)).
Defined.

(** X17.  With the selected indicators taken from the catalogues, the
    country codes from [self.countries] and a network that is not
    interrupted, [extract_data_for_countries] of [strtest.py] sends, for
    each country in turn, one GET for each selected indicator, source by
    source: the number of countries times the number of indicators in
    all. *)
Theorem X17_dashboard_requests_country_by_country
    (net : Net) (s : State) (selected_kpis : selection) (country_codes : list string) :
  ordinary_net net ->
  known Strtest.who_gho_kpis (selected_kpis WHO_GHO) ->
  known world_bank_kpis (selected_kpis WORLD_BANK) ->
  known oecd_kpis (selected_kpis OECD) ->
  Forall listed country_codes ->
  sent (Strtest.extract_data_for_countries country_codes selected_kpis net s).2
  = sent s ++ strtest_requests country_codes selected_kpis
  /\ length (strtest_requests country_codes selected_kpis)
     = (length country_codes * Strtest.total_kpis selected_kpis)%nat.
Proof.
  intros Hnet Hwho Hwb Hoecd Hlisted.
  split; [|apply strtest_requests_length].
  destruct (strtest_extract_data_run net s selected_kpis country_codes
              Hnet Hwho Hwb Hoecd Hlisted) as (df & -> & _).
  cbn [snd]. apply run_calls_sent.
  - now apply strtest_calls_total.
  - apply strtest_calls_sends.
Qed.

(** With two countries the WHO GHO request, which does not name the
    country, is sent twice. *)
Lemma X17_dashboard_requests_country_by_country_witness :
  sent (Strtest.extract_data_for_countries ["IND"; "DEU"] one_of_each unreachable start).2
  = [who_gho_request "WHS4_100"; world_bank_request "IND" "SP.DYN.LE00.IN";
     oecd_request "IND" "Hospital beds by function of healthcare" "HOSP_BEDS_FUNC";
     who_gho_request "WHS4_100"; world_bank_request "DEU" "SP.DYN.LE00.IN";
     oecd_request "DEU" "Hospital beds by function of healthcare" "HOSP_BEDS_FUNC"].
Proof.
  destruct one_of_each_known as (_ & Hwb & Hoecd).
  assert (Hwho : known Strtest.who_gho_kpis (one_of_each WHO_GHO))
    by (repeat constructor; now eexists).
  assert (Hnet : ordinary_net unreachable) by (intros n r; reflexivity).
  assert (Hlisted : Forall listed ["IND"; "DEU"])
    by (repeat constructor; eexists; reflexivity).
  exact (proj1 (X17_dashboard_requests_country_by_country unreachable start one_of_each
                  ["IND"; "DEU"] Hnet Hwho Hwb Hoecd Hlisted)).
Defined.

(** ** A whole run of [main.py] *)




(** ** A pass of the dashboard *)





(** ** The script of [main.py] and the user who interrupts it *)

Definition newline : string := String (ascii_of_nat 10) EmptyString.

Definition cancelled : string :=
  newline +:+ newline +:+ "👋 Extraction cancelled by user.".

Definition an_error_occurred (e : exn) : string :=
  newline +:+ "❌ An error occurred: " +:+ exn_msg e.

(** The block under [if __name__ == "__main__":] of [main.py]:
    [try: extractor.run() / except KeyboardInterrupt: print(...) /
     except Exception as e: print(...)]. *)
Definition main_script (country_line selection_line : string) : M unit :=
  fun net s =>
    match Main.run country_line selection_line net s with
    | (Raise e, s') =>
        match exn_cls e with
        | KeyboardInterrupt => print cancelled net s'
        | _ => print (an_error_occurred e) net s'
        end
    | r => r
    end.

(** The loop body of [extract_each], over calls that are already made
    up. *)
Fixpoint run_each (calls : list (M DataFrame)) (all_data : list DataFrame)
  : M (list DataFrame) :=
  match calls with
  | [] => mret all_data
  | call :: rest =>
      data ← call;
      run_each rest (if empty data then all_data else all_data ++ [data])
  end.

Lemma extract_each_calls catalogue adapter country_code kpis all_data net s :
  known catalogue kpis ->
  extract_each catalogue adapter country_code kpis all_data net s
  = run_each (adapter_calls catalogue adapter country_code kpis) all_data net s.
Proof.
  intros Hk. revert all_data s.
  induction Hk as [|kpi kpis [code Hcode] _ IH]; intros all_data s; [reflexivity|].
  cbn [extract_each adapter_calls map run_each].
  unfold mbind, M_bind, lift, getitem. rewrite Hcode. cbn [default]. unfold id.
  destruct (adapter country_code kpi code net s) as [[data|e] s']; [|reflexivity].
  apply IH.
Qed.

Lemma run_each_app (a b : list (M DataFrame)) (all_data : list DataFrame)
    (net : Net) (s : State) :
  run_each (a ++ b) all_data net s
  = (all_data ← run_each a all_data; run_each b all_data) net s.
Proof.
  revert all_data s. induction a as [|call a IH]; intros all_data s; [reflexivity|].
  cbn [app run_each]. unfold mbind, M_bind.
  destruct (call net s) as [[data|e] s']; [|reflexivity].
  rewrite IH. reflexivity.
Qed.

Lemma main_extract_all_data_calls (net : Net) (s : State) (selected_kpis : selection)
    (country_code : string) :
  selection_known selected_kpis ->
  Main.extract_all_data country_code selected_kpis net s
  = (all_data ← run_each (main_calls country_code selected_kpis) [];
     match all_data with
     | [] => mret []
     | _ => mret (Pandas.sort_values Pandas.by_kpi_year (Pandas.concat all_data))
     end) net s.
Proof.
  intros Hk. unfold Main.extract_all_data, main_calls.
  unfold mbind, M_bind. rewrite run_each_app. unfold mbind, M_bind.
  rewrite (extract_each_calls Main.who_gho_kpis) by apply (Hk WHO_GHO).
  destruct (run_each _ [] net s) as [[a1|e1] s1]; [|reflexivity].
  rewrite run_each_app. unfold mbind, M_bind.
  rewrite (extract_each_calls world_bank_kpis) by apply (Hk WORLD_BANK).
  destruct (run_each _ a1 net s1) as [[a2|e2] s2]; [|reflexivity].
  rewrite (extract_each_calls oecd_kpis) by apply (Hk OECD).
  reflexivity.
Qed.

(** What a call of an adapter does on the answer to its request [r]:
    on an answer that is no interruption it returns a table, having sent
    [r] and shown nothing but printed lines; an interruption raised by
    the GET comes out of the call; nothing else ever does. *)
Definition adapter_like (net : Net) (call : M DataFrame) (r : Request) : Prop :=
  forall s,
    (ordinary_response (net (length (sent s)) r) ->
     exists table s' lines,
       call net s = (Ok table, s')
       /\ sent s' = sent s ++ [r] /\ shown s' = shown s ++ map Print lines)
    /\ (forall e, net (length (sent s)) r = Raise e -> is_Exception e = false ->
        call net s = (Raise e, after_get s r))
    /\ (forall e s', call net s = (Raise e, s') -> exn_cls e = KeyboardInterrupt).

Lemma not_Exception (e : exn) : is_Exception e = false -> exn_cls e = KeyboardInterrupt.
Proof. unfold is_Exception. now destruct (exn_cls e). Qed.

Lemma main_end_like {P} (decode : Response -> exc P)
    (extract : P -> exc (list record)) (r : exc Response) (kpi_name : string)
    (s : State) :
  (forall response, ordinary_response (Ok response) -> ordinary (decode response)) ->
  (forall data, ordinary (extract data)) ->
  (ordinary_response r ->
   exists table s' lines,
     main_end kpi_name (attempt decode extract r) s = (Ok table, s')
     /\ sent s' = sent s /\ shown s' = shown s ++ map Print lines)
  /\ (forall e, r = Raise e -> is_Exception e = false ->
      main_end kpi_name (attempt decode extract r) s = (Raise e, s))
  /\ (forall e s', main_end kpi_name (attempt decode extract r) s = (Raise e, s') ->
      exn_cls e = KeyboardInterrupt).
Proof.
  intros Hd He. split; [|split].
  - intros Hr. pose proof (attempt_ordinary decode extract r Hr Hd He) as Ho.
    unfold main_end. destruct (attempt decode extract r) as [[|x records]|e].
    + eexists _, _, [_]. now repeat split.
    + exists (x :: records), s, []. repeat split. cbn. now rewrite app_nil_r.
    + cbn in Ho. rewrite Ho. eexists _, _, [_]. now repeat split.
  - intros e -> Hint. unfold main_end. cbn. now rewrite Hint.
  - intros e s'. unfold main_end.
    destruct (attempt decode extract r) as [[|x records]|e0]; try discriminate.
    destruct (is_Exception e0) eqn:Hint; [discriminate|].
    intros H. injection H as <- _. now apply not_Exception.
Qed.

Ltac adapter_like_from run_lemma decode_ordinary records_ordinary :=
  intros s; rewrite run_lemma;
  match goal with
  | |- context [main_end ?kpi (attempt ?decode ?extract ?r) ?s'] =>
      exact (main_end_like decode extract r kpi s' decode_ordinary
               (records_ordinary _ _))
  end.

Section AdapterLike.

Variables (net : Net) (country_code kpi code : string).

Lemma main_who_gho_like :
  adapter_like net (Main.extract_who_gho_data country_code kpi code)
    (who_gho_request code).
Proof. adapter_like_from main_who_gho_run json_ordinary who_gho_records_ordinary. Qed.

Lemma main_world_bank_like :
  adapter_like net (Main.extract_world_bank_data country_code kpi code)
    (world_bank_request country_code code).
Proof.
  adapter_like_from main_world_bank_run json_ordinary world_bank_records_ordinary.
Qed.

Lemma main_oecd_like :
  adapter_like net (Main.extract_oecd_data country_code kpi code)
    (oecd_request country_code kpi code).
Proof. adapter_like_from main_oecd_run csv_ordinary oecd_records_ordinary. Qed.

End AdapterLike.

Lemma adapter_calls_like catalogue adapter request country_code kpis net :
  (forall kpi code, adapter_like net (adapter country_code kpi code) (request kpi code)) ->
  Forall2 (adapter_like net) (adapter_calls catalogue adapter country_code kpis)
    (adapter_requests catalogue request kpis).
Proof.
  intros H. unfold adapter_calls, adapter_requests.
  induction kpis as [|kpi kpis IH]; simpl; constructor; [apply H | exact IH].
Qed.

Lemma main_calls_like (net : Net) (country_code : string) (selected_kpis : selection) :
  Forall2 (adapter_like net) (main_calls country_code selected_kpis)
    (main_requests country_code selected_kpis).
Proof.
  unfold main_calls, main_requests.
  repeat apply Forall2_app; apply adapter_calls_like; intros kpi code.
  - apply main_who_gho_like.
  - apply main_world_bank_like.
  - apply main_oecd_like.
Qed.


Lemma run_each_interrupted (calls : list (M DataFrame)) (requests : list Request)
    (net : Net) (m : string) :
  Forall2 (adapter_like net) calls requests ->
  forall (k : nat) (all_data : list DataFrame) (s : State),
    (k < length calls)%nat ->
    (forall j r, (j < k)%nat -> ordinary_response (net (length (sent s) + j)%nat r)) ->
    (forall r, net (length (sent s) + k)%nat r = Raise (Exn KeyboardInterrupt m)) ->
    exists s' lines,
      run_each calls all_data net s = (Raise (Exn KeyboardInterrupt m), s')
      /\ sent s' = sent s ++ take (S k) requests
      /\ shown s' = shown s ++ map Print lines.
Proof.
  induction 1 as [|call r calls requests Hcall _ IH]; intros k all_data s Hk Hbefore Hint;
    [simpl in Hk; lia|].
  cbn [run_each]. unfold mbind, M_bind at 1.
  destruct (Hcall s) as (Hok & Hraise & _). destruct k as [|k].
  - rewrite Nat.add_0_r in Hint. rewrite (Hraise _ (Hint r) eq_refl).
    exists (after_get s r), []. repeat split. cbn. now rewrite app_nil_r.
  - destruct Hok as (table & s0 & lines0 & -> & Hsent & Hshown).
    { specialize (Hbefore 0%nat r ltac:(lia)). now rewrite Nat.add_0_r in Hbefore. }
    destruct (IH k (if empty table then all_data else all_data ++ [table]) s0)
      as (s' & lines & Hrun & Hsent' & Hshown').
    + simpl in Hk. lia.
    + intros j q Hj. rewrite Hsent, length_app. cbn [length].
      replace (length (sent s) + 1 + j)%nat with (length (sent s) + S j)%nat by lia.
      apply Hbefore. lia.
    + intros q. rewrite Hsent, length_app. cbn [length].
      replace (length (sent s) + 1 + k)%nat with (length (sent s) + S k)%nat by lia.
      apply Hint.
    + exists s', (lines0 ++ lines). split; [exact Hrun|]. split.
      * rewrite Hsent', Hsent, <- app_assoc. reflexivity.
      * rewrite Hshown', Hshown, map_app, <- app_assoc. reflexivity.
Qed.

Lemma selection_of_numbers_known (numbers : list Z) :
  selection_known (foldl Main.select no_selection numbers).
Proof. apply foldl_select_known. intros db. constructor. Qed.

(** X20.  If the user interrupts the terminal program during one of its
    requests, the requests before it having been answered in any other
    way, the run stops there: the later requests are not sent, no table
    is shown and nothing is exported, and the script ends on the line
    that says the extraction was cancelled, after the warnings of the
    earlier requests. *)
Theorem X20_interrupt_cancels_the_run
    (net : Net) (s : State) (country_line selection_line : string)
    (numbers : list Z) (k : nat) (m : string) :
  selection_numbers selection_line = Ok numbers ->
  (k < length (filter on_menu numbers))%nat ->
  (forall j r, (j < k)%nat -> ordinary_response (net (length (sent s) + j)%nat r)) ->
  (forall r, net (length (sent s) + k)%nat r = Raise (Exn KeyboardInterrupt m)) ->
  exists s' lines,
    main_script country_line selection_line net s = (Ok tt, s')
    /\ sent s'
       = sent s ++ take (S k) (main_requests (Main.get_country_input country_line)
                                 (foldl Main.select no_selection numbers))
    /\ shown s' = shown s ++ map Print lines ++ [Print cancelled].
Proof.
  intros Hnumbers Hk Hbefore Hint.
  set (country_code := Main.get_country_input country_line).
  set (selected_kpis := foldl Main.select no_selection numbers).
  pose proof (selection_of_numbers_known numbers) as Hknown. fold selected_kpis in Hknown.
  pose proof (main_calls_like net country_code selected_kpis) as Hlike.
  destruct (run_each_interrupted _ _ net m Hlike k [] s) as (s' & lines & Hrun & Hsent & Hshown).
  - rewrite (Forall2_length _ _ _ Hlike), main_requests_length.
    unfold selected_kpis. now rewrite total_selected_foldl.
  - exact Hbefore.
  - exact Hint.
  - exists (add_shown s' (Print cancelled)), lines. split; [|split].
    + unfold main_script, Main.run, mbind, M_bind, lift.
      rewrite display_kpis_numbers, Hnumbers. cbn [mbind exc_bind].
      fold selected_kpis country_code.
      rewrite main_extract_all_data_calls by exact Hknown.
      unfold mbind, M_bind. rewrite Hrun. reflexivity.
    + exact Hsent.
    + cbn [add_shown shown]. now rewrite Hshown, <- app_assoc.
Qed.

(** The second of three requests is interrupted. *)
Definition interrupted_second : Net := fun n r =>
  match n with
  | 1%nat => raise KeyboardInterrupt ""
  | _ => unreachable n r
  end.

Lemma X20_interrupt_cancels_the_run_witness :
  exists s' lines,
    main_script "india" "12, 3, 25" interrupted_second start = (Ok tt, s')
    /\ sent s' = [who_gho_request "WHS4_100"; world_bank_request "IND" "SP.DYN.LE00.IN"]
    /\ shown s' = map Print lines ++ [Print cancelled].
Proof.
  destruct (X20_interrupt_cancels_the_run interrupted_second start "india" "12, 3, 25"
              [12; 3; 25] 1 "") as (s' & lines & Hrun & Hsent & Hshown).
  - reflexivity.
  - vm_compute. lia.
  - intros [|j] r Hj; [reflexivity | lia].
  - reflexivity.
  - exists s', lines. split; [exact Hrun|]. split.
    + rewrite Hsent. reflexivity.
    + rewrite Hshown. reflexivity.
Defined.



(** ** Where the rows of the merged table come from *)

(** The [Source] written by the adapter of a catalogue. *)
Definition source_label (db : database) : string :=
  match db with
  | WHO_GHO => "WHO GHO"
  | WORLD_BANK => "World Bank"
  | OECD => "OECD"
  end.

(** A row that answers the request of the user: its country is one of
    those asked for, and its indicator was selected under the source
    the row names. *)
Definition asked (country_codes : list string) (selected_kpis : selection)
    (r : record) : Prop :=
  Country r ∈ country_codes
  /\ exists db, KPI r ∈ selected_kpis db /\ Source r = source_label db.

Lemma returned_Ok (res : exc DataFrame * State) (table : DataFrame) (s' : State) :
  res = (Ok table, s') -> returned res = table.
Proof. now intros ->. Qed.

Lemma extract_each_Forall (P : record -> Prop) catalogue adapter country_code kpis :
  (forall kpi code net s table s',
     kpi ∈ kpis ->
     adapter country_code kpi code net s = (Ok table, s') -> Forall P table) ->
  forall all_data net s out s',
    Forall (Forall P) all_data ->
    extract_each catalogue adapter country_code kpis all_data net s = (Ok out, s') ->
    Forall (Forall P) out.
Proof.
  induction kpis as [|kpi kpis IH]; intros Hadapter all_data net s out s' Hall;
    cbn [extract_each]; unfold mbind, M_bind, lift.
  - intros H. injection H as <- _. exact Hall.
  - destruct (getitem catalogue kpi) as [code|e]; [|discriminate].
    destruct (adapter country_code kpi code net s) as [[data|e] s1] eqn:Hcall;
      [|discriminate].
    apply IH.
    + intros k c n t table t' Hin. apply Hadapter. now constructor.
    + destruct data as [|r data]; cbn [empty]; [exact Hall|].
      apply Forall_app. split; [exact Hall|]. constructor; [|constructor].
      eapply Hadapter; [|exact Hcall]. constructor.
Qed.

Section Rows.

Variables (country_codes : list string) (selected_kpis : selection).
Variables (country_code : string).
Hypothesis country_asked : country_code ∈ country_codes.

Lemma labelled_asked (db : database) (kpi : string) (table : DataFrame) :
  kpi ∈ selected_kpis db ->
  labelled country_code kpi (source_label db) table ->
  Forall (asked country_codes selected_kpis) table.
Proof.
  intros Hin Hl. eapply Forall_impl; [exact Hl|]. intros r (Hc & Hk & Hs). split.
  - now rewrite Hc.
  - exists db. now rewrite Hk, Hs.
Qed.

Ltac rows_from run_lemma end_returned rows_labelled db :=
  intros Hin Hcall; apply returned_Ok in Hcall; rewrite <- Hcall, run_lemma;
  apply end_returned; intros records Hrecords;
  apply (labelled_asked db _ _ Hin); exact (rows_labelled _ _ _ _ Hrecords).

Lemma main_who_gho_rows kpi code net s table s' :
  kpi ∈ selected_kpis WHO_GHO ->
  Main.extract_who_gho_data country_code kpi code net s = (Ok table, s') ->
  Forall (asked country_codes selected_kpis) table.
Proof. rows_from main_who_gho_run main_end_returned who_gho_labelled WHO_GHO. Qed.

Lemma main_world_bank_rows kpi code net s table s' :
  kpi ∈ selected_kpis WORLD_BANK ->
  Main.extract_world_bank_data country_code kpi code net s = (Ok table, s') ->
  Forall (asked country_codes selected_kpis) table.
Proof. rows_from main_world_bank_run main_end_returned world_bank_labelled WORLD_BANK. Qed.

Lemma main_oecd_rows kpi code net s table s' :
  kpi ∈ selected_kpis OECD ->
  Main.extract_oecd_data country_code kpi code net s = (Ok table, s') ->
  Forall (asked country_codes selected_kpis) table.
Proof. rows_from main_oecd_run main_end_returned oecd_labelled OECD. Qed.

Lemma strtest_who_gho_rows kpi code net s table s' :
  kpi ∈ selected_kpis WHO_GHO ->
  Strtest.extract_who_gho_data country_code kpi code net s = (Ok table, s') ->
  Forall (asked country_codes selected_kpis) table.
Proof. rows_from strtest_who_gho_run strtest_end_returned who_gho_labelled WHO_GHO. Qed.

Lemma strtest_world_bank_rows kpi code net s table s' :
  kpi ∈ selected_kpis WORLD_BANK ->
  Strtest.extract_world_bank_data country_code kpi code net s = (Ok table, s') ->
  Forall (asked country_codes selected_kpis) table.
Proof.
  rows_from strtest_world_bank_run strtest_end_returned world_bank_labelled WORLD_BANK.
Qed.

Lemma strtest_oecd_rows kpi code net s table s' :
  kpi ∈ selected_kpis OECD ->
  Strtest.extract_oecd_data country_code kpi code net s = (Ok table, s') ->
  Forall (asked country_codes selected_kpis) table.
Proof. rows_from strtest_oecd_run strtest_end_returned oecd_labelled OECD. Qed.

End Rows.

Lemma concat_Forall (P : record -> Prop) (tables : list DataFrame) :
  Forall (Forall P) tables -> Forall P (Pandas.concat tables).
Proof.
  unfold Pandas.concat. induction 1 as [|t tables Ht _ IH]; simpl; [constructor|].
  apply Forall_app. now split.
Qed.

Lemma sorted_concat_Forall (P : record -> Prop) cmp (all_data : list DataFrame) :
  Forall (Forall P) all_data ->
  Forall P (match all_data with
            | [] => []
            | _ => Pandas.sort_values cmp (Pandas.concat all_data)
            end).
Proof.
  intros H. destruct all_data as [|t all_data]; [constructor|].
  rewrite sort_values_Permutation. now apply concat_Forall.
Qed.

Lemma extract_countries_Forall (selected_kpis : selection) (all_codes : list string)
    (country_codes : list string) :
  country_codes ⊆ all_codes ->
  forall all_data net s out s',
    Forall (Forall (asked all_codes selected_kpis)) all_data ->
    Strtest.extract_countries country_codes selected_kpis all_data net s = (Ok out, s') ->
    Forall (Forall (asked all_codes selected_kpis)) out.
Proof.
  induction country_codes as [|c cs IH]; intros Hsub all_data net s out s' Hall;
    cbn [Strtest.extract_countries]; unfold mbind, M_bind, lift.
  - intros H. injection H as <- _. exact Hall.
  - assert (Hc : c ∈ all_codes) by (apply Hsub; constructor).
    destruct (Strtest.country_name c) as [name|e]; [|discriminate].
    destruct (extract_each Strtest.who_gho_kpis _ c _ all_data net s)
      as [[a1|e1] s1] eqn:H1; [|discriminate].
    destruct (extract_each world_bank_kpis _ c _ a1 net s1)
      as [[a2|e2] s2] eqn:H2; [|discriminate].
    destruct (extract_each oecd_kpis _ c _ a2 net s2)
      as [[a3|e3] s3] eqn:H3; [|discriminate].
    apply IH; [intros x Hx; apply Hsub; now constructor|].
    eapply extract_each_Forall; [| |exact H3].
    { intros kpi code n t table t'. now apply strtest_oecd_rows. }
    eapply extract_each_Forall; [| |exact H2].
    { intros kpi code n t table t'. now apply strtest_world_bank_rows. }
    eapply extract_each_Forall; [| |exact H1].
    { intros kpi code n t table t'. now apply strtest_who_gho_rows. }
    exact Hall.
Qed.

Lemma main_rows_asked (net : Net) (s : State) (selected_kpis : selection)
    (country_code : string) :
  Forall (asked [country_code] selected_kpis)
    (returned (Main.extract_all_data country_code selected_kpis net s)).
Proof.
  assert (Hc : country_code ∈ [country_code]) by constructor.
  unfold returned, Main.extract_all_data, mbind, M_bind.
  destruct (extract_each Main.who_gho_kpis _ _ _ [] net s)
    as [[a1|e1] s1] eqn:H1; [|constructor].
  destruct (extract_each world_bank_kpis _ _ _ a1 net s1)
    as [[a2|e2] s2] eqn:H2; [|constructor].
  destruct (extract_each oecd_kpis _ _ _ a2 net s2)
    as [[a3|e3] s3] eqn:H3; [|constructor].
  assert (Hall : Forall (Forall (asked [country_code] selected_kpis)) a3).
  { eapply extract_each_Forall; [| |exact H3].
    { intros kpi code n t table t'. now apply main_oecd_rows. }
    eapply extract_each_Forall; [| |exact H2].
    { intros kpi code n t table t'. now apply main_world_bank_rows. }
    eapply extract_each_Forall; [| |exact H1].
    { intros kpi code n t table t'. now apply main_who_gho_rows. }
    constructor. }
  apply (sorted_concat_Forall _ Pandas.by_kpi_year) in Hall.
  now destruct a3.
Qed.

Lemma strtest_rows_asked (net : Net) (s : State) (selected_kpis : selection)
    (country_codes : list string) :
  Forall (asked country_codes selected_kpis)
    (returned (Strtest.extract_data_for_countries country_codes selected_kpis net s)).
Proof.
  unfold returned, Strtest.extract_data_for_countries, mbind, M_bind.
  destruct (Strtest.extract_countries country_codes selected_kpis [] net s)
    as [[out|e] s'] eqn:Hrun; [|constructor].
  assert (Hall : Forall (Forall (asked country_codes selected_kpis)) out).
  { eapply extract_countries_Forall; [| |exact Hrun]; [done | constructor]. }
  apply (sorted_concat_Forall _ Pandas.by_country_kpi_year) in Hall.
  now destruct out.
Qed.

(** X22.  Whatever the three services answer, every row of the table
    returned by [extract_all_data] and by [extract_data_for_countries]
    answers the request: its country is the one, or one of those, asked
    for, its indicator is one of the selected names, and its [Source] is
    the source under which that name was selected.  No row of another
    country or of an indicator that was not selected enters the table. *)
Theorem X22_every_row_was_asked_for
    (net : Net) (s : State) (selected_kpis : selection)
    (country_code : string) (country_codes : list string) :
  Forall (asked [country_code] selected_kpis)
    (returned (Main.extract_all_data country_code selected_kpis net s))
  /\ Forall (asked country_codes selected_kpis)
       (returned (Strtest.extract_data_for_countries country_codes selected_kpis net s)).
Proof. split; [apply main_rows_asked | apply strtest_rows_asked]. Qed.

(** ** The tables by source and by country *)

Module UniqueFacts.



End UniqueFacts.

Section Partition.

Context {K : Type} `{EqDecision K}.
Variable key : record -> K.

(** [df[df[column] == k]]. *)
Definition rows_of (df : list record) (k : K) : list record :=
  filter (fun r => key r = k) df.

Lemma rows_of_nil (ks : list K) : flat_map (rows_of []) ks = [].
Proof. induction ks as [|k ks IH]; [reflexivity | exact IH]. Qed.

Lemma rows_of_other (r : record) (df : list record) (ks : list K) :
  key r ∉ ks -> flat_map (rows_of (r :: df)) ks = flat_map (rows_of df) ks.
Proof.
  induction ks as [|k ks IH]; [reflexivity|]. intros Hnot.
  apply not_elem_of_cons in Hnot as [Hk Hks]. cbn [flat_map].
  rewrite IH by exact Hks. unfold rows_of at 1.
  now rewrite filter_cons_False.
Qed.

Lemma rows_of_one (r : record) (df : list record) (ks : list K) :
  NoDup ks -> key r ∈ ks ->
  flat_map (rows_of (r :: df)) ks ≡ₚ r :: flat_map (rows_of df) ks.
Proof.
  induction 1 as [|k ks Hnot Hnd IH]; intros Hin; [now apply elem_of_nil in Hin|].
  cbn [flat_map]. destruct (decide (key r = k)) as [Hk|Hk].
  - rewrite rows_of_other by now rewrite Hk.
    unfold rows_of at 1. now rewrite filter_cons_True.
  - apply elem_of_cons in Hin as [Hin|Hin]; [done|].
    rewrite IH by exact Hin. unfold rows_of at 1.
    rewrite filter_cons_False by exact Hk. symmetry. apply Permutation_middle.
Qed.

(** The tables of the keys [ks], which are all different, hold each row
    of [df] once when every row has its key among [ks]. *)
Lemma partition_by_key (ks : list K) (df : list record) :
  NoDup ks -> Forall (fun r => key r ∈ ks) df ->
  flat_map (rows_of df) ks ≡ₚ df.
Proof.
  intros Hnd. induction 1 as [|r df Hr _ IH]; [now rewrite rows_of_nil|].
  now rewrite rows_of_one, IH.
Qed.

End Partition.


Lemma concat_map (A : Type) (f : A -> DataFrame) (l : list A) :
  Pandas.concat (map f l) = flat_map f l.
Proof.
  unfold Pandas.concat. induction l as [|x l IH]; [reflexivity|].
  cbn. now rewrite <- IH.
Qed.






(** The tab "By Country" of the dashboard:
    [for country in countries: country_code = extractor.countries[country];
     country_data = df[df['Country'] == country_code];
     if not country_data.empty: ...], with the sections it shows, each
    under the name of its country. *)
Definition by_country (countries : list string) (df : DataFrame)
  : exc (list (string * DataFrame)) :=
  sections ←
    mapM (fun country =>
            country_code ← getitem Strtest.countries country;
            mret (country, filter (fun r => Country r = country_code) df))
         countries;
  mret (filter (fun section => empty section.2 = false) sections).

Lemma countries_one_name (name1 name2 code : string) :
  getitem Strtest.countries name1 = Ok code ->
  getitem Strtest.countries name2 = Ok code ->
  name1 = name2.
Proof.
  intros H1 H2. apply getitem_elem_of in H1, H2.
  pose proof (proj1 (Forall_forall _ _) countries_round_trip _ H1) as R1.
  pose proof (proj1 (Forall_forall _ _) countries_round_trip _ H2) as R2.
  simpl in R1, R2. congruence.
Qed.

Lemma codes_NoDup (names codes : list string) :
  Forall2 (fun name code => getitem Strtest.countries name = Ok code) names codes ->
  NoDup names -> NoDup codes.
Proof.
  induction 1 as [|name code names codes Hget Hrest IH]; intros Hnd; [constructor|].
  apply NoDup_cons in Hnd as [Hnot Hnd]. constructor; [|now apply IH].
  intros Hin. apply Hnot.
  apply list_elem_of_lookup in Hin as (i & Hi).
  destruct (Forall2_lookup_r _ _ _ _ _ Hrest Hi) as (name' & Hname' & Hget').
  rewrite (countries_one_name _ _ _ Hget Hget').
  now apply list_elem_of_lookup_2 in Hname'.
Qed.

Lemma mapM_cons_Ok {A B} (f : A -> exc B) (x : A) (l : list A) (y : B) (k : list B) :
  f x = Ok y -> mapM f l = Ok k -> mapM f (x :: l) = Ok (y :: k).
Proof.
  intros Hx Hl. cbn [mapM]. rewrite Hx.
  change (mapM f l ≫= (fun k => mret (y :: k)) = Ok (y :: k)). now rewrite Hl.
Qed.

Lemma by_country_sections (names codes : list string) (df : DataFrame) :
  Forall2 (fun name code => getitem Strtest.countries name = Ok code) names codes ->
  exists sections,
    mapM (fun country =>
            country_code ← getitem Strtest.countries country;
            mret (country, filter (fun r => Country r = country_code) df))
         names
    = Ok sections
    /\ map snd sections = map (rows_of Country df) codes
    /\ Forall (fun section => section.1 ∈ names) sections.
Proof.
  induction 1 as [|name code names codes Hget _ (sections & Hrun & Hsnd & Hfst)].
  - exists []. repeat split. constructor.
  - exists ((name, rows_of Country df code) :: sections). split; [|split].
    + apply mapM_cons_Ok; [now rewrite Hget | exact Hrun].
    + cbn. now rewrite Hsnd.
    + constructor; [now left|].
      eapply Forall_impl; [exact Hfst|]. intros section Hin. now right.
Qed.

Lemma concat_sections (sections : list (string * DataFrame)) :
  Pandas.concat (map snd (filter (fun section => empty section.2 = false) sections))
  = Pandas.concat (map snd sections).
Proof.
  unfold Pandas.concat.
  induction sections as [|[name [|r table]] sections IH]; [reflexivity| |].
  - rewrite filter_cons_False by (cbn; discriminate). exact IH.
  - rewrite filter_cons_True by reflexivity. simpl. now rewrite IH.
Qed.

(** X24.  On the tab "By Country" of the dashboard, the sections shown
    for the table just extracted hold every row of that table exactly
    once, each under a country that was selected, and a country without
    rows gets no section: the look-up of the code of a selected country
    does not fail, and no row belongs to a country that gets no section.
    The countries selected are all different, as the page gives them. *)
Theorem X24_country_sections_hold_each_row_once
    (net : Net) (s : State) (selected_kpis : selection)
    (selected_countries country_codes : list string) (df : DataFrame) :
  NoDup selected_countries ->
  mapM (getitem Strtest.countries) selected_countries = Ok country_codes ->
  df = returned (Strtest.extract_data_for_countries country_codes selected_kpis net s) ->
  exists sections,
    by_country selected_countries df = Ok sections
    /\ Pandas.concat (map snd sections) ≡ₚ df
    /\ Forall (fun section => section.1 ∈ selected_countries /\ section.2 <> [])
         sections.
Proof.
  intros Hnd Hcodes ->. apply mapM_Ok in Hcodes.
  set (df := returned _).
  destruct (by_country_sections _ _ df Hcodes) as (sections & Hrun & Hsnd & Hfst).
  exists (filter (fun section => empty section.2 = false) sections).
  split; [|split].
  - unfold by_country. now rewrite Hrun.
  - rewrite concat_sections. unfold DataFrame in *. rewrite Hsnd, concat_map.
    apply (partition_by_key Country); [now apply (codes_NoDup selected_countries)|].
    eapply Forall_impl; [apply strtest_rows_asked|]. now intros r [Hc _].
  - apply Forall_forall. intros section Hin.
    apply list_elem_of_filter in Hin as [Hrows Hin]. split.
    + exact (proj1 (Forall_forall _ _) Hfst _ Hin).
    + intros Hnil. destruct section as [name table]. simpl in *. now subst table.
Qed.

(** Two countries selected, one request answered for each; the answers
    hold rows of the first country only. *)
Definition one_country_answers : Net :=
  serve_json (JDict [("value", JList [who_gho_item "IND" 2021 (SInt 85);
                                      who_gho_item "IND" 2019 (SInt 91)])]).

Lemma X24_country_sections_hold_each_row_once_witness :
  exists sections,
    by_country ["India"; "Germany"]
      (returned (Strtest.extract_data_for_countries ["IND"; "DEU"]
                   (append_kpi no_selection WHO_GHO "DTP3 immunization coverage (%)")
                   one_country_answers start))
    = Ok sections
    /\ map fst sections = ["India"].
Proof.
  assert (Hnd : NoDup ["India"; "Germany"])
    by (apply (bool_decide_unpack _); vm_compute; exact I).
  destruct (X24_country_sections_hold_each_row_once one_country_answers start
              (append_kpi no_selection WHO_GHO "DTP3 immunization coverage (%)")
              ["India"; "Germany"] ["IND"; "DEU"] _
              Hnd eq_refl eq_refl)
    as (sections & Hrun & _).
  exists sections. split; [exact Hrun|].
  vm_compute in Hrun. injection Hrun as <-. reflexivity.
Defined.

(** * OECD.py *)

(** The stand-alone extractor of [OECD.py].  Of its [print] calls the
    log keeps the two error lines; the response body is read through
    [read_csv], as [pd.read_csv(StringIO(response.text))]. *)
Module OECD_py.

Definition base_url : string := "https://sdmx.oecd.org/public/rest/data/".

(** The truth value of an optional string: [None] and [''] are false. *)
Definition given (arg : option string) : option string :=
  match arg with
  | Some EmptyString => None
  | _ => arg
  end.

(** [url = f"{base_url}{dataset_id}"; if filters: url += f"/{filters}"]. *)
Definition url_of (dataset_id : string) (filters : option string) : string :=
  match given filters with
  | Some f => (base_url +:+ dataset_id) +:+ ("/" +:+ f)
  | None => base_url +:+ dataset_id
  end.

Definition params_of (start_period end_period : option string)
  : list (string * string) :=
  [("dimensionAtObservation", "AllDimensions"); ("format", "csvfilewithlabels")]
  ++ match given start_period with
     | Some p => [("startPeriod", p)]
     | None => []
     end
  ++ match given end_period with
     | Some p => [("endPeriod", p)]
     | None => []
     end.

(** [except requests.exceptions.RequestException]: [HTTPError], raised
    by [raise_for_status], is one. *)
Definition is_RequestException (e : exn) : bool :=
  match exn_cls e with
  | RequestException | HTTPError => true
  | _ => false
  end.

Definition error_fetching (e : exn) : string :=
  "❌ Error fetching data: " +:+ exn_msg e.

Definition error_processing (e : exn) : string :=
  "❌ Error processing data: " +:+ exn_msg e.

Definition extract_oecd_data (dataset_id : string)
    (filters start_period end_period : option string) : M (option (list row)) :=
  fun net s =>
    match (response ← requests_get (url_of dataset_id filters)
                         (params_of start_period end_period);
           lift (raise_for_status response);;
           df ← lift (read_csv response);
           mret (Some df)) net s with
    | (Raise e, s') =>
        if is_RequestException e then (print (error_fetching e);; mret None) net s'
        else if is_Exception e then (print (error_processing e);; mret None) net s'
        else (Raise e, s')
    | r => r
    end.

(** [main]: the two extractions of the script, one after the other. *)
Definition main : M unit :=
  extract_oecd_data "OECD.SDD.NAD,DSD_NAAG@DF_NAAG_I" (Some ".A..........")
    (Some "2020") None;;
  extract_oecd_data "OECD.SDD.STES,DSD_STES@DF_CLI" (Some ".M.LI...AA...H")
    (Some "2023-01") None;;
  mret tt.

End OECD_py.

Lemma string_app_assoc (a b c : string) : (a +:+ b) +:+ c = a +:+ (b +:+ c).
Proof.
  induction a as [|x a IH]; [now rewrite !PyStrFacts.app_empty|].
  now rewrite !PyStrFacts.app_cons, IH.
Qed.

Lemma given_filter (country_code rest : string) :
  OECD_py.given (Some (country_code +:+ "." +:+ rest))
  = Some (country_code +:+ "." +:+ rest).
Proof.
  destruct country_code as [|x a].
  - rewrite PyStrFacts.app_empty. reflexivity.
  - rewrite PyStrFacts.app_cons. reflexivity.
Qed.

(** The request of [extract_oecd_data]. *)
Definition oecd_py_request (dataset_id : string)
    (filters start_period end_period : option string) : Request :=
  Req (OECD_py.url_of dataset_id filters) (OECD_py.params_of start_period end_period).

Lemma oecd_py_sent (dataset_id : string) (filters start_period end_period : option string)
    (net : Net) (s : State) :
  sent (OECD_py.extract_oecd_data dataset_id filters start_period end_period net s).2
  = sent s ++ [Req (OECD_py.url_of dataset_id filters)
                 (OECD_py.params_of start_period end_period)].
Proof.
  unfold OECD_py.extract_oecd_data, requests_get, lift, print, show.
  unfold mbind, mret, M_bind, M_ret.
  destruct (net (length (sent s)) _) as [response|e]; cbn.
  - destruct (raise_for_status response) as [[]|e]; cbn.
    + destruct (read_csv response) as [df|e]; cbn; [reflexivity|].
      destruct (OECD_py.is_RequestException e); [reflexivity|].
      now destruct (is_Exception e).
    + destruct (OECD_py.is_RequestException e); [reflexivity|].
      now destruct (is_Exception e).
  - destruct (OECD_py.is_RequestException e); [reflexivity|].
    now destruct (is_Exception e).
Qed.

(** X25.  The request of the OECD adapter of [main.py] and [strtest.py]
    for a country and an indicator is the request that
    [extract_oecd_data] of [OECD.py] sends for the dataset chosen by the
    name of the indicator, the filter [country.indicator.._T] and the
    period 2015 to 2024: the same address, and the same parameters in
    another order. *)
Theorem X25_adapter_request_is_the_extractor_request
    (country_code kpi_name indicator_code : string) (net : Net) (s : State) :
  exists params,
    sent (OECD_py.extract_oecd_data (oecd_dataset kpi_name)
            (Some (country_code +:+ "." +:+ indicator_code +:+ ".._T"))
            (Some "2015") (Some "2024") net s).2
    = sent s ++ [Req (oecd_url country_code kpi_name indicator_code) params]
    /\ params ≡ₚ oecd_params
    /\ sent (Main.extract_oecd_data country_code kpi_name indicator_code net s).2
       = sent s ++ [Req (oecd_url country_code kpi_name indicator_code) oecd_params].
Proof.
  exists (OECD_py.params_of (Some "2015") (Some "2024")). split; [|split].
  - rewrite oecd_py_sent. do 3 f_equal.
    unfold OECD_py.url_of. rewrite given_filter.
    unfold oecd_url, OECD_py.base_url, api_urls. apply string_app_assoc.
  - cbn. unfold oecd_params.
    apply (Permutation_app_comm [_; _] [_; _]).
  - rewrite main_oecd_run. apply main_end_sent.
Qed.

(** X26.  [extract_oecd_data] of [OECD.py] sends one GET and tells its
    failures apart: when the GET raises a request error or the status
    check raises its HTTP error it prints "Error fetching data" and
    returns [None]; when the body does not parse it prints "Error
    processing data" and returns [None]; when all three steps succeed
    it returns the parsed table and prints neither line, even if the
    table has no row.  With [''] for the filter the address is that of
    the dataset alone, as with no filter. *)
Theorem X26_extractor_tells_fetching_from_processing
    (dataset_id : string) (filters start_period end_period : option string)
    (net : Net) (s : State) :
  (forall e,
     net (length (sent s)) (oecd_py_request dataset_id filters start_period end_period)
     = Raise e ->
     OECD_py.is_RequestException e = true ->
     OECD_py.extract_oecd_data dataset_id filters start_period end_period net s
     = (Ok None,
        add_shown (after_get s (oecd_py_request dataset_id filters start_period end_period))
          (Print (OECD_py.error_fetching e))))
  /\ (forall response e,
        net (length (sent s)) (oecd_py_request dataset_id filters start_period end_period)
        = Ok response ->
        raise_for_status response = Raise e -> exn_cls e = HTTPError ->
        OECD_py.extract_oecd_data dataset_id filters start_period end_period net s
        = (Ok None,
           add_shown
             (after_get s (oecd_py_request dataset_id filters start_period end_period))
             (Print (OECD_py.error_fetching e))))
  /\ (forall response e,
        net (length (sent s)) (oecd_py_request dataset_id filters start_period end_period)
        = Ok response ->
        raise_for_status response = Ok tt ->
        read_csv response = Raise e -> exn_cls e = ParserError ->
        OECD_py.extract_oecd_data dataset_id filters start_period end_period net s
        = (Ok None,
           add_shown
             (after_get s (oecd_py_request dataset_id filters start_period end_period))
             (Print (OECD_py.error_processing e))))
  /\ (forall response df,
        net (length (sent s)) (oecd_py_request dataset_id filters start_period end_period)
        = Ok response ->
        raise_for_status response = Ok tt ->
        read_csv response = Ok df ->
        OECD_py.extract_oecd_data dataset_id filters start_period end_period net s
        = (Ok (Some df),
           after_get s (oecd_py_request dataset_id filters start_period end_period)))
  /\ OECD_py.url_of dataset_id (Some "") = OECD_py.url_of dataset_id None.
Proof.
  unfold OECD_py.extract_oecd_data, oecd_py_request, requests_get, lift, print, show.
  unfold mbind, mret, M_bind, M_ret, after_get, add_shown.
  repeat split.
  - intros e -> He. cbn. now rewrite He.
  - intros response e -> -> He. cbn.
    unfold OECD_py.is_RequestException. now rewrite He.
  - intros response e -> -> -> He. cbn.
    unfold OECD_py.is_RequestException, is_Exception. now rewrite He.
  - intros response df -> -> ->. reflexivity.
Qed.

Lemma X26_extractor_tells_fetching_from_processing_witness :
  OECD_py.extract_oecd_data "OECD.SDD.STES,DSD_STES@DF_CLI" (Some ".M.LI...AA...H")
    (Some "2023-01") None unreachable start
  = (Ok None,
     St [Req "https://sdmx.oecd.org/public/rest/data/OECD.SDD.STES,DSD_STES@DF_CLI/.M.LI...AA...H"
           [("dimensionAtObservation", "AllDimensions"); ("format", "csvfilewithlabels");
            ("startPeriod", "2023-01")]]
        [Print "❌ Error fetching data: connection refused"])
  /\ OECD_py.extract_oecd_data "OECD.SDD.STES,DSD_STES@DF_CLI" None None None
       (serve_csv []) start
     = (Ok (Some []),
        St [Req "https://sdmx.oecd.org/public/rest/data/OECD.SDD.STES,DSD_STES@DF_CLI"
              [("dimensionAtObservation", "AllDimensions");
               ("format", "csvfilewithlabels")]]
           []).
Proof.
  split.
  - exact (proj1 (X26_extractor_tells_fetching_from_processing
                    "OECD.SDD.STES,DSD_STES@DF_CLI" (Some ".M.LI...AA...H")
                    (Some "2023-01") None unreachable start)
             (Exn RequestException "connection refused") eq_refl eq_refl).
  - exact (proj1 (proj2 (proj2 (proj2 (X26_extractor_tells_fetching_from_processing
                    "OECD.SDD.STES,DSD_STES@DF_CLI" None None None (serve_csv []) start))))
             _ [] eq_refl eq_refl eq_refl).
Defined.

(** The script of [OECD.py] sends its two requests even when the first
    fails. *)
Example oecd_py_main_unreachable :
  map url (sent (OECD_py.main unreachable start).2)
  = ["https://sdmx.oecd.org/public/rest/data/OECD.SDD.NAD,DSD_NAAG@DF_NAAG_I/.A..........";
     "https://sdmx.oecd.org/public/rest/data/OECD.SDD.STES,DSD_STES@DF_CLI/.M.LI...AA...H"].
Proof. reflexivity. Qed.
